(** * run_FullRecall.py: feature conversion, truncation and argument checks

    A shallow embedding of the parts of [run_FullRecall.py] (the BERT
    fine-tuning runner for query/passage relevance) that its specification
    states properties about, and the proofs of those properties:
    [_truncate_seq_pair], the two feature converters and the label map they
    build, the [_create_examples] methods of the data processors, the
    learning-rate factor [warmup_linear], and the argument checks at the
    start of [main].

    Conventions.
    - Python [int] is [Z]; [len(l)] is [len l : Z].
    - A Python list is a [list]; in-place mutation ([pop], [+=]) is modelled
      by returning the new list.
    - A call that may raise returns a [result]: [Ok v] or [Raise e].
    - A [dict] is a stdpp [gmap].
    - A Python [float] is a primitive binary64 float.
    - [main] runs in a state-and-exception monad over the file system and the
      state of the external framework.
    - The tokenizer (module [BERT.tokenization]) is outside this file: it is
      a pair of Section variables, with the one contract the converters rely
      on: [convert_tokens_to_ids] maps a list of tokens to a list of ids of
      the same length. Logging is left out. *)

From Stdlib Require Import ZArith QArith Lia Lqa Ascii String.
From Stdlib Require PrimFloat SpecFloat FloatOps FloatAxioms.
From stdpp Require Import base tactics option list strings gmap.
From stdpp Require Import relations pretty.

Local Open Scope string_scope.
Local Open Scope Z_scope.
Local Open Scope list_scope.

(** ** Python values and exceptions *)

Inductive exn : Type :=
| AssertionError
| KeyError
| IndexError
| TokenizerError
| ZeroDivisionError
| NotADirectoryError
| FileNotFoundError
| FileExistsError
| PermissionError
| OverflowError
| ValueError (msg : string).

Inductive result (A : Type) : Type :=
| Ok (a : A)
| Raise (e : exn).
Arguments Ok {A} a.
Arguments Raise {A} e.

#[global] Instance result_ret : MRet result := fun A a => Ok a.
#[global] Instance result_bind : MBind result := fun A B k r =>
  match r with
  | Ok a => k a
  | Raise e => Raise e
  end.

(** [len(l)] *)
Definition len {A : Type} (l : list A) : Z := Z.of_nat (length l).

(** [l[:k]]: a negative bound counts from the end of the list. *)
Definition slice_to {A : Type} (l : list A) (k : Z) : list A :=
  if 0 <=? k then take (Z.to_nat k) l
  else take (Z.to_nat (len l + k)) l.

(** [[x] * n]: the empty list when [n] is not positive. *)
Definition py_repeat {A : Type} (x : A) (n : Z) : list A :=
  replicate (Z.to_nat n) x.

(** [l.pop()]: removes the last item; raises IndexError on the empty list. *)
Definition pop {A : Type} (l : list A) : result (list A) :=
  match l with
  | [] => Raise IndexError
  | _ => Ok (removelast l)
  end.

(** [l[i]] for a non-negative index [i]. *)
Definition index {A : Type} (l : list A) (i : nat) : result A :=
  match l !! i with
  | Some x => Ok x
  | None => Raise IndexError
  end.

(** [l[-1]] *)
Definition index_last {A : Type} (l : list A) : result A :=
  match last l with
  | Some x => Ok x
  | None => Raise IndexError
  end.

(** Tokens are the strings the tokenizer produces. *)
Abbreviation token := string.

(** ** [_truncate_seq_pair] *)

(** One pass through the body of the [while True:] loop. *)
Inductive iteration : Type :=
| Break
| Continue (tokens_a tokens_b : list token)
| Throw (e : exn).

Definition loop_body (tokens_a tokens_b : list token) (max_length : Z)
  : iteration :=
  let total_length := len tokens_a + len tokens_b in
  if total_length <=? max_length then Break
  else if len tokens_a >? len tokens_b then
    match pop tokens_a with
    | Ok tokens_a' => Continue tokens_a' tokens_b
    | Raise e => Throw e
    end
  else
    match pop tokens_b with
    | Ok tokens_b' => Continue tokens_a tokens_b'
    | Raise e => Throw e
    end.

(** The loop, run for at most [fuel] iterations; [None] is "still running". *)
Fixpoint while_true (fuel : nat) (tokens_a tokens_b : list token)
  (max_length : Z) : option (result (list token * list token)) :=
  match fuel with
  | O => None
  | S fuel' =>
    match loop_body tokens_a tokens_b max_length with
    | Break => Some (Ok (tokens_a, tokens_b))
    | Throw e => Some (Raise e)
    | Continue tokens_a' tokens_b' =>
      while_true fuel' tokens_a' tokens_b' max_length
    end
  end.

(** The transition relation of the loop on its state, the pair of lists. *)
Definition loop_step (max_length : Z) (s s' : list token * list token)
  : Prop :=
  loop_body s.1 s.2 max_length = Continue s'.1 s'.2.

(** Every iteration that continues removes one token, so
    [length tokens_a + length tokens_b + 1] iterations always complete the
    run ([while_true_enough]) and the [None] branch below is never taken. *)
Definition _truncate_seq_pair (tokens_a tokens_b : list token)
  (max_length : Z) : result (list token * list token) :=
  match while_true (S (length tokens_a + length tokens_b))
          tokens_a tokens_b max_length with
  | Some r => r
  | None => Ok (tokens_a, tokens_b)
  end.

(** The step the specification describes: while the two lists do not fit,
    one token is removed from the end of the longer list, and from
    [tokens_b] when they are equally long. *)
Inductive removes_one (max_length : Z)
  : relation (list token * list token) :=
| remove_from_a tokens_a tokens_b t :
    max_length < len (tokens_a ++ [t]) + len tokens_b ->
    len tokens_b < len (tokens_a ++ [t]) ->
    removes_one max_length (tokens_a ++ [t], tokens_b) (tokens_a, tokens_b)
| remove_from_b tokens_a tokens_b t :
    max_length < len tokens_a + len (tokens_b ++ [t]) ->
    len tokens_a <= len (tokens_b ++ [t]) ->
    removes_one max_length (tokens_a, tokens_b ++ [t]) (tokens_a, tokens_b).

(** ** Examples and feature records *)

(** [InputExample]: [text_b] and [label] default to [None]. *)
Record InputExample : Type := {
  guid : string;
  text_a : string;
  text_b : option string;
  label : option string
}.

Record InputFeatures : Type := {
  input_ids : list Z;
  input_mask : list Z;
  segment_ids : list Z;
  label_id : Z
}.

Record RelevanceFeatures : Type := {
  query_ids : list Z;
  psg_ids : list Z;
  query_mask : list Z;
  psg_mask : list Z;
  query_segment_ids : list Z;
  psg_segment_ids : list Z;
  rel_label_id : Z
}.

(** ** The label map *)

(** [enumerate(l)] *)
Definition enumerate {A : Type} (l : list A) : list (Z * A) :=
  imap (fun i x => (Z.of_nat i, x)) l.

(** [{label : i for i, label in enumerate(label_list)}]: the items are
    inserted in order, a later duplicate overwriting an earlier one. *)
Definition label_map (label_list : list string) : gmap string Z :=
  foldl (fun m '(i, label) => <[label := i]> m) ∅ (enumerate label_list).

(** [label_map[example.label]]: KeyError when the key is absent; the keys are
    strings, so [None] is never one of them. *)
Definition getitem (m : gmap string Z) (key : option string) : result Z :=
  match key with
  | Some k =>
    match m !! k with
    | Some i => Ok i
    | None => Raise KeyError
    end
  | None => Raise KeyError
  end.

(** Truth value of an optional string ([if example.text_b:]) and of an
    optional list ([if tokens_b:]). *)
Definition truthy_str (o : option string) : bool :=
  match o with
  | Some s => negb (String.eqb s "")
  | None => false
  end.

Definition truthy_list {A : Type} (o : option (list A)) : bool :=
  match o with
  | Some (_ :: _) => true
  | _ => false
  end.

(** [assert c] *)
Definition assert (c : bool) : result unit :=
  if c then Ok () else Raise AssertionError.

(** The single-sequence cut shared by both converters:
    [if len(tokens) > max_seq_length - 2:
       tokens = tokens[:(max_seq_length - 2)]]. *)
Definition truncate_single (tokens : list token) (max_seq_length : Z)
  : list token :=
  if len tokens >? max_seq_length - 2 then slice_to tokens (max_seq_length - 2)
  else tokens.

(** The token sequence and its segment ids before padding (lines 287-292):
    [[CLS] tokens_a [SEP]] with segment 0, followed by [tokens_b [SEP]] with
    segment 1 when [tokens_b] is a non-empty list. *)
Definition join_tokens (tokens_a : list token)
  (tokens_b : option (list token)) : list token * list Z :=
  let tokens := ["[CLS]"] ++ tokens_a ++ ["[SEP]"] in
  let segment_ids := py_repeat 0 (len tokens) in
  if truthy_list tokens_b then
    let tokens_b := default [] tokens_b in
    (tokens ++ tokens_b ++ ["[SEP]"],
     segment_ids ++ py_repeat 1 (len tokens_b + 1))
  else (tokens, segment_ids).

Section Converters.

(** The tokenizer: [tokenizer.tokenize] on a string and
    [tokenizer.convert_tokens_to_ids]. *)
Variable tokenize : string -> list token.
Variable convert_tokens_to_ids : list token -> list Z.

(** [tokenizer.tokenize(text)] where [text] may be [None]: the tokenizer
    works on the characters of a string and raises on [None]
    ([TokenizerError] stands for the exception it raises there). *)
Definition tokenize_opt (text : option string) : result (list token) :=
  match text with
  | Some s => Ok (tokenize s)
  | None => Raise TokenizerError
  end.

(** The truncation stage of [convert_examples_to_features]: the kept
    [tokens_a] and [tokens_b] ([None] when [text_b] is absent or empty). *)
Definition kept_tokens (example : InputExample) (max_seq_length : Z)
  : result (list token * option (list token)) :=
  let tokens_a := tokenize (text_a example) in
  if truthy_str (text_b example) then
    tokens_b ← tokenize_opt (text_b example);
    '(tokens_a, tokens_b) ←
      _truncate_seq_pair tokens_a tokens_b (max_seq_length - 3);
    Ok (tokens_a, Some tokens_b)
  else
    Ok (truncate_single tokens_a max_seq_length, None).

(** The body of the [for] loop of [convert_examples_to_features]
    (logging left out). *)
Definition convert_example (label_map : gmap string Z)
  (max_seq_length : Z) (example : InputExample) : result InputFeatures :=
  '(tokens_a, tokens_b) ← kept_tokens example max_seq_length;
  let '(tokens, segment_ids) := join_tokens tokens_a tokens_b in
  let input_ids := convert_tokens_to_ids tokens in
  let input_mask := py_repeat 1 (len input_ids) in
  let padding := py_repeat 0 (max_seq_length - len input_ids) in
  let input_ids := input_ids ++ padding in
  let input_mask := input_mask ++ padding in
  let segment_ids := segment_ids ++ padding in
  _ ← assert (len input_ids =? max_seq_length);
  _ ← assert (len input_mask =? max_seq_length);
  _ ← assert (len segment_ids =? max_seq_length);
  label_id ← getitem label_map (label example);
  Ok {| input_ids := input_ids;
        input_mask := input_mask;
        segment_ids := segment_ids;
        label_id := label_id |}.

(** [for example in examples: ...; features.append(...)]: the first
    exception ends the loop. *)
Fixpoint for_each {A B : Type} (body : A -> result B) (l : list A)
  : result (list B) :=
  match l with
  | [] => Ok []
  | x :: l' =>
    y ← body x;
    ys ← for_each body l';
    Ok (y :: ys)
  end.

Definition convert_examples_to_features (examples : list InputExample)
  (label_list : list string) (max_seq_length : Z)
  : result (list InputFeatures) :=
  let label_map := label_map label_list in
  for_each (convert_example label_map max_seq_length) examples.

(** One side of a relevance record: ids, mask and segment ids, padded. *)
Definition encode_side (tokens : list token) (max_seq_length : Z)
  : list Z * list Z * list Z :=
  let tokens_1 := ["[CLS]"] ++ tokens ++ ["[SEP]"] in
  let side_segment_ids := py_repeat 0 (len tokens_1) in
  let side_ids := convert_tokens_to_ids tokens_1 in
  let side_mask := py_repeat 1 (len side_ids) in
  let side_padding := py_repeat 0 (max_seq_length - len side_ids) in
  (side_ids ++ side_padding,
   side_mask ++ side_padding,
   side_segment_ids ++ side_padding).

(** The truncation stage of [convert_examples_to_relevance_features]:
    each side is tokenized and cut on its own. *)
Definition kept_relevance_tokens (example : InputExample)
  (max_seq_length : Z) : result (list token * list token) :=
  let tokens_a := tokenize (text_a example) in
  let tokens_a := truncate_single tokens_a max_seq_length in
  tokens_b ← tokenize_opt (text_b example);
  let tokens_b := truncate_single tokens_b max_seq_length in
  Ok (tokens_a, tokens_b).

(** The body of the [for] loop of [convert_examples_to_relevance_features]
    (logging left out). *)
Definition convert_relevance_example (label_map : gmap string Z)
  (max_seq_length : Z) (example : InputExample)
  : result RelevanceFeatures :=
  '(tokens_a, tokens_b) ← kept_relevance_tokens example max_seq_length;
  let '(query_ids, query_mask, query_segment_ids) :=
    encode_side tokens_a max_seq_length in
  let '(psg_ids, psg_mask, psg_segment_ids) :=
    encode_side tokens_b max_seq_length in
  _ ← assert (len query_ids =? max_seq_length);
  _ ← assert (len query_mask =? max_seq_length);
  _ ← assert (len query_segment_ids =? max_seq_length);
  _ ← assert (len psg_ids =? max_seq_length);
  _ ← assert (len psg_mask =? max_seq_length);
  _ ← assert (len psg_segment_ids =? max_seq_length);
  label_id ← getitem label_map (label example);
  Ok {| query_ids := query_ids;
        psg_ids := psg_ids;
        query_mask := query_mask;
        psg_mask := psg_mask;
        query_segment_ids := query_segment_ids;
        psg_segment_ids := psg_segment_ids;
        rel_label_id := label_id |}.

Definition convert_examples_to_relevance_features
  (examples : list InputExample) (label_list : list string)
  (max_seq_length : Z) : result (list RelevanceFeatures) :=
  let label_map := label_map label_list in
  for_each (convert_relevance_example label_map max_seq_length) examples.

End Converters.

(** ** Data processors *)

(** A row of a tab-separated file, as [_read_tsv] returns it. *)
Abbreviation row := (list string).

(** The interface of [DataProcessor] that [main] and the claims use;
    [_create_examples] takes the rows and the name of the split. *)
Record DataProcessor : Type := {
  get_labels : list string;
  _create_examples : list row -> string -> result (list InputExample)
}.

(** ["%s-%s" % (a, b)] *)
Definition format_guid (a b : string) : string :=
  (a +:+ "-" +:+ b)%string.

(** [str(i)] for a loop index. *)
Definition str_nat (i : nat) : string := pretty i.

Module MrpcProcessor.

(** [for (i, line) in enumerate(lines)], from index [i] on. *)
Fixpoint create_from (i : nat) (lines : list row) (set_type : string)
  : result (list InputExample) :=
  match lines with
  | [] => Ok []
  | line :: lines' =>
    if Nat.eqb i 0 then create_from (S i) lines' set_type
    else
      let guid := format_guid set_type (str_nat i) in
      text_a ← index line 3;
      text_b ← index line 4;
      label ← index line 0;
      examples ← create_from (S i) lines' set_type;
      Ok ({| guid := guid; text_a := text_a; text_b := Some text_b;
             label := Some label |} :: examples)
  end.

Definition _create_examples (lines : list row) (set_type : string)
  : result (list InputExample) :=
  create_from 0 lines set_type.

Definition get_labels : list string := ["0"; "1"].

Definition new : DataProcessor :=
  Build_DataProcessor get_labels _create_examples.

End MrpcProcessor.

Module MnliProcessor.

Fixpoint create_from (i : nat) (lines : list row) (set_type : string)
  : result (list InputExample) :=
  match lines with
  | [] => Ok []
  | line :: lines' =>
    if Nat.eqb i 0 then create_from (S i) lines' set_type
    else
      line_0 ← index line 0;
      let guid := format_guid set_type line_0 in
      text_a ← index line 8;
      text_b ← index line 9;
      label ← index_last line;
      examples ← create_from (S i) lines' set_type;
      Ok ({| guid := guid; text_a := text_a; text_b := Some text_b;
             label := Some label |} :: examples)
  end.

Definition _create_examples (lines : list row) (set_type : string)
  : result (list InputExample) :=
  create_from 0 lines set_type.

Definition get_labels : list string :=
  ["contradiction"; "entailment"; "neutral"].

Definition new : DataProcessor :=
  Build_DataProcessor get_labels _create_examples.

End MnliProcessor.

Module ColaProcessor.

Fixpoint create_from (i : nat) (lines : list row) (set_type : string)
  : result (list InputExample) :=
  match lines with
  | [] => Ok []
  | line :: lines' =>
    let guid := format_guid set_type (str_nat i) in
    text_a ← index line 3;
    label ← index line 1;
    examples ← create_from (S i) lines' set_type;
    Ok ({| guid := guid; text_a := text_a; text_b := None;
           label := Some label |} :: examples)
  end.

Definition _create_examples (lines : list row) (set_type : string)
  : result (list InputExample) :=
  create_from 0 lines set_type.

Definition get_labels : list string := ["0"; "1"].

Definition new : DataProcessor :=
  Build_DataProcessor get_labels _create_examples.

End ColaProcessor.

Module TextQnA.

Fixpoint create_from (i : nat) (lines : list row) (set_type : string)
  : result (list InputExample) :=
  match lines with
  | [] => Ok []
  | line :: lines' =>
    let guid := format_guid set_type (str_nat i) in
    text_a ← index line 0;
    text_b ← index line 1;
    label ← index line 2;
    examples ← create_from (S i) lines' set_type;
    Ok ({| guid := guid; text_a := text_a; text_b := Some text_b;
           label := Some label |} :: examples)
  end.

Definition _create_examples (lines : list row) (set_type : string)
  : result (list InputExample) :=
  create_from 0 lines set_type.

Definition get_labels : list string := ["0"; "1"].

Definition new : DataProcessor :=
  Build_DataProcessor get_labels _create_examples.

End TextQnA.

(** ** The learning-rate factor *)

(** [warmup_linear(x, warmup)] on Python floats, which are IEEE 754 binary64
    numbers, as are Rocq's primitive floats. Float division by zero raises
    ZeroDivisionError. *)
Section LearningRate.
Import PrimFloat.
Local Open Scope float_scope.

Definition warmup_linear (x warmup : float) : result float :=
  if x <? warmup then
    if warmup =? 0 then Raise ZeroDivisionError
    else Ok (x / warmup)
  else Ok (1.0 - x).

End LearningRate.


(** ** Argument validation in [main] *)

(** The parsed command-line arguments that [main] reads before it selects
    the processor. *)
Record Args : Type := {
  task_name : string;
  output_dir : string;
  do_train : bool;
  do_eval : bool;
  train_batch_size : Z;
  gradient_accumulation_steps : Z
}.

(** [str.lower()] on ASCII text: the letters [A]-[Z] become [a]-[z] and
    every other character is kept. *)
Definition lower_ascii (c : ascii) : ascii :=
  let n := nat_of_ascii c in
  if (Nat.leb 65 n && Nat.leb n 90)%bool then ascii_of_nat (n + 32) else c.

Fixpoint ascii_lower (s : string) : string :=
  match s with
  | EmptyString => EmptyString
  | String c s' => String (lower_ascii c) (ascii_lower s')
  end.

(** ["{}".format(n)] and ["%s" % n] for an integer. *)
Definition str_int (n : Z) : string := pretty n.

Definition processors : gmap string DataProcessor :=
  {[ "cola" := ColaProcessor.new;
     "mnli" := MnliProcessor.new;
     "mrpc" := MrpcProcessor.new;
     "textqna" := TextQnA.new ]}.

Definition num_labels_task : gmap string Z :=
  {[ "cola" := 2; "mnli" := 3; "mrpc" := 2; "textqna" := 2 ]}.

(** [a / b] on integers (line 539): the quotient rounded to the nearest
    binary64 number, ties to even, with the sign of a zero kept.
    ZeroDivisionError for a zero divisor, OverflowError when the rounded
    quotient is too large for a float. The quotient is taken with enough
    bits after the leading one, and a last bit that records whether the
    division left a remainder, for the rounding to be the one of the exact
    quotient. *)
Definition int_truediv (a b : Z) : result SpecFloat.spec_float :=
  if b =? 0 then Raise ZeroDivisionError
  else
    let negative := xorb (a <? 0) (b <? 0) in
    let n := Z.abs a in
    let d := Z.abs b in
    let k := Z.max 0 (Z.log2 d + 64 - Z.log2 n) in
    let q := (n * 2 ^ k) / d in
    let sticky := if (n * 2 ^ k) mod d =? 0 then 0 else 1 in
    match SpecFloat.binary_normalize FloatOps.prec FloatOps.emax
            (SpecFloat.cond_Zopp negative (2 * q + sticky)) (- k - 1)
            negative with
    | SpecFloat.S754_infinity _ => Raise OverflowError
    | f => Ok f
    end.

(** [int(x)] on a float: truncation towards zero. *)
Definition int_of_float (x : SpecFloat.spec_float) : result Z :=
  match x with
  | SpecFloat.S754_zero _ => Ok 0
  | SpecFloat.S754_finite s m e =>
    Ok (SpecFloat.cond_Zopp s
          (if 0 <=? e then Z.pos m * 2 ^ e else Z.pos m / 2 ^ (- e)))
  | SpecFloat.S754_infinity _ => Raise OverflowError
  | SpecFloat.S754_nan =>
    Raise (ValueError "cannot convert float NaN to integer")
  end.

(** The part of the file system the checks look at, as the process sees
    it: a path is a key exactly when [os.path.exists] holds for it, and it
    is then a directory with its entries or something else. The empty path
    never exists. Paths are plain keys: the parents of a path and its
    permissions are not part of the model. *)
Inductive node : Type :=
| File
| Dir (entries : list string).

Definition filesystem : Type := gmap string node.

Definition stat (fs : filesystem) (path : string) : option node :=
  if String.eqb path "" then None else fs !! path.

(** The calls whose outcome also depends on what the model leaves out
    (permissions, the parents of a path, the state of the disk). *)
Inductive os_call : Type :=
| Listdir (path : string)
| Makedirs (path : string).

(** [path] is a directory with at least one entry. *)
Definition nonempty_dir (fs : filesystem) (path : string) : bool :=
  match stat fs path with
  | Some (Dir (_ :: _)) => true
  | _ => false
  end.

Section Main.

(** The state of the external framework (devices, random generators,
    model, optimizer, the files it writes). *)
Variable Framework : Type.

Definition world : Type := filesystem * Framework.

(** Computations of [main]: they read and change the world and may raise. *)
Definition M (A : Type) : Type := world -> world * result A.

Definition ret {A : Type} (a : A) : M A := fun w => (w, Ok a).
Definition raise {A : Type} (e : exn) : M A := fun w => (w, Raise e).
Definition bindM {A B : Type} (m : M A) (k : A -> M B) : M B :=
  fun w =>
    match m w with
    | (w', Ok a) => k a w'
    | (w', Raise e) => (w', Raise e)
    end.

Notation "'let*' x := m 'in' k" := (bindM m (fun x => k))
  (at level 10, x name, m at level 100, k at level 200).
Notation "m ;;; k" := (bindM m (fun _ => k))
  (at level 100, k at level 200, right associativity).

Definition lift {A : Type} (r : result A) : M A := fun w => (w, r).

(** The error, if any, that the operating system answers a call with for
    a reason outside [filesystem]: a directory that may not be read, a
    parent that is missing, not a directory or not writable, a full
    disk. *)
Variable os_error : filesystem -> os_call -> option exn.

(** [os.path.exists(path)] *)
Definition os_path_exists (path : string) : M bool :=
  fun w => (w, Ok (bool_decide (is_Some (stat w.1 path)))).

(** [os.listdir(path)] *)
Definition os_listdir (path : string) : M (list string) :=
  fun w =>
    match os_error w.1 (Listdir path), stat w.1 path with
    | Some e, _ => (w, Raise e)
    | None, Some (Dir entries) => (w, Ok entries)
    | None, Some File => (w, Raise NotADirectoryError)
    | None, None => (w, Raise FileNotFoundError)
    end.

(** [os.makedirs(path, exist_ok=True)]: nothing to do for a directory
    that exists; the error of [mkdir] for a path that exists and is not a
    directory, and for the empty path; otherwise the directory is created,
    unless the operating system refuses. *)
Definition os_makedirs (path : string) : M unit :=
  fun w =>
    match stat w.1 path with
    | Some (Dir _) => (w, Ok ())
    | Some File =>
      (w, Raise (default FileExistsError (os_error w.1 (Makedirs path))))
    | None =>
      if String.eqb path "" then (w, Raise FileNotFoundError)
      else
        match os_error w.1 (Makedirs path) with
        | Some e => (w, Raise e)
        | None => ((<[path := Dir []]> w.1, w.2), Ok ())
        end
    end.

(** Calls into the framework made between the checks: device selection
    and logging (lines 523-533) and seeding of the random generators
    (lines 541-545). They act on the framework state and may raise. *)
Variable setup_device : Args -> Framework -> Framework * result unit.
Variable seed_everything : Args -> Framework -> Framework * result unit.

(** [str.lower()], which follows the Unicode case tables; [ascii_lower] is
    its restriction to ASCII text. *)
Variable lower : string -> string.

(** Everything [main] does once the processor is selected: loading the
    tokenizer and the model, training and evaluation. *)
Variable finetune :
  Args -> DataProcessor -> Z -> list string -> M unit.

Definition framework_call (f : Framework -> Framework * result unit)
  : M unit :=
  fun w => let '(s, r) := f w.2 in ((w.1, s), r).

Definition set_train_batch_size (args : Args) (n : Z) : Args :=
  {| task_name := task_name args;
     output_dir := output_dir args;
     do_train := do_train args;
     do_eval := do_eval args;
     train_batch_size := n;
     gradient_accumulation_steps := gradient_accumulation_steps args |}.

(** [d[k]] on the task tables. *)
Definition lookup_task {A : Type} (d : gmap string A) (k : string) : M A :=
  match d !! k with
  | Some v => ret v
  | None => raise KeyError
  end.

Definition main (args : Args) : M unit :=
  framework_call (setup_device args) ;;;
  (if gradient_accumulation_steps args <? 1 then
     raise (ValueError
       ("Invalid gradient_accumulation_steps parameter: "
        +:+ str_int (gradient_accumulation_steps args)
        +:+ ", should be >= 1"))
   else ret ()) ;;;
  let* batch_size :=
    lift (int_truediv (train_batch_size args)
            (gradient_accumulation_steps args) ≫= int_of_float) in
  let args := set_train_batch_size args batch_size in
  framework_call (seed_everything args) ;;;
  (if (negb (do_train args) && negb (do_eval args))%bool then
     raise (ValueError
       "At least one of `do_train` or `do_eval` must be True.")
   else ret ()) ;;;
  let* exists_ := os_path_exists (output_dir args) in
  let* not_empty :=
    (if exists_ then
       let* entries := os_listdir (output_dir args) in
       ret (bool_decide (entries <> []) && do_train args)%bool
     else ret false) in
  (if not_empty then
     raise (ValueError
       ("Output directory (" +:+ output_dir args
        +:+ ") already exists and is not empty."))
   else ret ()) ;;;
  os_makedirs (output_dir args) ;;;
  let task_name := lower (task_name args) in
  (if bool_decide (is_Some (processors !! task_name)) then ret ()
   else raise (ValueError ("Task not found: " +:+ task_name))) ;;;
  let* processor := lookup_task processors task_name in
  let* num_labels := lookup_task num_labels_task task_name in
  let label_list := get_labels processor in
  finetune args processor num_labels label_list.

End Main.

(** ** The lengths the greedy cut keeps *)

(** What [_truncate_seq_pair] leaves of lists of [la] and [lb] tokens under
    a budget of [m]: a list is cut to its share of the budget, and
    [tokens_a] gets the larger half of an odd budget. *)
Definition kept_a (la lb m : Z) : Z :=
  Z.min la (Z.max (m - lb) ((m + 1) / 2)).

Definition kept_b (la lb m : Z) : Z :=
  Z.min lb (Z.max (m - la) (m / 2)).

(** ** The two sides of a relevance record *)

(** The query and the passage of an example as single-sentence examples. *)
Definition query_example (e : InputExample) : InputExample :=
  {| guid := guid e; text_a := text_a e; text_b := None; label := label e |}.

Definition passage_example (e : InputExample) : InputExample :=
  {| guid := guid e; text_a := default "" (text_b e); text_b := None;
     label := label e |}.

(** The query fields and the passage fields of a relevance record. *)
Definition query_features (f : RelevanceFeatures) : InputFeatures :=
  {| input_ids := query_ids f; input_mask := query_mask f;
     segment_ids := query_segment_ids f; label_id := rel_label_id f |}.

Definition passage_features (f : RelevanceFeatures) : InputFeatures :=
  {| input_ids := psg_ids f; input_mask := psg_mask f;
     segment_ids := psg_segment_ids f; label_id := rel_label_id f |}.

(** ** The training loop and the evaluation loop of [main]

    The control skeleton of lines 621-687 and 730-735: the counters, the
    accumulation of gradients, the learning rate handed to the optimizer
    and the names of the checkpoint files. The calls into the framework
    are recorded as events, in the order in which they are made. *)

Inductive event : Type :=
| Backward (step : nat)
| OptimizerStep (lr_this_step : PrimFloat.float)
| SaveModel (out_model_filename : string).

Record train_state : Type := {
  global_step : Z;
  train_epoch : Z;
  trace : list event
}.

(** [range(n)] *)
Definition py_range (n : Z) : list Z := Z.of_nat <$> seq 0 (Z.to_nat n).

(** [a % b] on integers. *)
Definition py_mod (a b : Z) : result Z :=
  if b =? 0 then Raise ZeroDivisionError else Ok (a mod b).

(** [for x in l: body], on a state. *)
Fixpoint for_in {A S : Type} (body : A -> S -> result S) (l : list A)
  (st : S) : result S :=
  match l with
  | [] => Ok st
  | x :: l' => st' ← body x st; for_in body l' st'
  end.

Section TrainingLoop.
Import PrimFloat.

(** [a / b] on integers with [b] not zero: the nearest float. *)
Variable true_div : Z -> Z -> float.

Variable learning_rate : float.
Variable warmup_proportion : float.
Variable gradient_accumulation_steps : Z.
Variable t_total : Z.

(** [global_step/t_total] *)
Definition progress (global_step t_total : Z) : result float :=
  if t_total =? 0 then Raise ZeroDivisionError
  else Ok (true_div global_step t_total).

Definition record (ev : event) (st : train_state) : train_state :=
  {| global_step := global_step st; train_epoch := train_epoch st;
     trace := trace st ++ [ev] |}.

(** The body of the loop over the batches (lines 656-680). *)
Definition train_batch (step : nat) (st : train_state)
  : result train_state :=
  let st := record (Backward step) st in
  remainder ← py_mod (Z.of_nat step + 1) gradient_accumulation_steps;
  if remainder =? 0 then
    x ← progress (global_step st) t_total;
    factor ← warmup_linear x warmup_proportion;
    let lr_this_step := (learning_rate * factor)%float in
    let st := record (OptimizerStep lr_this_step) st in
    Ok {| global_step := global_step st + 1;
          train_epoch := train_epoch st; trace := trace st |}
  else Ok st.

(** The body of the loop over the epochs (lines 653-687), for a data
    loader that yields [batches] batches. *)
Definition train_one_epoch (batches : nat) (st : train_state)
  : result train_state :=
  st ← for_in train_batch (seq 0 batches) st;
  let out_model_filename :=
    "pytorch_model_" +:+ str_int (train_epoch st) +:+ ".bin" in
  let st := record (SaveModel out_model_filename) st in
  Ok {| global_step := global_step st; train_epoch := train_epoch st + 1;
        trace := trace st |}.

(** Lines 621-687, with [num_train_epochs] for [int(args.num_train_epochs)]. *)
Definition train (batches : nat) (num_train_epochs : Z)
  : result train_state :=
  for_in (fun _ => train_one_epoch batches) (py_range num_train_epochs)
    {| global_step := 0; train_epoch := 0; trace := [] |}.

End TrainingLoop.

(** The checkpoint files the evaluation loop loads (lines 730-735), in
    order. *)
Definition evaluated_model_files (num_train_epochs : Z) : list string :=
  (fun cur_epoch => "pytorch_model_" +:+ str_int cur_epoch +:+ ".bin")
    <$> py_range num_train_epochs.

(** The checkpoint files and the learning rates in a trace. *)
Definition saved_model_files (tr : list event) : list string :=
  omap (fun ev => match ev with
                  | SaveModel f => Some f
                  | _ => None
                  end) tr.

Definition learning_rates (tr : list event) : list PrimFloat.float :=
  omap (fun ev => match ev with
                  | OptimizerStep lr => Some lr
                  | _ => None
                  end) tr.

Definition backward_steps (tr : list event) : list nat :=
  omap (fun ev => match ev with
                  | Backward step => Some step
                  | _ => None
                  end) tr.

(** A state of the training loop whose trace agrees with its counters:
    one checkpoint per finished epoch, under the names the evaluation loop
    uses, and one learning rate per optimizer step, the one of the
    schedule at that step. *)
Definition trace_consistent (true_div : Z -> Z -> PrimFloat.float)
  (learning_rate warmup_proportion : PrimFloat.float) (t_total : Z)
  (st : train_state) : Prop :=
  0 <= global_step st /\ 0 <= train_epoch st /\
  saved_model_files (trace st) = evaluated_model_files (train_epoch st) /\
  Forall2 (fun k lr =>
    exists factor,
      warmup_linear (true_div k t_total) warmup_proportion = Ok factor /\
      lr = PrimFloat.mul learning_rate factor)
    (py_range (global_step st)) (learning_rates (trace st)).

(** ** Sample inputs

    Concrete inputs on which the properties below are exercised. *)

(** A tokenizer with one token per character, as the Chinese vocabulary has
    for ideographs; the id of a token is the code of its first character. *)
Definition char_tokenize (s : string) : list token :=
  (fun c => String c EmptyString) <$> list_ascii_of_string s.

Definition char_ids (tokens : list token) : list Z :=
  (fun t => match t with
            | String c _ => Z.of_nat (nat_of_ascii c)
            | EmptyString => 0
            end) <$> tokens.

Definition sample_pair : InputExample :=
  {| guid := "train-0"; text_a := "abc"; text_b := Some "xyz";
     label := Some "1" |}.

Definition sample_single : InputExample :=
  {| guid := "train-1"; text_a := "abcdef"; text_b := None;
     label := Some "0" |}.

Definition sample_rows : list row :=
  [ ["Quality"; "#1 ID"; "#2 ID"; "#1 String"; "#2 String"];
    ["1"; "17"; "18"; "he said"; "he told"];
    ["0"; "21"; "22"; "it rains"; "it is dry"] ].

Definition sample_args : Args :=
  {| task_name := "SST-2"; output_dir := "out"; do_train := true;
     do_eval := false; train_batch_size := 32;
     gradient_accumulation_steps := 1 |}.

(** Framework calls that return at once, for a framework without state. *)
Definition no_op (a : Args) (s : unit) : unit * result unit := (s, Ok ()).

(** An operating system that refuses nothing, and one on which no
    directory can be created. *)
Definition no_os_error (fs : filesystem) (call : os_call) : option exn :=
  None.

Definition read_only (fs : filesystem) (call : os_call) : option exn :=
  match call with
  | Makedirs _ => Some PermissionError
  | Listdir _ => None
  end.

(** Arguments that pass every check of [main]. *)
Definition sample_textqna_args : Args :=
  {| task_name := "TextQnA"; output_dir := "out"; do_train := true;
     do_eval := true; train_batch_size := 32;
     gradient_accumulation_steps := 2 |}.

(** [a / b] for integers that are floats: the quotient of the two floats,
    rounded to nearest. *)
Definition sample_true_div (a b : Z) : PrimFloat.float :=
  FloatOps.SF2Prim
    (SpecFloat.SFdiv FloatOps.prec FloatOps.emax
       (SpecFloat.binary_normalize FloatOps.prec FloatOps.emax a 0 false)
       (SpecFloat.binary_normalize FloatOps.prec FloatOps.emax b 0 false)).

(** A learning rate of [2^-14] and a warm-up over the first eighth of the
    steps. *)
Section SampleSchedule.
Import PrimFloat.

Definition sample_learning_rate : float := 0x1p-14%float.
Definition sample_warmup_proportion : float := 0x1p-3%float.

End SampleSchedule.

(** * Properties *)

(** ** Lists and lengths *)

Lemma len_nil {A : Type} : len (@nil A) = 0.
Proof. reflexivity. Qed.

Lemma len_nonneg {A : Type} (l : list A) : 0 <= len l.
Proof. unfold len. lia. Qed.

Lemma len_app {A : Type} (l k : list A) : len (l ++ k) = len l + len k.
Proof. unfold len. rewrite length_app. lia. Qed.

Lemma len_cons {A : Type} (x : A) (l : list A) : len (x :: l) = 1 + len l.
Proof. unfold len. simpl. lia. Qed.

Lemma len_py_repeat {A : Type} (x : A) (n : Z) :
  len (py_repeat x n) = Z.max 0 n.
Proof. unfold len, py_repeat. rewrite length_replicate. lia. Qed.

Lemma len_removelast {A : Type} (l : list A) :
  l <> [] -> len (removelast l) = len l - 1.
Proof.
  intros Hne. unfold len. rewrite removelast_firstn_len, length_take.
  destruct l as [|x l]; [done|]. simpl. lia.
Qed.

Lemma removelast_prefix {A : Type} (l : list A) : removelast l `prefix_of` l.
Proof. rewrite removelast_firstn_len. apply prefix_take. Qed.

Lemma slice_to_prefix {A : Type} (l : list A) (k : Z) :
  slice_to l k `prefix_of` l.
Proof. unfold slice_to. destruct (0 <=? k); apply prefix_take. Qed.

Lemma truncate_single_take (tokens : list token) (n : Z) :
  2 <= n -> truncate_single tokens n = take (Z.to_nat (n - 2)) tokens.
Proof.
  intros Hn. unfold truncate_single, slice_to.
  destruct (Z.leb_spec 0 (n - 2)); [|lia].
  destruct (Z.gtb_spec (len tokens) (n - 2)); [done|].
  rewrite take_ge; [done|]. unfold len in *. lia.
Qed.

Lemma len_truncate_single (tokens : list token) (n : Z) :
  2 <= n -> len (truncate_single tokens n) = Z.min (n - 2) (len tokens).
Proof.
  intros Hn. rewrite truncate_single_take by done.
  unfold len. rewrite length_take. lia.
Qed.

(** ** The truncation loop *)

Lemma pop_Ok {A : Type} (l l' : list A) :
  pop l = Ok l' -> l <> [] /\ l' = removelast l.
Proof. destruct l; [done|]. intros [= <-]. done. Qed.

Lemma loop_body_Continue (a b a' b' : list token) (m : Z) :
  loop_body a b m = Continue a' b' ->
  m < len a + len b /\
  ((len b < len a /\ a <> [] /\ a' = removelast a /\ b' = b) \/
   (len a <= len b /\ b <> [] /\ a' = a /\ b' = removelast b)).
Proof.
  unfold loop_body.
  destruct (Z.leb_spec (len a + len b) m); [done|].
  destruct (Z.gtb_spec (len a) (len b)).
  - destruct (pop a) as [a0|] eqn:Hp; [|done].
    apply pop_Ok in Hp as [? ->]. intros [= <- <-]. split; [done|]. left. done.
  - destruct (pop b) as [b0|] eqn:Hp; [|done].
    apply pop_Ok in Hp as [? ->]. intros [= <- <-]. split; [done|]. right. done.
Qed.

Lemma loop_body_Break (a b : list token) (m : Z) :
  loop_body a b m = Break <-> len a + len b <= m.
Proof.
  unfold loop_body. destruct (Z.leb_spec (len a + len b) m).
  - done.
  - split; [|lia]. destruct (_ >? _); destruct (pop _); done.
Qed.

Lemma loop_body_Throw (a b : list token) (m : Z) (e : exn) :
  loop_body a b m = Throw e -> m < 0 /\ a = [] /\ b = [] /\ e = IndexError.
Proof.
  unfold loop_body.
  destruct (Z.leb_spec (len a + len b) m); [done|].
  destruct (Z.gtb_spec (len a) (len b)).
  - destruct a; [|done]. rewrite len_nil in *. pose proof (len_nonneg b). lia.
  - destruct b; [|done]. simpl. intros [= <-].
    destruct a; [|unfold len in *; simpl in *; lia].
    rewrite len_nil in *. done.
Qed.

Lemma loop_body_decreases (a b a' b' : list token) (m : Z) :
  loop_body a b m = Continue a' b' ->
  (length a' + length b' < length a + length b)%nat.
Proof.
  intros H. apply loop_body_Continue in H
    as [_ [(_ & Hne & -> & ->)|(_ & Hne & -> & ->)]];
    apply len_removelast in Hne; unfold len in Hne; lia.
Qed.

Lemma while_true_enough (fuel : nat) (a b : list token) (m : Z) :
  (length a + length b < fuel)%nat ->
  exists r, while_true fuel a b m = Some r.
Proof.
  revert a b. induction fuel as [|fuel IH]; intros a b Hlt; [lia|].
  simpl. destruct (loop_body a b m) as [|a' b'|e] eqn:Hb; [eauto| |eauto].
  apply IH. apply loop_body_decreases in Hb. lia.
Qed.

Lemma while_true_mono (fuel fuel' : nat) (a b : list token) (m : Z) r :
  while_true fuel a b m = Some r -> (fuel <= fuel')%nat ->
  while_true fuel' a b m = Some r.
Proof.
  revert fuel' a b. induction fuel as [|fuel IH]; intros fuel' a b; [done|].
  destruct fuel' as [|fuel']; [lia|]. simpl.
  destruct (loop_body a b m); [done| |done].
  intros H ?. apply IH; [done|lia].
Qed.

Lemma _truncate_seq_pair_run (fuel : nat) (a b : list token) (m : Z) r :
  while_true fuel a b m = Some r -> _truncate_seq_pair a b m = r.
Proof.
  intros H. unfold _truncate_seq_pair.
  destruct (while_true_enough (S (length a + length b)) a b m) as [r' Hr'];
    [lia|].
  rewrite Hr'.
  destruct (Nat.le_ge_cases fuel (S (length a + length b))).
  - rewrite (while_true_mono _ _ _ _ _ _ H) in Hr' by done. congruence.
  - rewrite (while_true_mono _ _ _ _ _ _ Hr') in H by done. congruence.
Qed.

(** The unfolding of the loop: one pass through the body, then the loop
    again. *)
Lemma _truncate_seq_pair_unfold (a b : list token) (m : Z) :
  _truncate_seq_pair a b m =
  match loop_body a b m with
  | Break => Ok (a, b)
  | Throw e => Raise e
  | Continue a' b' => _truncate_seq_pair a' b' m
  end.
Proof.
  destruct (while_true_enough (S (length a + length b)) a b m) as [r Hr];
    [lia|].
  rewrite (_truncate_seq_pair_run _ _ _ _ _ Hr). simpl in Hr.
  destruct (loop_body a b m) as [|a' b'|e]; [congruence| |congruence].
  symmetry. by eapply _truncate_seq_pair_run.
Qed.

Lemma removelast_snoc {A : Type} (l : list A) :
  l <> [] -> exists x, l = removelast l ++ [x].
Proof.
  intros Hne. destruct l as [|y l]; [done|].
  exists (List.last (y :: l) y). by apply app_removelast_last.
Qed.

Lemma pop_snoc {A : Type} (l : list A) (x : A) : pop (l ++ [x]) = Ok l.
Proof.
  unfold pop. destruct (l ++ [x]) eqn:E.
  - by destruct l.
  - by rewrite <- E, removelast_last.
Qed.

(** The body of the loop takes exactly the step the specification
    describes. *)
Lemma loop_step_removes_one (m : Z) (s s' : list token * list token) :
  loop_step m s s' <-> removes_one m s s'.
Proof.
  destruct s as [a b], s' as [a' b']. unfold loop_step. simpl. split.
  - intros H. apply loop_body_Continue in H
      as [Hm [(Hlt & Hne & -> & ->)|(Hle & Hne & -> & ->)]].
    + destruct (removelast_snoc a Hne) as [x Hx].
      rewrite Hx at 1. apply remove_from_a; by rewrite <- Hx.
    + destruct (removelast_snoc b Hne) as [x Hx].
      rewrite Hx at 1. apply remove_from_b; by rewrite <- Hx.
  - inversion 1 as [? ? t Hm Hlt|? ? t Hm Hle]; subst; unfold loop_body.
    + destruct (Z.leb_spec (len (a' ++ [t]) + len b') m); [lia|].
      destruct (Z.gtb_spec (len (a' ++ [t])) (len b')); [|lia].
      by rewrite pop_snoc.
    + destruct (Z.leb_spec (len a' + len (b' ++ [t])) m); [lia|].
      destruct (Z.gtb_spec (len a') (len (b' ++ [t]))); [lia|].
      by rewrite pop_snoc.
Qed.

Lemma _truncate_seq_pair_correct (n : nat) (a b : list token) (m : Z) :
  0 <= m -> (length a + length b <= n)%nat ->
  exists a' b',
    _truncate_seq_pair a b m = Ok (a', b') /\
    rtc (removes_one m) (a, b) (a', b') /\
    a' `prefix_of` a /\ b' `prefix_of` b /\
    len a' + len b' = Z.min (len a + len b) m.
Proof.
  intros Hm. revert a b. induction n as [|n IH]; intros a b Hn;
    rewrite _truncate_seq_pair_unfold;
    destruct (loop_body a b m) as [|a' b'|e] eqn:Hb.
  all: try (apply loop_body_Break in Hb; exists a, b;
            split_and!; [done|done|done|done|lia]).
  all: try (apply loop_body_Throw in Hb; lia).
  - apply loop_body_decreases in Hb. lia.
  - pose proof (loop_body_decreases _ _ _ _ _ Hb) as Hdec.
    destruct (IH a' b') as (a'' & b'' & Hrun & Hsteps & Hpa & Hpb & Hlen);
      [lia|].
    exists a'', b''. split; [done|]. split.
    { eapply rtc_l; [|exact Hsteps]. by apply loop_step_removes_one. }
    apply loop_body_Continue in Hb
      as [Hgt [(_ & Hne & -> & ->)|(_ & Hne & -> & ->)]].
    + split_and!; [|done|].
      * etrans; [done|]. apply removelast_prefix.
      * rewrite Hlen, len_removelast by done. lia.
    + split_and!; [done| |].
      * etrans; [done|]. apply removelast_prefix.
      * rewrite Hlen, len_removelast by done. lia.
Qed.

(** ** The label map *)

Lemma label_map_snoc (l : list string) (x : string) :
  label_map (l ++ [x]) = <[x := len l]> (label_map l).
Proof.
  unfold label_map, enumerate, len.
  rewrite imap_app, foldl_app. simpl. by rewrite Nat.add_0_r.
Qed.

(** Without any assumption on duplicates: a label gets the index of its
    last occurrence. *)
Lemma label_map_lookup_Some (l : list string) (s : string) (i : Z) :
  label_map l !! s = Some i ->
  0 <= i /\ l !! Z.to_nat i = Some s.
Proof.
  revert i. induction l as [|x l IH] using rev_ind; intros i.
  - unfold label_map. simpl. by rewrite lookup_empty.
  - rewrite label_map_snoc, lookup_insert. case_decide as Hx.
    + intros [= <-]. subst x. unfold len. split; [lia|].
      rewrite Nat2Z.id, lookup_app_r, Nat.sub_diag by lia. done.
    + intros H. apply IH in H as [? H]. split; [done|].
      by apply lookup_app_l_Some.
Qed.

Lemma label_map_lookup_elem (l : list string) (s : string) :
  s ∈ l -> is_Some (label_map l !! s).
Proof.
  induction l as [|x l IH] using rev_ind.
  - by intros ?%elem_of_nil.
  - rewrite label_map_snoc, lookup_insert, elem_of_app, list_elem_of_singleton.
    case_decide; [eauto|]. intros [?|?]; [auto|congruence].
Qed.


(** ** The result monad and the loop over the examples *)

Lemma bind_Ok {A B : Type} (r : result A) (k : A -> result B) (b : B) :
  r ≫= k = Ok b <-> exists a, r = Ok a /\ k a = Ok b.
Proof.
  destruct r as [a|e]; simpl.
  - split; [eauto|]. by intros (? & [= <-] & ?).
  - split; [done|]. by intros (? & ? & ?).
Qed.

Lemma bind_Raise {A B : Type} (r : result A) (k : A -> result B) (e : exn) :
  r ≫= k = Raise e <-> r = Raise e \/ exists a, r = Ok a /\ k a = Raise e.
Proof.
  destruct r as [a|e']; simpl.
  - split; [eauto|]. intros [?|(? & [= <-] & ?)]; done.
  - split; [intros [= ->]; by left|]. intros [[= ->]|(? & ? & ?)]; done.
Qed.

Lemma getitem_Ok (m : gmap string Z) (key : option string) (i : Z) :
  getitem m key = Ok i <-> exists k, key = Some k /\ m !! k = Some i.
Proof.
  unfold getitem. destruct key as [k|].
  - destruct (m !! k) eqn:E; split.
    + intros [= <-]. eauto.
    + intros (? & [= <-] & ?). congruence.
    + done.
    + intros (? & [= <-] & ?). congruence.
  - split; [done|]. by intros (? & ? & ?).
Qed.

Lemma for_each_Ok {A B : Type} (body : A -> result B) (l : list A)
  (ys : list B) :
  for_each body l = Ok ys <-> Forall2 (fun x y => body x = Ok y) l ys.
Proof.
  revert ys. induction l as [|x l IH]; intros ys; simpl.
  - split; [intros [= <-]; constructor|]. by inversion 1.
  - rewrite bind_Ok. split.
    + intros (y & Hy & H). apply bind_Ok in H as (ys' & Hys & [= <-]).
      constructor; [done|]. by apply IH.
    + inversion 1 as [|? y ? ys' Hy Hys]; subst. exists y. split; [done|].
      apply bind_Ok. exists ys'. split; [by apply IH|done].
Qed.

Lemma for_each_Raise {A B : Type} (body : A -> result B) (l : list A)
  (e : exn) :
  for_each body l = Raise e -> exists x, x ∈ l /\ body x = Raise e.
Proof.
  induction l as [|x l IH]; simpl; [done|].
  rewrite bind_Raise. intros [H|(y & _ & H)].
  - exists x. split; [left|done].
  - apply bind_Raise in H as [H|(? & _ & ?)]; [|done].
    destruct (IH H) as (x' & ? & ?). exists x'. split; [by right|done].
Qed.

Lemma for_each_total {A B : Type} (body : A -> result B) (l : list A) :
  (forall x, x ∈ l -> exists y, body x = Ok y) ->
  exists ys, for_each body l = Ok ys.
Proof.
  intros H. destruct (for_each body l) as [ys|e] eqn:E; [eauto|].
  apply for_each_Raise in E as (x & Hx & Hr).
  destruct (H x Hx) as [y Hy]. congruence.
Qed.

(** ** The converters *)

Lemma len_singleton {A : Type} (x : A) : len [x] = 1.
Proof. reflexivity. Qed.

Ltac simpl_len :=
  repeat first
    [ rewrite len_singleton | rewrite len_app | rewrite len_cons
    | rewrite len_py_repeat ].

Lemma join_tokens_lengths (ta : list token) (tb : option (list token)) :
  len (join_tokens ta tb).2 = len (join_tokens ta tb).1 /\
  len (join_tokens ta tb).1 =
    len ta + 2 + (if truthy_list tb then len (default [] tb) + 1 else 0).
Proof.
  unfold join_tokens. destruct (truthy_list tb); simpl; simpl_len;
    pose proof (len_nonneg ta); pose proof (len_nonneg (default [] tb)); lia.
Qed.

Section ConverterProperties.

Variable tokenize : string -> list token.
Variable convert_tokens_to_ids : list token -> list Z.

(** The contract of the tokenizer: one id per token. *)
Hypothesis convert_tokens_to_ids_length :
  forall tokens, length (convert_tokens_to_ids tokens) = length tokens.

Lemma len_convert_tokens_to_ids (tokens : list token) :
  len (convert_tokens_to_ids tokens) = len tokens.
Proof. unfold len. by rewrite convert_tokens_to_ids_length. Qed.

(** [convert_example] in closed form: the three assertions hold exactly
    when the joined token sequence fits into [max_seq_length]. *)
Lemma convert_example_eq (lm : gmap string Z) (msl : Z)
  (e : InputExample) :
  convert_example tokenize convert_tokens_to_ids lm msl e =
  kept_tokens tokenize e msl ≫= fun '(ta, tb) =>
    let tokens := (join_tokens ta tb).1 in
    let padding := py_repeat 0 (msl - len tokens) in
    if len tokens <=? msl then
      getitem lm (label e) ≫= fun i =>
        Ok {| input_ids := convert_tokens_to_ids tokens ++ padding;
              input_mask := py_repeat 1 (len tokens) ++ padding;
              segment_ids := (join_tokens ta tb).2 ++ padding;
              label_id := i |}
    else Raise AssertionError.
Proof.
  unfold convert_example.
  destruct (kept_tokens tokenize e msl) as [[ta tb]|err]; simpl; [|done].
  destruct (join_tokens_lengths ta tb) as [Hseg Htok].
  destruct (join_tokens ta tb) as [tokens seg] eqn:Hj. simpl in *.
  rewrite len_convert_tokens_to_ids.
  assert (Hgeq : 0 <= len tokens) by apply len_nonneg.
  destruct (Z.leb_spec (len tokens) msl) as [Hle|Hgt].
  - assert (H1 : (len (convert_tokens_to_ids tokens
                      ++ py_repeat 0 (msl - len tokens)) =? msl) = true).
    { rewrite len_app, len_py_repeat, len_convert_tokens_to_ids. lia. }
    assert (H2 : (len (py_repeat 1 (len tokens)
                      ++ py_repeat 0 (msl - len tokens)) =? msl) = true).
    { rewrite len_app, !len_py_repeat. lia. }
    assert (H3 : (len (seg ++ py_repeat 0 (msl - len tokens)) =? msl) = true).
    { rewrite len_app, len_py_repeat. lia. }
    rewrite H1, H2, H3. done.
  - assert (H1 : (len (convert_tokens_to_ids tokens
                      ++ py_repeat 0 (msl - len tokens)) =? msl) = false).
    { rewrite len_app, len_py_repeat, len_convert_tokens_to_ids. lia. }
    rewrite H1. done.
Qed.

Lemma encode_side_eq (tokens : list token) (msl : Z) :
  encode_side convert_tokens_to_ids tokens msl =
  let padding := py_repeat 0 (msl - (len tokens + 2)) in
  (convert_tokens_to_ids (["[CLS]"] ++ tokens ++ ["[SEP]"]) ++ padding,
   py_repeat 1 (len tokens + 2) ++ padding,
   py_repeat 0 (len tokens + 2) ++ padding).
Proof.
  unfold encode_side. simpl.
  rewrite len_convert_tokens_to_ids. simpl_len.
  by replace (1 + (len tokens + 1)) with (len tokens + 2) by lia.
Qed.

Lemma encode_side_lengths (tokens : list token) (msl : Z) :
  let '(ids, mask, seg) := encode_side convert_tokens_to_ids tokens msl in
  len ids = Z.max (len tokens + 2) msl /\
  len mask = Z.max (len tokens + 2) msl /\
  len seg = Z.max (len tokens + 2) msl.
Proof.
  rewrite encode_side_eq. simpl.
  simpl_len. rewrite len_convert_tokens_to_ids. simpl_len.
  pose proof (len_nonneg tokens). lia.
Qed.

(** [convert_relevance_example] in closed form: the six assertions hold
    exactly when both sides, with their two markers, fit. *)
Lemma convert_relevance_example_eq (lm : gmap string Z) (msl : Z)
  (e : InputExample) :
  convert_relevance_example tokenize convert_tokens_to_ids lm msl e =
  kept_relevance_tokens tokenize e msl ≫= fun '(ta, tb) =>
    let q := encode_side convert_tokens_to_ids ta msl in
    let p := encode_side convert_tokens_to_ids tb msl in
    if (len ta + 2 <=? msl) && (len tb + 2 <=? msl) then
      getitem lm (label e) ≫= fun i =>
        Ok {| query_ids := q.1.1; psg_ids := p.1.1;
              query_mask := q.1.2; psg_mask := p.1.2;
              query_segment_ids := q.2; psg_segment_ids := p.2;
              rel_label_id := i |}
    else Raise AssertionError.
Proof.
  unfold convert_relevance_example.
  destruct (kept_relevance_tokens tokenize e msl) as [[ta tb]|err];
    cbn -[encode_side]; [|done].
  pose proof (encode_side_lengths ta msl) as Hq.
  pose proof (encode_side_lengths tb msl) as Hp.
  destruct (encode_side convert_tokens_to_ids ta msl) as [[qi qm] qs].
  destruct (encode_side convert_tokens_to_ids tb msl) as [[pi pm] ps].
  destruct Hq as (Hq1 & Hq2 & Hq3), Hp as (Hp1 & Hp2 & Hp3). simpl.
  rewrite Hq1, Hq2, Hq3, Hp1, Hp2, Hp3.
  destruct (Z.leb_spec (len ta + 2) msl) as [Ha|Ha]; simpl.
  - rewrite (proj2 (Z.eqb_eq (Z.max (len ta + 2) msl) msl)) by lia. simpl.
    destruct (Z.leb_spec (len tb + 2) msl) as [Hb|Hb]; simpl.
    + rewrite (proj2 (Z.eqb_eq (Z.max (len tb + 2) msl) msl)) by lia. done.
    + rewrite (proj2 (Z.eqb_neq (Z.max (len tb + 2) msl) msl)) by lia. done.
  - rewrite (proj2 (Z.eqb_neq (Z.max (len ta + 2) msl) msl)) by lia. done.
Qed.

Lemma kept_tokens_single (e : InputExample) (msl : Z) :
  truthy_str (text_b e) = false ->
  kept_tokens tokenize e msl =
  Ok (truncate_single (tokenize (text_a e)) msl, None).
Proof. unfold kept_tokens. by intros ->. Qed.

Lemma kept_tokens_pair (e : InputExample) (msl : Z) :
  truthy_str (text_b e) = true ->
  exists sb, text_b e = Some sb /\
    kept_tokens tokenize e msl =
    _truncate_seq_pair (tokenize (text_a e)) (tokenize sb) (msl - 3)
      ≫= fun '(a, b) => Ok (a, Some b).
Proof.
  unfold kept_tokens. intros Ht. rewrite Ht.
  destruct (text_b e) as [sb|]; [|done]. by exists sb.
Qed.

(** What the truncation stage of [convert_examples_to_features] keeps
    always fits once the markers are added. *)
Lemma kept_tokens_fit (e : InputExample) (msl : Z) :
  2 <= msl -> (text_b e <> None -> 3 <= msl) ->
  exists ta tb, kept_tokens tokenize e msl = Ok (ta, tb) /\
    len (join_tokens ta tb).1 <= msl.
Proof.
  intros H2 H3. destruct (truthy_str (text_b e)) eqn:Ht.
  - destruct (kept_tokens_pair e msl Ht) as (sb & Hsb & ->).
    assert (3 <= msl) by (apply H3; by rewrite Hsb).
    destruct (_truncate_seq_pair_correct
                (length (tokenize (text_a e)) + length (tokenize sb))
                (tokenize (text_a e)) (tokenize sb) (msl - 3))
      as (a & b & -> & _ & _ & _ & Hlen); [lia|done|].
    exists a, (Some b). split; [done|].
    destruct (join_tokens_lengths a (Some b)) as [_ ->]. simpl.
    pose proof (len_nonneg a). pose proof (len_nonneg b).
    destruct b; simpl; lia.
  - rewrite kept_tokens_single by done.
    eexists _, _. split; [done|].
    destruct (join_tokens_lengths
                (truncate_single (tokenize (text_a e)) msl) None) as [_ ->].
    rewrite len_truncate_single by done. simpl. lia.
Qed.

Lemma convert_example_total (ll : list string) (msl : Z)
  (e : InputExample) :
  (exists l, label e = Some l /\ l ∈ ll) ->
  2 <= msl -> (text_b e <> None -> 3 <= msl) ->
  exists f,
    convert_example tokenize convert_tokens_to_ids (label_map ll) msl e
    = Ok f.
Proof.
  intros (l & Hl & Hin) H2 H3. rewrite convert_example_eq.
  destruct (kept_tokens_fit e msl H2 H3) as (ta & tb & -> & Hfit). simpl.
  destruct (Z.leb_spec (len (join_tokens ta tb).1) msl); [|lia].
  destruct (label_map_lookup_elem ll l Hin) as [i Hi].
  rewrite Hl. simpl. rewrite Hi. simpl. eauto.
Qed.

Lemma convert_example_Ok (lm : gmap string Z) (msl : Z)
  (e : InputExample) (f : InputFeatures) :
  convert_example tokenize convert_tokens_to_ids lm msl e = Ok f ->
  exists ta tb,
    kept_tokens tokenize e msl = Ok (ta, tb) /\
    let tokens := (join_tokens ta tb).1 in
    let padding := py_repeat 0 (msl - len tokens) in
    len tokens <= msl /\
    input_ids f = convert_tokens_to_ids tokens ++ padding /\
    input_mask f = py_repeat 1 (len tokens) ++ padding /\
    segment_ids f = (join_tokens ta tb).2 ++ padding /\
    getitem lm (label e) = Ok (label_id f).
Proof.
  rewrite convert_example_eq, bind_Ok. intros ([ta tb] & Hk & H).
  exists ta, tb. split; [done|]. simpl in *.
  destruct (Z.leb_spec (len (join_tokens ta tb).1) msl); [|done].
  apply bind_Ok in H as (i & Hi & [= <-]). done.
Qed.

Lemma convert_example_lengths (lm : gmap string Z) (msl : Z)
  (e : InputExample) (f : InputFeatures) :
  convert_example tokenize convert_tokens_to_ids lm msl e = Ok f ->
  len (input_ids f) = msl /\ len (input_mask f) = msl /\
  len (segment_ids f) = msl.
Proof.
  intros H. apply convert_example_Ok in H
    as (ta & tb & _ & Hfit & -> & -> & -> & _).
  destruct (join_tokens_lengths ta tb) as [Hseg _].
  pose proof (len_nonneg (join_tokens ta tb).1).
  simpl_len. rewrite len_convert_tokens_to_ids, Hseg. lia.
Qed.

Lemma kept_relevance_tokens_Ok (e : InputExample) (msl : Z)
  (ta tb : list token) :
  kept_relevance_tokens tokenize e msl = Ok (ta, tb) <->
  exists sb, text_b e = Some sb /\
    ta = truncate_single (tokenize (text_a e)) msl /\
    tb = truncate_single (tokenize sb) msl.
Proof.
  unfold kept_relevance_tokens. destruct (text_b e) as [sb|]; simpl.
  - split; [intros [= <- <-]; eauto|]. by intros (? & [= <-] & -> & ->).
  - split; [done|]. by intros (? & ? & _).
Qed.

Lemma convert_relevance_example_Ok (lm : gmap string Z) (msl : Z)
  (e : InputExample) (f : RelevanceFeatures) :
  convert_relevance_example tokenize convert_tokens_to_ids lm msl e = Ok f ->
  exists sb,
    text_b e = Some sb /\
    let ta := truncate_single (tokenize (text_a e)) msl in
    let tb := truncate_single (tokenize sb) msl in
    len ta + 2 <= msl /\ len tb + 2 <= msl /\
    (query_ids f, query_mask f, query_segment_ids f) =
      encode_side convert_tokens_to_ids ta msl /\
    (psg_ids f, psg_mask f, psg_segment_ids f) =
      encode_side convert_tokens_to_ids tb msl /\
    getitem lm (label e) = Ok (rel_label_id f).
Proof.
  rewrite convert_relevance_example_eq, bind_Ok.
  intros ([ta tb] & Hk & H).
  apply kept_relevance_tokens_Ok in Hk as (sb & Hsb & -> & ->).
  exists sb. split; [done|]. cbn -[encode_side] in *.
  destruct (Z.leb_spec (len (truncate_single (tokenize (text_a e)) msl) + 2)
              msl); [|done].
  destruct (Z.leb_spec (len (truncate_single (tokenize sb) msl) + 2) msl);
    [|done].
  cbn -[encode_side] in H. apply bind_Ok in H as (i & Hi & [= <-]).
  cbn -[encode_side]. by split_and!.
Qed.

Lemma convert_relevance_example_Raise (ll : list string) (msl : Z)
  (e : InputExample) (err : exn) :
  (exists l, label e = Some l /\ l ∈ ll) -> 2 <= msl ->
  convert_relevance_example tokenize convert_tokens_to_ids
    (label_map ll) msl e = Raise err ->
  text_b e = None /\ err = TokenizerError.
Proof.
  intros (l & Hl & Hin) H2. rewrite convert_relevance_example_eq.
  unfold kept_relevance_tokens. destruct (text_b e) as [sb|]; simpl;
    [|by intros [= <-]].
  rewrite !len_truncate_single by done.
  destruct (Z.leb_spec (Z.min (msl - 2) (len (tokenize (text_a e))) + 2) msl);
    [|lia].
  destruct (Z.leb_spec (Z.min (msl - 2) (len (tokenize sb)) + 2) msl);
    [|lia].
  destruct (label_map_lookup_elem ll l Hin) as [i Hi].
  rewrite Hl. cbn -[encode_side]. rewrite Hi. done.
Qed.

Lemma convert_relevance_example_lengths (lm : gmap string Z) (msl : Z)
  (e : InputExample) (f : RelevanceFeatures) :
  convert_relevance_example tokenize convert_tokens_to_ids lm msl e = Ok f ->
  len (query_ids f) = msl /\ len (psg_ids f) = msl /\
  len (query_mask f) = msl /\ len (psg_mask f) = msl /\
  len (query_segment_ids f) = msl /\ len (psg_segment_ids f) = msl.
Proof.
  intros H. apply convert_relevance_example_Ok in H
    as (sb & _ & Ha & Hb & Hq & Hp & _).
  pose proof (encode_side_lengths
    (truncate_single (tokenize (text_a e)) msl) msl) as Lq.
  pose proof (encode_side_lengths
    (truncate_single (tokenize sb) msl) msl) as Lp.
  rewrite <- Hq in Lq. rewrite <- Hp in Lp. lia.
Qed.

(** *** Fixed lengths *)

(** Claim C1. For every list of examples whose labels all occur in
    [label_list] and every [max_seq_length >= 2]:
    - when moreover [max_seq_length >= 3] as soon as an example has a
      [text_b], [convert_examples_to_features] returns one record per
      example and each of [input_ids], [input_mask] and [segment_ids] has
      length exactly [max_seq_length];
    - [convert_examples_to_relevance_features] never fails a length
      assertion, each of the six fields of every record it returns has
      length exactly [max_seq_length], and it returns one record per
      example when every example has a [text_b]. *)
Theorem feature_fields_have_max_seq_length
  (examples : list InputExample) (label_list : list string)
  (max_seq_length : Z) :
  (forall e, e ∈ examples ->
     exists l, label e = Some l /\ l ∈ label_list) ->
  2 <= max_seq_length ->
  ((forall e, e ∈ examples -> text_b e <> None -> 3 <= max_seq_length) ->
   exists features,
     convert_examples_to_features tokenize convert_tokens_to_ids
       examples label_list max_seq_length = Ok features /\
     length features = length examples /\
     Forall (fun f =>
       len (input_ids f) = max_seq_length /\
       len (input_mask f) = max_seq_length /\
       len (segment_ids f) = max_seq_length) features) /\
  (convert_examples_to_relevance_features tokenize convert_tokens_to_ids
     examples label_list max_seq_length <> Raise AssertionError /\
   (forall features,
      convert_examples_to_relevance_features tokenize convert_tokens_to_ids
        examples label_list max_seq_length = Ok features ->
      Forall (fun f =>
        len (query_ids f) = max_seq_length /\
        len (psg_ids f) = max_seq_length /\
        len (query_mask f) = max_seq_length /\
        len (psg_mask f) = max_seq_length /\
        len (query_segment_ids f) = max_seq_length /\
        len (psg_segment_ids f) = max_seq_length) features) /\
   ((forall e, e ∈ examples -> text_b e <> None) ->
    exists features,
      convert_examples_to_relevance_features tokenize convert_tokens_to_ids
        examples label_list max_seq_length = Ok features /\
      length features = length examples)).
Proof.
  intros Hlabels Hmsl. split; [|split_and!].
  - intros Hpair. unfold convert_examples_to_features.
    destruct (for_each_total
      (convert_example tokenize convert_tokens_to_ids
         (label_map label_list) max_seq_length) examples) as [fs Hfs].
    { intros e He. apply convert_example_total;
        [by apply Hlabels|done|by apply Hpair]. }
    exists fs. split; [done|]. apply for_each_Ok in Hfs.
    split; [symmetry; by eapply Forall2_length|].
    clear Hlabels Hpair.
    induction Hfs as [|e f es fs' He _ IH]; [constructor|].
    constructor; [|done]. by eapply convert_example_lengths.
  - unfold convert_examples_to_relevance_features. intros Hr.
    apply for_each_Raise in Hr as (e & He & Hr).
    apply convert_relevance_example_Raise in Hr as [_ ?];
      [done|by apply Hlabels|done].
  - unfold convert_examples_to_relevance_features. intros fs Hfs.
    apply for_each_Ok in Hfs.
    clear Hlabels.
    induction Hfs as [|e f es fs He _ IH]; [constructor|].
    constructor; [|done]. by eapply convert_relevance_example_lengths.
  - intros Hb. unfold convert_examples_to_relevance_features.
    destruct (for_each_total
      (convert_relevance_example tokenize convert_tokens_to_ids
         (label_map label_list) max_seq_length) examples) as [fs Hfs].
    { intros e He.
      destruct (convert_relevance_example tokenize convert_tokens_to_ids
                  (label_map label_list) max_seq_length e) as [f|err] eqn:E;
        [eauto|].
      apply convert_relevance_example_Raise in E as [E _];
        [|by apply Hlabels|done].
      by apply Hb in E. }
    exists fs. split; [done|]. apply for_each_Ok in Hfs.
    symmetry. by eapply Forall2_length.
Qed.

(** *** Truncation budgets *)

(** For [max_seq_length >= 2], an example without [text_b] and with a
    known label always gives a record, built from the first
    [max_seq_length - 2] tokens of [text_a]. *)
Lemma convert_example_single_returns (ll : list string) (msl : Z)
  (e : InputExample) :
  2 <= msl -> truthy_str (text_b e) = false ->
  (exists l, label e = Some l /\ l ∈ ll) ->
  let kept := take (Z.to_nat (msl - 2)) (tokenize (text_a e)) in
  kept_tokens tokenize e msl = Ok (kept, None) /\
  len kept = Z.min (msl - 2) (len (tokenize (text_a e))) /\
  exists f,
    convert_example tokenize convert_tokens_to_ids (label_map ll) msl e
      = Ok f /\
    input_ids f =
      convert_tokens_to_ids (["[CLS]"] ++ kept ++ ["[SEP]"])
        ++ py_repeat 0 (msl - (len kept + 2)) /\
    input_mask f =
      py_repeat 1 (len kept + 2) ++ py_repeat 0 (msl - (len kept + 2)).
Proof.
  intros Hmsl Ht (l & Hl & Hin) kept. subst kept.
  rewrite <- truncate_single_take by done.
  pose proof (len_truncate_single (tokenize (text_a e)) msl Hmsl) as Hlen.
  split; [by apply kept_tokens_single|]. split; [done|].
  rewrite convert_example_eq, kept_tokens_single by done.
  cbn [mbind result_bind].
  destruct (join_tokens_lengths
              (truncate_single (tokenize (text_a e)) msl) None)
    as [_ Hjoin].
  cbn [truthy_list] in Hjoin. rewrite Z.add_0_r in Hjoin.
  cbv zeta. rewrite Hjoin.
  destruct (Z.leb_spec (len (truncate_single (tokenize (text_a e)) msl) + 2)
              msl); [|lia].
  destruct (label_map_lookup_elem ll l Hin) as [i Hi].
  rewrite Hl. cbn [getitem]. rewrite Hi. cbn [mbind result_bind].
  eexists. split; [done|]. cbn [input_ids input_mask].
  by unfold join_tokens.
Qed.

(** For [max_seq_length >= 2], an example with a [text_b] and a known
    label always gives a relevance record, each of its sides built from
    the first [max_seq_length - 2] tokens of its own text. *)
Lemma convert_relevance_example_returns (ll : list string) (msl : Z)
  (e : InputExample) (sb : string) :
  2 <= msl -> text_b e = Some sb ->
  (exists l, label e = Some l /\ l ∈ ll) ->
  let kept_a := take (Z.to_nat (msl - 2)) (tokenize (text_a e)) in
  let kept_b := take (Z.to_nat (msl - 2)) (tokenize sb) in
  kept_relevance_tokens tokenize e msl = Ok (kept_a, kept_b) /\
  len kept_a = Z.min (msl - 2) (len (tokenize (text_a e))) /\
  len kept_b = Z.min (msl - 2) (len (tokenize sb)) /\
  exists f,
    convert_relevance_example tokenize convert_tokens_to_ids
      (label_map ll) msl e = Ok f /\
    (query_ids f, query_mask f, query_segment_ids f) =
      encode_side convert_tokens_to_ids kept_a msl /\
    (psg_ids f, psg_mask f, psg_segment_ids f) =
      encode_side convert_tokens_to_ids kept_b msl.
Proof.
  intros Hmsl Hsb Hlabel kept_a kept_b. subst kept_a kept_b.
  rewrite <- !truncate_single_take by done.
  split; [apply kept_relevance_tokens_Ok; eauto|].
  split; [by apply len_truncate_single|].
  split; [by apply len_truncate_single|].
  destruct (convert_relevance_example tokenize convert_tokens_to_ids
              (label_map ll) msl e) as [f|err] eqn:E.
  - exists f. split; [done|].
    apply convert_relevance_example_Ok in E
      as (sb' & Hsb' & _ & _ & Hq & Hp & _).
    rewrite Hsb in Hsb'. injection Hsb' as <-. done.
  - apply convert_relevance_example_Raise in E as [E _]; [|done..].
    congruence.
Qed.

(** Claim C3 (as amended). For [max_seq_length >= 2]:
    - [convert_examples_to_relevance_features] cuts each side of every
      example that has a [text_b] to its first [max_seq_length - 2]
      tokens, so it keeps at most [max_seq_length - 2] content tokens of
      each side and at most [2 * (max_seq_length - 2)] of both together;
    - on examples that have a [text_b] and a known label it returns one
      record per example, whose masks count the kept tokens of each side
      and their two markers;
    - the shared budget of [max_seq_length - 3] tokens is the one of
      [convert_examples_to_features] on an example with a non-empty
      [text_b], for [max_seq_length >= 3]. *)
Theorem relevance_pair_budget (label_list : list string)
  (max_seq_length : Z) :
  2 <= max_seq_length ->
  (forall e sb,
     text_b e = Some sb ->
     exists tokens_a tokens_b,
       kept_relevance_tokens tokenize e max_seq_length
         = Ok (tokens_a, tokens_b) /\
       len tokens_a = Z.min (max_seq_length - 2) (len (tokenize (text_a e)))
       /\
       len tokens_b = Z.min (max_seq_length - 2) (len (tokenize sb)) /\
       len tokens_a <= max_seq_length - 2 /\
       len tokens_b <= max_seq_length - 2 /\
       len tokens_a + len tokens_b <= 2 * (max_seq_length - 2)) /\
  (forall examples,
     (forall e, e ∈ examples ->
        text_b e <> None /\ exists l, label e = Some l /\ l ∈ label_list) ->
     exists features,
       convert_examples_to_relevance_features tokenize convert_tokens_to_ids
         examples label_list max_seq_length = Ok features /\
       Forall2 (fun e f =>
         exists tokens_a tokens_b,
           kept_relevance_tokens tokenize e max_seq_length
             = Ok (tokens_a, tokens_b) /\
           len tokens_a <= max_seq_length - 2 /\
           len tokens_b <= max_seq_length - 2 /\
           len tokens_a + len tokens_b <= 2 * (max_seq_length - 2) /\
           query_mask f = py_repeat 1 (len tokens_a + 2)
             ++ py_repeat 0 (max_seq_length - (len tokens_a + 2)) /\
           psg_mask f = py_repeat 1 (len tokens_b + 2)
             ++ py_repeat 0 (max_seq_length - (len tokens_b + 2)))
         examples features) /\
  (forall e,
     3 <= max_seq_length -> truthy_str (text_b e) = true ->
     exists tokens_a tokens_b,
       kept_tokens tokenize e max_seq_length
         = Ok (tokens_a, Some tokens_b) /\
       len tokens_a + len tokens_b <= max_seq_length - 3).
Proof.
  intros Hmsl. split_and!.
  - intros e sb Hsb.
    eexists _, _. split; [apply kept_relevance_tokens_Ok; eauto|].
    rewrite !len_truncate_single by done. split_and!; lia.
  - intros examples. unfold convert_examples_to_relevance_features.
    induction examples as [|e examples IH]; intros Hall.
    { exists []. split; [done|constructor]. }
    destruct IH as (fs & Hfs & Hrec).
    { intros e' He'. apply Hall. by right. }
    destruct (Hall e) as [Hb Hlabel]; [by left|].
    destruct (text_b e) as [sb|] eqn:Hsb; [|done].
    destruct (convert_relevance_example_returns label_list max_seq_length
                e sb Hmsl Hsb Hlabel)
      as (Hk & Ha & Hb' & f & Hf & Hq & Hp).
    exists (f :: fs). cbn [for_each]. rewrite Hf, Hfs. split; [done|].
    constructor; [|done].
    eexists _, _. split; [exact Hk|].
    rewrite encode_side_eq in Hq, Hp. cbv zeta in Hq, Hp.
    injection Hq as _ -> _. injection Hp as _ -> _.
    split_and!; try done; lia.
  - intros e H3 Ht.
    destruct (kept_tokens_pair e max_seq_length Ht) as (sb & _ & ->).
    destruct (_truncate_seq_pair_correct
                (length (tokenize (text_a e)) + length (tokenize sb))
                (tokenize (text_a e)) (tokenize sb) (max_seq_length - 3))
      as (a & b & -> & _ & _ & _ & Hlen); [lia|done|].
    exists a, b. split; [done|]. lia.
Qed.

(** Claim C4 (as amended). For [max_seq_length >= 2]:
    - for every example without [text_b], [convert_examples_to_features]
      keeps exactly the first [max_seq_length - 2] tokens of [tokens_a],
      hence at most [max_seq_length - 2] content tokens, and on examples
      with known labels it returns the records built from them;
    - for every example with a [text_b],
      [convert_examples_to_relevance_features] keeps exactly the first
      [max_seq_length - 2] tokens of each side, the cut of one side being
      a function of that side alone, and on examples with known labels it
      returns the records whose query fields are built from the kept
      tokens of [text_a] and whose passage fields from those of [text_b];
    - so two examples with the same [text_a] get the same query fields
      whatever their [text_b], and conversely. *)
Theorem sides_truncated_independently (label_list : list string)
  (max_seq_length : Z) :
  2 <= max_seq_length ->
  let cut := fun tokens : list token =>
               take (Z.to_nat (max_seq_length - 2)) tokens in
  (forall tokens,
     len (cut tokens) = Z.min (max_seq_length - 2) (len tokens)) /\
  (forall e,
     truthy_str (text_b e) = false ->
     kept_tokens tokenize e max_seq_length
       = Ok (cut (tokenize (text_a e)), None)) /\
  (forall e sb,
     text_b e = Some sb ->
     kept_relevance_tokens tokenize e max_seq_length
       = Ok (cut (tokenize (text_a e)), cut (tokenize sb))) /\
  (forall examples,
     (forall e, e ∈ examples ->
        truthy_str (text_b e) = false /\
        exists l, label e = Some l /\ l ∈ label_list) ->
     exists features,
       convert_examples_to_features tokenize convert_tokens_to_ids
         examples label_list max_seq_length = Ok features /\
       Forall2 (fun e f =>
         let kept := cut (tokenize (text_a e)) in
         len kept <= max_seq_length - 2 /\
         input_ids f =
           convert_tokens_to_ids (["[CLS]"] ++ kept ++ ["[SEP]"])
             ++ py_repeat 0 (max_seq_length - (len kept + 2)) /\
         input_mask f =
           py_repeat 1 (len kept + 2)
             ++ py_repeat 0 (max_seq_length - (len kept + 2)))
         examples features) /\
  (forall examples,
     (forall e, e ∈ examples ->
        text_b e <> None /\ exists l, label e = Some l /\ l ∈ label_list) ->
     exists features,
       convert_examples_to_relevance_features tokenize convert_tokens_to_ids
         examples label_list max_seq_length = Ok features /\
       Forall2 (fun e f =>
         exists sb, text_b e = Some sb /\
           let kept_a := cut (tokenize (text_a e)) in
           let kept_b := cut (tokenize sb) in
           len kept_a <= max_seq_length - 2 /\
           len kept_b <= max_seq_length - 2 /\
           (query_ids f, query_mask f, query_segment_ids f) =
             encode_side convert_tokens_to_ids kept_a max_seq_length /\
           (psg_ids f, psg_mask f, psg_segment_ids f) =
             encode_side convert_tokens_to_ids kept_b max_seq_length)
         examples features) /\
  (forall e1 e2,
     text_b e1 <> None -> text_b e2 <> None ->
     (exists l, label e1 = Some l /\ l ∈ label_list) ->
     (exists l, label e2 = Some l /\ l ∈ label_list) ->
     exists f1 f2,
       convert_examples_to_relevance_features tokenize convert_tokens_to_ids
         [e1] label_list max_seq_length = Ok [f1] /\
       convert_examples_to_relevance_features tokenize convert_tokens_to_ids
         [e2] label_list max_seq_length = Ok [f2] /\
       (text_a e1 = text_a e2 ->
        query_ids f1 = query_ids f2 /\ query_mask f1 = query_mask f2 /\
        query_segment_ids f1 = query_segment_ids f2) /\
       (text_b e1 = text_b e2 ->
        psg_ids f1 = psg_ids f2 /\ psg_mask f1 = psg_mask f2 /\
        psg_segment_ids f1 = psg_segment_ids f2)).
Proof.
  intros Hmsl cut. subst cut. cbv beta. split_and!.
  - intros tokens. by rewrite <- truncate_single_take, len_truncate_single.
  - intros e Ht. rewrite kept_tokens_single by done.
    by rewrite truncate_single_take.
  - intros e sb Hsb. rewrite <- !truncate_single_take by done.
    apply kept_relevance_tokens_Ok. eauto.
  - intros examples. unfold convert_examples_to_features.
    induction examples as [|e examples IH]; intros Hall.
    { exists []. split; [done|constructor]. }
    destruct IH as (fs & Hfs & Hrec).
    { intros e' He'. apply Hall. by right. }
    destruct (Hall e) as [Ht Hlabel]; [by left|].
    destruct (convert_example_single_returns label_list max_seq_length
                e Hmsl Ht Hlabel) as (_ & Hlen & f & Hf & Hids & Hmask).
    exists (f :: fs). cbn [for_each]. rewrite Hf, Hfs. split; [done|].
    constructor; [|done]. cbv zeta. split_and!; [lia|done..].
  - intros examples. unfold convert_examples_to_relevance_features.
    induction examples as [|e examples IH]; intros Hall.
    { exists []. split; [done|constructor]. }
    destruct IH as (fs & Hfs & Hrec).
    { intros e' He'. apply Hall. by right. }
    destruct (Hall e) as [Hb Hlabel]; [by left|].
    destruct (text_b e) as [sb|] eqn:Hsb; [|done].
    destruct (convert_relevance_example_returns label_list max_seq_length
                e sb Hmsl Hsb Hlabel)
      as (_ & Ha & Hb' & f & Hf & Hq & Hp).
    exists (f :: fs). cbn [for_each]. rewrite Hf, Hfs. split; [done|].
    constructor; [|done]. exists sb. split; [done|]. cbv zeta.
    split_and!; [lia|lia|done..].
  - intros e1 e2 Hb1 Hb2 Hl1 Hl2.
    destruct (text_b e1) as [sb1|] eqn:Hsb1; [|done].
    destruct (text_b e2) as [sb2|] eqn:Hsb2; [|done].
    destruct (convert_relevance_example_returns label_list max_seq_length
                e1 sb1 Hmsl Hsb1 Hl1) as (_ & _ & _ & f1 & Hf1 & Hq1 & Hp1).
    destruct (convert_relevance_example_returns label_list max_seq_length
                e2 sb2 Hmsl Hsb2 Hl2) as (_ & _ & _ & f2 & Hf2 & Hq2 & Hp2).
    exists f1, f2. unfold convert_examples_to_relevance_features.
    cbn [for_each]. rewrite Hf1, Hf2. split_and!; [done..| |].
    + intros Heq. rewrite Heq, <- Hq2 in Hq1. by injection Hq1.
    + intros [= ->]. rewrite <- Hp2 in Hp1. by injection Hp1.
Qed.

(** *** Labels *)



Lemma convert_relevance_example_label (lm : gmap string Z) (msl : Z)
  (e : InputExample) (f : RelevanceFeatures) :
  convert_relevance_example tokenize convert_tokens_to_ids lm msl e = Ok f ->
  getitem lm (label e) = Ok (rel_label_id f).
Proof.
  unfold convert_relevance_example. intros H.
  apply bind_Ok in H as ([ta tb] & _ & H).
  destruct (encode_side convert_tokens_to_ids ta msl) as [[qi qm] qs].
  destruct (encode_side convert_tokens_to_ids tb msl) as [[pi pm] ps].
  do 6 (apply bind_Ok in H as (? & _ & H)).
  apply bind_Ok in H as (i & Hi & H). by injection H as <-.
Qed.




(** *** Segment ids of relevance records *)

Lemma encode_side_segment_ids_zero (tokens : list token) (msl : Z) :
  Forall (fun s => s = 0) (encode_side convert_tokens_to_ids tokens msl).2.
Proof.
  unfold encode_side. cbn [snd].
  apply Forall_app; split; apply Forall_replicate; done.
Qed.

Lemma convert_relevance_example_segment_ids (lm : gmap string Z) (msl : Z)
  (e : InputExample) (f : RelevanceFeatures) :
  convert_relevance_example tokenize convert_tokens_to_ids lm msl e = Ok f ->
  exists ta tb,
    query_segment_ids f = (encode_side convert_tokens_to_ids ta msl).2 /\
    psg_segment_ids f = (encode_side convert_tokens_to_ids tb msl).2.
Proof.
  unfold convert_relevance_example. intros H.
  apply bind_Ok in H as ([ta tb] & _ & H). exists ta, tb.
  destruct (encode_side convert_tokens_to_ids ta msl) as [[qi qm] qs].
  destruct (encode_side convert_tokens_to_ids tb msl) as [[pi pm] ps].
  repeat (apply bind_Ok in H as (? & _ & H)).
  by injection H as <-.
Qed.

(** Claim C10. In every record that
    [convert_examples_to_relevance_features] returns, [query_segment_ids]
    and [psg_segment_ids] consist of zeros only: the passage side is never
    marked with segment id 1. *)
Theorem relevance_segment_ids_zero (examples : list InputExample)
  (label_list : list string) (max_seq_length : Z)
  (features : list RelevanceFeatures) :
  convert_examples_to_relevance_features tokenize convert_tokens_to_ids
    examples label_list max_seq_length = Ok features ->
  Forall (fun f =>
    Forall (fun s => s = 0) (query_segment_ids f) /\
    Forall (fun s => s = 0) (psg_segment_ids f)) features.
Proof.
  unfold convert_examples_to_relevance_features. rewrite for_each_Ok.
  induction 1 as [|e f es fs He _ IH]; [constructor|].
  constructor; [|done].
  apply convert_relevance_example_segment_ids in He
    as (ta & tb & -> & ->).
  split; apply encode_side_segment_ids_zero.
Qed.

End ConverterProperties.

(** ** Claims about [_truncate_seq_pair] *)

(** Claim C2. For every pair of token lists and every [max_length >= 0],
    [_truncate_seq_pair] returns normally; it gets from the lists it is
    given to the lists it returns by steps that each remove one token from
    the end of the longer list ([tokens_b] when they are equally long) while
    the combined length exceeds [max_length]; the body of its loop takes
    exactly such steps; and on return each list is a prefix of its original
    value and the combined length is at most [max_length] (it is the smaller
    of the original combined length and [max_length]). *)
Theorem _truncate_seq_pair_spec (tokens_a tokens_b : list token)
  (max_length : Z) :
  0 <= max_length ->
  (forall s s', loop_step max_length s s' <-> removes_one max_length s s') /\
  exists tokens_a' tokens_b',
    _truncate_seq_pair tokens_a tokens_b max_length
      = Ok (tokens_a', tokens_b') /\
    rtc (removes_one max_length)
      (tokens_a, tokens_b) (tokens_a', tokens_b') /\
    tokens_a' `prefix_of` tokens_a /\
    tokens_b' `prefix_of` tokens_b /\
    len tokens_a' + len tokens_b' <= max_length /\
    len tokens_a' + len tokens_b' =
      Z.min (len tokens_a + len tokens_b) max_length.
Proof.
  intros Hm. split; [apply loop_step_removes_one|].
  destruct (_truncate_seq_pair_correct
              (length tokens_a + length tokens_b) tokens_a tokens_b
              max_length Hm (Nat.le_refl _))
    as (a' & b' & Hrun & Hsteps & Hpa & Hpb & Hlen).
  exists a', b'. split_and!; try done. lia.
Qed.

(** Claim C9. The loop of [_truncate_seq_pair] terminates on every pair of
    token lists: an iteration that does not leave the loop strictly
    decreases the combined length of the two lists, so the transition
    relation of the loop is well founded and any number of iterations above
    the combined length completes the run; for [max_length >= 0] the run
    ends by leaving the loop normally. *)
Theorem _truncate_seq_pair_terminates (max_length : Z) :
  (forall a b a' b',
     loop_body a b max_length = Continue a' b' ->
     (length a' + length b' < length a + length b)%nat) /\
  well_founded (fun s' s => loop_step max_length s s') /\
  (forall a b, exists r,
     (forall fuel, (length a + length b < fuel)%nat ->
        while_true fuel a b max_length = Some r) /\
     _truncate_seq_pair a b max_length = r /\
     (0 <= max_length -> exists a' b', r = Ok (a', b'))).
Proof.
  split_and!.
  - intros a b a' b'. apply loop_body_decreases.
  - apply (well_founded_lt_compat _
             (fun s : list token * list token =>
                (length s.1 + length s.2)%nat)).
    intros s' s. apply loop_body_decreases.
  - intros a b.
    destruct (while_true_enough (S (length a + length b)) a b max_length)
      as [r Hr]; [lia|].
    exists r. split_and!.
    + intros fuel Hfuel. eapply while_true_mono; [done|lia].
    + by eapply _truncate_seq_pair_run.
    + intros Hm.
      destruct (_truncate_seq_pair_correct _ a b max_length Hm
                  (Nat.le_refl _)) as (a' & b' & Hrun & _).
      exists a', b'. by rewrite <- (_truncate_seq_pair_run _ _ _ _ _ Hr).
Qed.

(** ** Claims about the data processors *)

Lemma index_Ok {A : Type} (l : list A) (i : nat) :
  (i < length l)%nat -> exists x, index l i = Ok x /\ l !! i = Some x.
Proof.
  intros H. unfold index. destruct (lookup_lt_is_Some_2 l i H) as [x ->].
  eauto.
Qed.

Lemma index_Raise {A : Type} (l : list A) (i : nat) :
  (length l <= i)%nat -> index l i = Raise IndexError.
Proof. intros H. unfold index. by rewrite lookup_ge_None_2. Qed.

Lemma index_last_Ok {A : Type} (l : list A) :
  l <> [] -> exists x, index_last l = Ok x.
Proof.
  unfold index_last. intros H.
  destruct (last l) eqn:E; [eauto|]. by apply last_None in E.
Qed.

(** A row of a good width is read without error. *)
Ltac read_column line n :=
  let x := fresh "x" in
  let Hx := fresh "Hx" in
  let Hl := fresh "Hl" in
  destruct (index_Ok line n) as (x & Hx & Hl); [lia|]; rewrite Hx;
  cbn [mbind result_bind].

(** A short row raises IndexError at the first column it lacks. *)
Ltac miss_column line n :=
  destruct (Nat.le_gt_cases (length line) n);
    [ rewrite (index_Raise line n) by lia; reflexivity
    | try (exfalso; lia); read_column line n ].

Module MrpcFacts.
Import MrpcProcessor.

Lemma mrpc_create_from_Ok (i : nat) (lines : list row) (set_type : string) :
  Forall (fun line => (5 <= length line)%nat) lines ->
  exists examples,
    create_from (S i) lines set_type = Ok examples /\
    Forall2 (fun line ex =>
      line !! 3%nat = Some (text_a ex) /\ line !! 4%nat = text_b ex /\
      line !! 0%nat = label ex) lines examples.
Proof.
  revert i. induction lines as [|line lines IH]; intros i H.
  - exists []. split; [done|constructor].
  - inversion H as [|? ? Hw Hrest]; subst.
    destruct (IH (S i) Hrest) as (exs & Hexs & Hall).
    cbn [create_from Nat.eqb].
    read_column line 3%nat. read_column line 4%nat. read_column line 0%nat.
    rewrite Hexs. cbn [mbind result_bind].
    eexists. split; [done|]. constructor; [|done]. simpl. by split_and!.
Qed.

Lemma mrpc_create_from_Raise (i : nat) (lines : list row) (set_type : string) :
  Exists (fun line => (length line < 5)%nat) lines ->
  create_from (S i) lines set_type = Raise IndexError.
Proof.
  revert i. induction lines as [|line lines IH]; intros i H.
  - by apply Exists_nil in H.
  - cbn [create_from Nat.eqb].
    destruct (Nat.lt_ge_cases (length line) 5) as [Hs|Hw].
    + miss_column line 3%nat. miss_column line 4%nat.
    + apply Exists_cons in H as [?|H]; [lia|].
      read_column line 3%nat. read_column line 4%nat.
      read_column line 0%nat. by rewrite (IH (S i) H).
Qed.

End MrpcFacts.

Module MnliFacts.
Import MnliProcessor.

Lemma mnli_create_from_Ok (i : nat) (lines : list row) (set_type : string) :
  Forall (fun line => (10 <= length line)%nat) lines ->
  exists examples,
    create_from (S i) lines set_type = Ok examples /\
    Forall2 (fun line ex =>
      line !! 8%nat = Some (text_a ex) /\ line !! 9%nat = text_b ex /\
      last line = label ex) lines examples.
Proof.
  revert i. induction lines as [|line lines IH]; intros i H.
  - exists []. split; [done|constructor].
  - inversion H as [|? ? Hw Hrest]; subst.
    destruct (IH (S i) Hrest) as (exs & Hexs & Hall).
    cbn [create_from Nat.eqb].
    read_column line 0%nat. read_column line 8%nat. read_column line 9%nat.
    unfold index_last. destruct (last line) as [lbl|] eqn:Hlast.
    + cbn [mbind result_bind]. rewrite Hexs. cbn [mbind result_bind].
      eexists. split; [done|]. constructor; [|done]. simpl. by split_and!.
    + apply last_None in Hlast. subst line. simpl in Hw. lia.
Qed.

Lemma mnli_create_from_Raise (i : nat) (lines : list row) (set_type : string) :
  Exists (fun line => (length line < 10)%nat) lines ->
  create_from (S i) lines set_type = Raise IndexError.
Proof.
  revert i. induction lines as [|line lines IH]; intros i H.
  - by apply Exists_nil in H.
  - cbn [create_from Nat.eqb].
    destruct (Nat.lt_ge_cases (length line) 10) as [Hs|Hw].
    + miss_column line 0%nat. miss_column line 8%nat. miss_column line 9%nat.
    + apply Exists_cons in H as [?|H]; [lia|].
      read_column line 0%nat. read_column line 8%nat.
      read_column line 9%nat.
      destruct (index_last_Ok line) as [lbl ->];
        [by intros ->; simpl in Hw; lia|].
      cbn [mbind result_bind]. by rewrite (IH (S i) H).
Qed.

End MnliFacts.

Module ColaFacts.
Import ColaProcessor.

Lemma cola_create_from_Ok (i : nat) (lines : list row) (set_type : string) :
  Forall (fun line => (4 <= length line)%nat) lines ->
  exists examples,
    create_from i lines set_type = Ok examples /\
    Forall2 (fun line ex =>
      line !! 3%nat = Some (text_a ex) /\ text_b ex = None /\
      line !! 1%nat = label ex) lines examples.
Proof.
  revert i. induction lines as [|line lines IH]; intros i H.
  - exists []. split; [done|constructor].
  - inversion H as [|? ? Hw Hrest]; subst.
    destruct (IH (S i) Hrest) as (exs & Hexs & Hall).
    cbn [create_from].
    read_column line 3%nat. read_column line 1%nat.
    rewrite Hexs. cbn [mbind result_bind].
    eexists. split; [done|]. constructor; [|done]. simpl. by split_and!.
Qed.

Lemma cola_create_from_Raise (i : nat) (lines : list row) (set_type : string) :
  Exists (fun line => (length line < 4)%nat) lines ->
  create_from i lines set_type = Raise IndexError.
Proof.
  revert i. induction lines as [|line lines IH]; intros i H.
  - by apply Exists_nil in H.
  - cbn [create_from].
    destruct (Nat.lt_ge_cases (length line) 4) as [Hs|Hw].
    + miss_column line 3%nat.
    + apply Exists_cons in H as [?|H]; [lia|].
      read_column line 3%nat. read_column line 1%nat.
      by rewrite (IH (S i) H).
Qed.

End ColaFacts.

Module TextQnAFacts.
Import TextQnA.

Lemma textqna_create_from_Ok (i : nat) (lines : list row) (set_type : string) :
  Forall (fun line => (3 <= length line)%nat) lines ->
  exists examples,
    create_from i lines set_type = Ok examples /\
    Forall2 (fun line ex =>
      line !! 0%nat = Some (text_a ex) /\ line !! 1%nat = text_b ex /\
      line !! 2%nat = label ex) lines examples.
Proof.
  revert i. induction lines as [|line lines IH]; intros i H.
  - exists []. split; [done|constructor].
  - inversion H as [|? ? Hw Hrest]; subst.
    destruct (IH (S i) Hrest) as (exs & Hexs & Hall).
    cbn [create_from].
    read_column line 0%nat. read_column line 1%nat. read_column line 2%nat.
    rewrite Hexs. cbn [mbind result_bind].
    eexists. split; [done|]. constructor; [|done]. simpl. by split_and!.
Qed.

Lemma textqna_create_from_Raise (i : nat) (lines : list row)
  (set_type : string) :
  Exists (fun line => (length line < 3)%nat) lines ->
  create_from i lines set_type = Raise IndexError.
Proof.
  revert i. induction lines as [|line lines IH]; intros i H.
  - by apply Exists_nil in H.
  - cbn [create_from].
    destruct (Nat.lt_ge_cases (length line) 3) as [Hs|Hw].
    + miss_column line 0%nat. miss_column line 1%nat. miss_column line 2%nat.
    + apply Exists_cons in H as [?|H]; [lia|].
      read_column line 0%nat. read_column line 1%nat.
      read_column line 2%nat. by rewrite (IH (S i) H).
Qed.

End TextQnAFacts.

(** Claim C7 (as amended). For every list of rows:
    - when every row after the first has the columns the processor reads (5
      for MRPC, 10 for MNLI), [MrpcProcessor._create_examples] and
      [MnliProcessor._create_examples] skip the first row and return one
      example per remaining row, built from that row: [len(lines) - 1]
      examples, and none for the empty list;
    - when every row has the columns the processor reads (4 for CoLA, 3 for
      TextQnA), [ColaProcessor._create_examples] and
      [TextQnA._create_examples] return one example per row, the first
      included: [len(lines)] examples;
    - when a row that is read is shorter, the call raises IndexError. *)
Theorem _create_examples_counts (lines : list row) (set_type : string) :
  ((Forall (fun line => (5 <= length line)%nat) (drop 1 lines) ->
    exists examples,
      MrpcProcessor._create_examples lines set_type = Ok examples /\
      length examples = (length lines - 1)%nat /\
      Forall2 (fun line ex =>
        line !! 3%nat = Some (text_a ex) /\ line !! 4%nat = text_b ex /\
        line !! 0%nat = label ex) (drop 1 lines) examples) /\
   (Exists (fun line => (length line < 5)%nat) (drop 1 lines) ->
    MrpcProcessor._create_examples lines set_type = Raise IndexError)) /\
  ((Forall (fun line => (10 <= length line)%nat) (drop 1 lines) ->
    exists examples,
      MnliProcessor._create_examples lines set_type = Ok examples /\
      length examples = (length lines - 1)%nat /\
      Forall2 (fun line ex =>
        line !! 8%nat = Some (text_a ex) /\ line !! 9%nat = text_b ex /\
        last line = label ex) (drop 1 lines) examples) /\
   (Exists (fun line => (length line < 10)%nat) (drop 1 lines) ->
    MnliProcessor._create_examples lines set_type = Raise IndexError)) /\
  ((Forall (fun line => (4 <= length line)%nat) lines ->
    exists examples,
      ColaProcessor._create_examples lines set_type = Ok examples /\
      length examples = length lines /\
      Forall2 (fun line ex =>
        line !! 3%nat = Some (text_a ex) /\ text_b ex = None /\
        line !! 1%nat = label ex) lines examples) /\
   (Exists (fun line => (length line < 4)%nat) lines ->
    ColaProcessor._create_examples lines set_type = Raise IndexError)) /\
  ((Forall (fun line => (3 <= length line)%nat) lines ->
    exists examples,
      TextQnA._create_examples lines set_type = Ok examples /\
      length examples = length lines /\
      Forall2 (fun line ex =>
        line !! 0%nat = Some (text_a ex) /\ line !! 1%nat = text_b ex /\
        line !! 2%nat = label ex) lines examples) /\
   (Exists (fun line => (length line < 3)%nat) lines ->
    TextQnA._create_examples lines set_type = Raise IndexError)).
Proof.
  split_and!.
  - intros H. unfold MrpcProcessor._create_examples.
    destruct lines as [|header lines]; [exists []; by split_and!|].
    cbn [drop] in H |- *. rewrite ?drop_0 in H |- *.
    destruct (MrpcFacts.mrpc_create_from_Ok 0 lines set_type H)
      as (exs & Hexs & Hall).
    exists exs. cbn [MrpcProcessor.create_from Nat.eqb].
    split_and!; [done| |done].
    apply Forall2_length in Hall. simpl. lia.
  - intros H. unfold MrpcProcessor._create_examples.
    destruct lines as [|header lines]; [by apply Exists_nil in H|].
    cbn [drop] in H. rewrite ?drop_0 in H.
    by apply MrpcFacts.mrpc_create_from_Raise.
  - intros H. unfold MnliProcessor._create_examples.
    destruct lines as [|header lines]; [exists []; by split_and!|].
    cbn [drop] in H |- *. rewrite ?drop_0 in H |- *.
    destruct (MnliFacts.mnli_create_from_Ok 0 lines set_type H)
      as (exs & Hexs & Hall).
    exists exs. cbn [MnliProcessor.create_from Nat.eqb].
    split_and!; [done| |done].
    apply Forall2_length in Hall. simpl. lia.
  - intros H. unfold MnliProcessor._create_examples.
    destruct lines as [|header lines]; [by apply Exists_nil in H|].
    cbn [drop] in H. rewrite ?drop_0 in H.
    by apply MnliFacts.mnli_create_from_Raise.
  - intros H. unfold ColaProcessor._create_examples.
    destruct (ColaFacts.cola_create_from_Ok 0 lines set_type H)
      as (exs & Hexs & Hall).
    exists exs. split_and!; [done| |done].
    symmetry. by eapply Forall2_length.
  - apply ColaFacts.cola_create_from_Raise.
  - intros H. unfold TextQnA._create_examples.
    destruct (TextQnAFacts.textqna_create_from_Ok 0 lines set_type H)
      as (exs & Hexs & Hall).
    exists exs. split_and!; [done| |done].
    symmetry. by eapply Forall2_length.
  - apply TextQnAFacts.textqna_create_from_Raise.
Qed.

(** ** Claims about [main] *)

Section MainProperties.

Variable Framework : Type.
Variable os_error : filesystem -> os_call -> option exn.
Variable setup_device : Args -> Framework -> Framework * result unit.
Variable seed_everything : Args -> Framework -> Framework * result unit.
Variable lower : string -> string.





End MainProperties.

(** ** Claims about [warmup_linear] *)

Module Schedule.
Import PrimFloat SpecFloat FloatOps FloatAxioms.










End Schedule.

(** ** The embedding on the sample inputs *)

Example _truncate_seq_pair_sample :
  _truncate_seq_pair ["a"; "b"; "c"; "d"] ["x"; "y"; "z"] 4
  = Ok (["a"; "b"], ["x"; "y"]).
Proof. by vm_compute. Qed.

Example _truncate_seq_pair_negative :
  _truncate_seq_pair [] [] (-1) = Raise IndexError.
Proof. by vm_compute. Qed.

Example convert_examples_to_features_sample :
  convert_examples_to_features char_tokenize char_ids
    [sample_pair; sample_single] ["0"; "1"] 8
  = Ok [ {| input_ids := [91; 97; 98; 99; 91; 120; 121; 91];
            input_mask := [1; 1; 1; 1; 1; 1; 1; 1];
            segment_ids := [0; 0; 0; 0; 0; 1; 1; 1];
            label_id := 1 |};
         {| input_ids := [91; 97; 98; 99; 100; 101; 102; 91];
            input_mask := [1; 1; 1; 1; 1; 1; 1; 1];
            segment_ids := [0; 0; 0; 0; 0; 0; 0; 0];
            label_id := 0 |} ].
Proof. by vm_compute. Qed.

Example convert_examples_to_relevance_features_sample :
  convert_examples_to_relevance_features char_tokenize char_ids
    [sample_pair] ["0"; "1"] 6
  = Ok [ {| query_ids := [91; 97; 98; 99; 91; 0];
            psg_ids := [91; 120; 121; 122; 91; 0];
            query_mask := [1; 1; 1; 1; 1; 0];
            psg_mask := [1; 1; 1; 1; 1; 0];
            query_segment_ids := [0; 0; 0; 0; 0; 0];
            psg_segment_ids := [0; 0; 0; 0; 0; 0];
            rel_label_id := 1 |} ].
Proof. by vm_compute. Qed.

Example convert_examples_to_relevance_features_no_text_b :
  convert_examples_to_relevance_features char_tokenize char_ids
    [sample_single] ["0"; "1"] 6 = Raise TokenizerError.
Proof. by vm_compute. Qed.

Example convert_examples_to_features_too_short :
  convert_examples_to_features char_tokenize char_ids
    [sample_single] ["0"; "1"] 1 = Raise AssertionError.
Proof. by vm_compute. Qed.

Example convert_examples_to_features_unknown_label :
  convert_examples_to_features char_tokenize char_ids
    [sample_single] ["1"] 8 = Raise KeyError.
Proof. by vm_compute. Qed.

Example MrpcProcessor_sample :
  MrpcProcessor._create_examples sample_rows "train"
  = Ok [ {| guid := "train-1"; text_a := "he said";
            text_b := Some "he told"; label := Some "1" |};
         {| guid := "train-2"; text_a := "it rains";
            text_b := Some "it is dry"; label := Some "0" |} ].
Proof. by vm_compute. Qed.

Example ColaProcessor_sample :
  ColaProcessor._create_examples sample_rows "dev"
  = Ok [ {| guid := "dev-0"; text_a := "#1 String"; text_b := None;
            label := Some "#1 ID" |};
         {| guid := "dev-1"; text_a := "he said"; text_b := None;
            label := Some "17" |};
         {| guid := "dev-2"; text_a := "it rains"; text_b := None;
            label := Some "21" |} ].
Proof. by vm_compute. Qed.

Example main_sample_accumulation :
  (main unit no_os_error no_op no_op ascii_lower
     (fun _ _ _ _ w => (w, Ok ()))
     {| task_name := "TextQnA"; output_dir := "out"; do_train := true;
        do_eval := true; train_batch_size := 32;
        gradient_accumulation_steps := 0 |} (∅, ())).2
  = Raise (ValueError
      "Invalid gradient_accumulation_steps parameter: 0, should be >= 1").
Proof. by vm_compute. Qed.

Example main_sample_passes :
  (main unit no_os_error no_op no_op ascii_lower
     (fun _ _ _ _ w => (w, Ok ()))
     {| task_name := "TextQnA"; output_dir := "out"; do_train := true;
        do_eval := true; train_batch_size := 32;
        gradient_accumulation_steps := 2 |} (∅, ())).2
  = Ok ().
Proof. by vm_compute. Qed.

(** Line 539 on integers: the quotient goes through a float. *)
Example int_truediv_sample :
  int_truediv 32 2 ≫= int_of_float = Ok 16 /\
  int_truediv 33 2 ≫= int_of_float = Ok 16 /\
  int_truediv (-7) 2 ≫= int_of_float = Ok (-3) /\
  int_truediv (2 ^ 53 + 1) 1 ≫= int_of_float = Ok (2 ^ 53) /\
  int_truediv (10 ^ 400) (10 ^ 399) ≫= int_of_float = Ok 10 /\
  int_truediv (10 ^ 400) 1 = Raise OverflowError /\
  int_truediv 1 0 = Raise ZeroDivisionError.
Proof. by vm_compute. Qed.

(** A batch size too large for a float: the division of line 539 raises
    before the second check is reached. *)
Example main_sample_overflow :
  (main unit no_os_error no_op no_op ascii_lower
     (fun _ _ _ _ w => (w, Ok ()))
     {| task_name := "TextQnA"; output_dir := "out"; do_train := false;
        do_eval := false; train_batch_size := 10 ^ 400;
        gradient_accumulation_steps := 1 |} (∅, ())).2
  = Raise OverflowError.
Proof. by vm_compute. Qed.

(** An empty output path: [os.makedirs] raises before the task name is
    looked at. *)
Example main_sample_empty_output_dir :
  (main unit no_os_error no_op no_op ascii_lower
     (fun _ _ _ _ w => (w, Ok ()))
     {| task_name := "SST-2"; output_dir := ""; do_train := true;
        do_eval := false; train_batch_size := 32;
        gradient_accumulation_steps := 1 |} (∅, ())).2
  = Raise FileNotFoundError.
Proof. by vm_compute. Qed.

(** ** The properties on the sample inputs *)

Lemma char_ids_length (tokens : list token) :
  length (char_ids tokens) = length tokens.
Proof. unfold char_ids. apply length_fmap. Qed.

Lemma sample_labels_known (e : InputExample) :
  e ∈ [sample_pair; sample_single] ->
  exists l, label e = Some l /\ l ∈ ["0"; "1"].
Proof.
  intros He. apply elem_of_cons in He as [->|He].
  - exists "1". split; [reflexivity|]. repeat constructor.
  - apply list_elem_of_singleton in He as ->.
    exists "0". split; [reflexivity|]. repeat constructor.
Qed.

(** The two sample examples converted with [max_seq_length = 6]. *)
Lemma feature_fields_witness :
  2 <= 6 /\
  exists features,
    convert_examples_to_features char_tokenize char_ids
      [sample_pair; sample_single] ["0"; "1"] 6 = Ok features /\
    length features = 2%nat /\
    Forall (fun f =>
      len (input_ids f) = 6 /\ len (input_mask f) = 6 /\
      len (segment_ids f) = 6) features.
Proof.
  split; [lia|].
  destruct (feature_fields_have_max_seq_length char_tokenize char_ids
              char_ids_length [sample_pair; sample_single] ["0"; "1"] 6
              sample_labels_known ltac:(lia)) as [H _].
  apply H. intros e _ _. lia.
Defined.

(** Four and three tokens cut down to a budget of four. *)
Lemma _truncate_seq_pair_spec_witness :
  0 <= 4 /\
  exists tokens_a' tokens_b',
    _truncate_seq_pair ["a"; "b"; "c"; "d"] ["x"; "y"; "z"] 4
      = Ok (tokens_a', tokens_b') /\
    rtc (removes_one 4) (["a"; "b"; "c"; "d"], ["x"; "y"; "z"])
      (tokens_a', tokens_b') /\
    tokens_a' `prefix_of` ["a"; "b"; "c"; "d"] /\
    tokens_b' `prefix_of` ["x"; "y"; "z"] /\
    len tokens_a' + len tokens_b' <= 4 /\
    len tokens_a' + len tokens_b' =
      Z.min (len ["a"; "b"; "c"; "d"] + len ["x"; "y"; "z"]) 4.
Proof.
  split; [lia|].
  destruct (_truncate_seq_pair_spec ["a"; "b"; "c"; "d"] ["x"; "y"; "z"] 4
              ltac:(lia)) as [_ H].
  exact H.
Defined.

(** The same run, completed within eight iterations. *)
Lemma _truncate_seq_pair_terminates_witness :
  exists r,
    while_true 8 ["a"; "b"; "c"; "d"] ["x"; "y"; "z"] 4 = Some r /\
    _truncate_seq_pair ["a"; "b"; "c"; "d"] ["x"; "y"; "z"] 4 = r /\
    exists a' b', r = Ok (a', b').
Proof.
  destruct (_truncate_seq_pair_terminates 4) as (_ & _ & H).
  destruct (H ["a"; "b"; "c"; "d"] ["x"; "y"; "z"]) as (r & Hfuel & Hrun & Hok).
  exists r. split; [apply Hfuel; simpl; lia|]. split; [exact Hrun|].
  apply Hok. lia.
Defined.

(** Claim C3, as stated, fails: with [max_seq_length = 5] the budget is 2
    tokens, and the relevance converter keeps 3 tokens of the query and 3 of
    the passage, 6 together; each side fills its own record of length 5. *)
Lemma relevance_pair_exceeds_budget :
  kept_relevance_tokens char_tokenize sample_pair 5
    = Ok (["a"; "b"; "c"], ["x"; "y"; "z"]) /\
  convert_examples_to_relevance_features char_tokenize char_ids
    [sample_pair] ["0"; "1"] 5
    = Ok [ {| query_ids := [91; 97; 98; 99; 91];
              psg_ids := [91; 120; 121; 122; 91];
              query_mask := [1; 1; 1; 1; 1];
              psg_mask := [1; 1; 1; 1; 1];
              query_segment_ids := [0; 0; 0; 0; 0];
              psg_segment_ids := [0; 0; 0; 0; 0];
              rel_label_id := 1 |} ] /\
  ~ (len ["a"; "b"; "c"] + len ["x"; "y"; "z"] <= 5 - 3).
Proof. split_and!; [by vm_compute|by vm_compute|]. vm_compute. tauto. Qed.

(** The sample pair under the bound that does hold. *)
Lemma relevance_pair_budget_witness :
  (forall tokens, length (char_ids tokens) = length tokens) /\ 2 <= 5 /\
  exists features,
    convert_examples_to_relevance_features char_tokenize char_ids
      [sample_pair] ["0"; "1"] 5 = Ok features /\
    Forall2 (fun e f =>
      exists tokens_a tokens_b,
        kept_relevance_tokens char_tokenize e 5 = Ok (tokens_a, tokens_b) /\
        len tokens_a <= 5 - 2 /\ len tokens_b <= 5 - 2 /\
        len tokens_a + len tokens_b <= 2 * (5 - 2))
      [sample_pair] features.
Proof.
  split; [exact char_ids_length|]. split; [lia|].
  destruct (relevance_pair_budget char_tokenize char_ids char_ids_length
              ["0"; "1"] 5 ltac:(lia)) as (_ & H & _).
  destruct (H [sample_pair]) as (fs & Hfs & Hall).
  { intros e He. apply list_elem_of_singleton in He as ->.
    split; [discriminate|]. exists "1". split; [reflexivity|].
    repeat constructor. }
  exists fs. split; [exact Hfs|].
  eapply Forall2_impl; [exact Hall|].
  intros e f (ta & tb & Hk & Ha & Hb & Hab & _).
  exists ta, tb. split; [exact Hk|]. split; [exact Ha|].
  split; [exact Hb|exact Hab].
Defined.

(** Claim C4, as stated, fails: with [max_seq_length = 1] the slice
    [tokens_a[:(max_seq_length - 2)]] is [tokens_a[:-1]], which drops one
    token only: five of the six tokens of the sample sentence are kept, and
    two of the three tokens of each side of the sample pair, against a
    bound of [1 - 2 = -1]. (No record is built from them: the length
    assertions fail.) *)
Lemma single_cut_exceeds_budget :
  kept_tokens char_tokenize sample_single 1
    = Ok (["a"; "b"; "c"; "d"; "e"], None) /\
  ~ (len ["a"; "b"; "c"; "d"; "e"] <= 1 - 2) /\
  kept_relevance_tokens char_tokenize sample_pair 1
    = Ok (["a"; "b"], ["x"; "y"]) /\
  ~ (len ["a"; "b"] <= 1 - 2) /\
  convert_examples_to_features char_tokenize char_ids
    [sample_single] ["0"; "1"] 1 = Raise AssertionError.
Proof.
  split_and!; [by vm_compute| |by vm_compute| |by vm_compute];
    vm_compute; intros H; apply H; reflexivity.
Qed.

(** A single sentence of six tokens and the sample pair, at length six:
    four tokens of the sentence are kept, and all three of each side of the
    pair. *)
Lemma sides_truncated_independently_witness :
  (forall tokens, length (char_ids tokens) = length tokens) /\ 2 <= 6 /\
  (exists features,
     convert_examples_to_features char_tokenize char_ids
       [sample_single] ["0"; "1"] 6 = Ok features /\
     Forall2 (fun e f =>
       let kept := take (Z.to_nat (6 - 2)) (char_tokenize (text_a e)) in
       len kept <= 6 - 2 /\
       input_ids f =
         char_ids (["[CLS]"] ++ kept ++ ["[SEP]"])
           ++ py_repeat 0 (6 - (len kept + 2)))
       [sample_single] features) /\
  (exists features,
     convert_examples_to_relevance_features char_tokenize char_ids
       [sample_pair] ["0"; "1"] 6 = Ok features /\
     Forall2 (fun e f =>
       exists sb, text_b e = Some sb /\
         let kept_a := take (Z.to_nat (6 - 2)) (char_tokenize (text_a e)) in
         let kept_b := take (Z.to_nat (6 - 2)) (char_tokenize sb) in
         len kept_a <= 6 - 2 /\ len kept_b <= 6 - 2 /\
         (query_ids f, query_mask f, query_segment_ids f) =
           encode_side char_ids kept_a 6 /\
         (psg_ids f, psg_mask f, psg_segment_ids f) =
           encode_side char_ids kept_b 6)
       [sample_pair] features).
Proof.
  split; [exact char_ids_length|]. split; [lia|].
  destruct (sides_truncated_independently char_tokenize char_ids
              char_ids_length ["0"; "1"] 6 ltac:(lia))
    as (_ & _ & _ & Hsingle & Hpair & _).
  split.
  - destruct (Hsingle [sample_single]) as (fs & Hfs & Hall).
    { intros e He. apply list_elem_of_singleton in He as ->.
      split; [reflexivity|]. exists "0". split; [reflexivity|].
      repeat constructor. }
    exists fs. split; [exact Hfs|].
    eapply Forall2_impl; [exact Hall|].
    intros e f (Hlen & Hids & _). split; [exact Hlen|exact Hids].
  - destruct (Hpair [sample_pair]) as (fs & Hfs & Hall).
    { intros e He. apply list_elem_of_singleton in He as ->.
      split; [discriminate|]. exists "1". split; [reflexivity|].
      repeat constructor. }
    exists fs. split; [exact Hfs|exact Hall].
Defined.


(** The segment ids of the record built from the sample pair. *)
Lemma relevance_segment_ids_zero_witness :
  exists features,
    convert_examples_to_relevance_features char_tokenize char_ids
      [sample_pair] ["0"; "1"] 6 = Ok features /\
    Forall (fun f =>
      Forall (fun s => s = 0) (query_segment_ids f) /\
      Forall (fun s => s = 0) (psg_segment_ids f)) features.
Proof.
  destruct (convert_examples_to_relevance_features char_tokenize char_ids
              [sample_pair] ["0"; "1"] 6) as [fs|e] eqn:E;
    [|vm_compute in E; discriminate E].
  exists fs. split; [reflexivity|].
  exact (relevance_segment_ids_zero char_tokenize char_ids
           [sample_pair] ["0"; "1"] 6 fs E).
Defined.

(** Claim C7, as stated, fails on a row that lacks a column the processor
    reads (the call raises IndexError instead of returning an example) and on
    the empty list, for which the processors that skip the header return no
    example rather than [len(lines) - 1 = -1] of them. *)
Lemma _create_examples_short_row :
  ColaProcessor._create_examples [["0"; "1"; "*"]] "train"
    = Raise IndexError /\
  TextQnA._create_examples [["query"; "passage"]] "train"
    = Raise IndexError /\
  MrpcProcessor._create_examples [["header"]; ["1"; "17"; "18"; "he said"]]
    "train" = Raise IndexError /\
  MnliProcessor._create_examples [["header"]; ["3"; "x"; "y"]] "train"
    = Raise IndexError /\
  MrpcProcessor._create_examples [] "train" = Ok [] /\
  MnliProcessor._create_examples [] "train" = Ok [] /\
  len (@nil InputExample) <> len (@nil row) - 1.
Proof. split_and!; by vm_compute. Qed.

(** Three MRPC rows, the first a header, give two examples. *)
Lemma _create_examples_counts_witness :
  exists examples,
    MrpcProcessor._create_examples sample_rows "train" = Ok examples /\
    length examples = 2%nat /\
    Forall2 (fun line ex =>
      line !! 3%nat = Some (text_a ex) /\ line !! 4%nat = text_b ex /\
      line !! 0%nat = label ex) (drop 1 sample_rows) examples.
Proof.
  destruct (_create_examples_counts sample_rows "train") as [[H _] _].
  apply H. repeat constructor.
Defined.


(** * Further properties *)

(** ** [_truncate_seq_pair]: what the greedy cut keeps *)

Lemma _truncate_seq_pair_fits (a b : list token) (m : Z) :
  len a + len b <= m -> _truncate_seq_pair a b m = Ok (a, b).
Proof.
  intros H. rewrite _truncate_seq_pair_unfold.
  by rewrite (proj2 (loop_body_Break a b m) H).
Qed.

Lemma prefix_take_len {A : Type} (l' l : list A) :
  l' `prefix_of` l -> l' = take (Z.to_nat (len l')) l.
Proof.
  intros [k ->]. unfold len. by rewrite Nat2Z.id, take_app_length.
Qed.

Lemma _truncate_seq_pair_lengths (n : nat) (a b : list token) (m : Z) :
  0 <= m -> (length a + length b <= n)%nat ->
  exists a' b',
    _truncate_seq_pair a b m = Ok (a', b') /\
    len a' = kept_a (len a) (len b) m /\
    len b' = kept_b (len a) (len b) m.
Proof.
  intros Hm. revert a b. induction n as [|n IH]; intros a b Hn;
    rewrite _truncate_seq_pair_unfold;
    destruct (loop_body a b m) as [|a' b'|e] eqn:Hb.
  all: try (apply loop_body_Break in Hb; exists a, b;
            pose proof (len_nonneg a); pose proof (len_nonneg b);
            unfold kept_a, kept_b; split_and!; [done|..];
            Z.div_mod_to_equations; lia).
  all: try (apply loop_body_Throw in Hb; lia).
  - apply loop_body_decreases in Hb. lia.
  - pose proof (loop_body_decreases _ _ _ _ _ Hb) as Hdec.
    destruct (IH a' b') as (a'' & b'' & Hrun & Ha & Hb'); [lia|].
    exists a'', b''. split; [done|].
    apply loop_body_Continue in Hb
      as [Hgt [(Hlt & Hne & -> & ->)|(Hle & Hne & -> & ->)]];
      rewrite Ha, Hb', len_removelast by done;
      pose proof (len_nonneg a); pose proof (len_nonneg b);
      unfold kept_a, kept_b; split; Z.div_mod_to_equations; lia.
Qed.

(** Property X1. For [max_length >= 0], [_truncate_seq_pair] returns the
    first [kept_a] tokens of [tokens_a] and the first [kept_b] tokens of
    [tokens_b]: a list is cut to [max_length] minus the length of the other
    list, but not below its half of the budget, [tokens_a] getting the
    larger half when [max_length] is odd. *)
Theorem _truncate_seq_pair_closed_form (tokens_a tokens_b : list token)
  (max_length : Z) :
  0 <= max_length ->
  _truncate_seq_pair tokens_a tokens_b max_length =
  Ok (take (Z.to_nat (kept_a (len tokens_a) (len tokens_b) max_length))
        tokens_a,
      take (Z.to_nat (kept_b (len tokens_a) (len tokens_b) max_length))
        tokens_b).
Proof.
  intros Hm.
  destruct (_truncate_seq_pair_lengths _ tokens_a tokens_b max_length Hm
              (Nat.le_refl _)) as (a' & b' & Hrun & Ha & Hb).
  destruct (_truncate_seq_pair_correct _ tokens_a tokens_b max_length Hm
              (Nat.le_refl _)) as (a2 & b2 & Hrun2 & _ & Hpa & Hpb & _).
  rewrite Hrun in Hrun2. injection Hrun2 as <- <-.
  rewrite Hrun, <- Ha, <- Hb.
  by rewrite <- (prefix_take_len a'), <- (prefix_take_len b').
Qed.

(** Five and two tokens under a budget of four: [tokens_a] is cut to two
    tokens and [tokens_b] is kept. *)
Lemma _truncate_seq_pair_closed_form_witness :
  0 <= 4 /\
  _truncate_seq_pair ["a"; "b"; "c"; "d"; "e"] ["x"; "y"] 4 =
  Ok (["a"; "b"], ["x"; "y"]).
Proof.
  split; [lia|].
  exact (_truncate_seq_pair_closed_form ["a"; "b"; "c"; "d"; "e"] ["x"; "y"] 4
           ltac:(lia)).
Defined.

(** Property X2. When both lists are cut, the budget is split evenly:
    [tokens_a] keeps [ceil(max_length / 2)] tokens and [tokens_b] keeps
    [floor(max_length / 2)]. A list that is no longer than its half of the
    budget is returned whole, whatever the length of the other list. *)
Theorem _truncate_seq_pair_balanced (tokens_a tokens_b : list token)
  (max_length : Z) :
  0 <= max_length ->
  exists tokens_a' tokens_b',
    _truncate_seq_pair tokens_a tokens_b max_length
      = Ok (tokens_a', tokens_b') /\
    (tokens_a' <> tokens_a -> tokens_b' <> tokens_b ->
     len tokens_a' = (max_length + 1) / 2 /\
     len tokens_b' = max_length / 2) /\
    (len tokens_a <= (max_length + 1) / 2 -> tokens_a' = tokens_a) /\
    (len tokens_b <= max_length / 2 -> tokens_b' = tokens_b).
Proof.
  intros Hm.
  destruct (_truncate_seq_pair_lengths _ tokens_a tokens_b max_length Hm
              (Nat.le_refl _)) as (a' & b' & Hrun & Ha & Hb).
  destruct (_truncate_seq_pair_correct _ tokens_a tokens_b max_length Hm
              (Nat.le_refl _)) as (a2 & b2 & Hrun2 & _ & Hpa & Hpb & _).
  rewrite Hrun in Hrun2. injection Hrun2 as <- <-.
  exists a', b'. split; [done|].
  assert (Hwhole : forall (l' l : list token),
            l' `prefix_of` l -> len l' = len l -> l' = l).
  { intros l' l Hp Hl. apply prefix_length_eq; [done|]. unfold len in Hl. lia. }
  pose proof (len_nonneg tokens_a). pose proof (len_nonneg tokens_b).
  unfold kept_a, kept_b in *. split_and!.
  - intros Hna Hnb.
    assert (len a' <> len tokens_a) by (intros ?; by apply Hna, Hwhole).
    assert (len b' <> len tokens_b) by (intros ?; by apply Hnb, Hwhole).
    split; Z.div_mod_to_equations; lia.
  - intros Hshort. apply Hwhole; [done|]. Z.div_mod_to_equations; lia.
  - intros Hshort. apply Hwhole; [done|]. Z.div_mod_to_equations; lia.
Qed.

(** Four and three tokens under a budget of five: three and two are kept. *)
Lemma _truncate_seq_pair_balanced_witness :
  0 <= 5 /\
  exists tokens_a' tokens_b',
    _truncate_seq_pair ["a"; "b"; "c"; "d"] ["x"; "y"; "z"] 5
      = Ok (tokens_a', tokens_b') /\
    len tokens_a' = 3 /\ len tokens_b' = 2.
Proof.
  split; [lia|].
  destruct (_truncate_seq_pair_balanced ["a"; "b"; "c"; "d"] ["x"; "y"; "z"] 5
              ltac:(lia)) as (a' & b' & Hrun & Hcut & _).
  exists a', b'. split; [exact Hrun|].
  vm_compute in Hrun. injection Hrun as <- <-.
  apply Hcut; discriminate.
Defined.

Lemma _truncate_seq_pair_raises (n : nat) (a b : list token) (m : Z) :
  m < 0 -> (length a + length b <= n)%nat ->
  _truncate_seq_pair a b m = Raise IndexError /\
  rtc (removes_one m) (a, b) ([], []).
Proof.
  intros Hm. revert a b. induction n as [|n IH]; intros a b Hn;
    rewrite _truncate_seq_pair_unfold;
    destruct (loop_body a b m) as [|a' b'|e] eqn:Hb.
  all: try (apply loop_body_Break in Hb;
            pose proof (len_nonneg a); pose proof (len_nonneg b); lia).
  all: try (apply loop_body_Throw in Hb as (_ & -> & -> & ->); done).
  - apply loop_body_decreases in Hb. lia.
  - pose proof (loop_body_decreases _ _ _ _ _ Hb) as Hdec.
    destruct (IH a' b') as [Hrun Hsteps]; [lia|]. split; [done|].
    eapply rtc_l; [|exact Hsteps]. by apply loop_step_removes_one.
Qed.

(** Property X3. For a negative [max_length], [_truncate_seq_pair] never
    returns: whatever the two lists, it removes every token and then raises
    IndexError from [pop] on an empty list. *)
Theorem _truncate_seq_pair_negative_budget (tokens_a tokens_b : list token)
  (max_length : Z) :
  max_length < 0 ->
  _truncate_seq_pair tokens_a tokens_b max_length = Raise IndexError /\
  rtc (removes_one max_length) (tokens_a, tokens_b) ([], []).
Proof.
  intros Hm. by eapply _truncate_seq_pair_raises.
Qed.

(** Two tokens and one under a budget of -1. *)
Lemma _truncate_seq_pair_negative_budget_witness :
  -1 < 0 /\
  _truncate_seq_pair ["a"; "b"] ["x"] (-1) = Raise IndexError /\
  rtc (removes_one (-1)) (["a"; "b"], ["x"]) ([], []).
Proof.
  split; [lia|].
  exact (_truncate_seq_pair_negative_budget ["a"; "b"] ["x"] (-1) ltac:(lia)).
Defined.

(** Property X4. Cutting is idempotent: on the lists it has returned,
    [_truncate_seq_pair] with the same [max_length] changes nothing. *)
Theorem _truncate_seq_pair_idempotent (tokens_a tokens_b : list token)
  (max_length : Z) (tokens_a' tokens_b' : list token) :
  _truncate_seq_pair tokens_a tokens_b max_length
    = Ok (tokens_a', tokens_b') ->
  _truncate_seq_pair tokens_a' tokens_b' max_length
    = Ok (tokens_a', tokens_b').
Proof.
  intros Hrun. apply _truncate_seq_pair_fits.
  destruct (Z.lt_ge_cases max_length 0) as [Hneg|Hpos].
  - destruct (_truncate_seq_pair_raises _ tokens_a tokens_b max_length Hneg
                (Nat.le_refl _)). congruence.
  - destruct (_truncate_seq_pair_correct _ tokens_a tokens_b max_length Hpos
                (Nat.le_refl _)) as (a2 & b2 & Hrun2 & _ & _ & _ & Hlen).
    rewrite Hrun in Hrun2. injection Hrun2 as <- <-. lia.
Qed.

(** The lists kept from five and two tokens under a budget of four. *)
Lemma _truncate_seq_pair_idempotent_witness :
  _truncate_seq_pair ["a"; "b"; "c"; "d"; "e"] ["x"; "y"] 4
    = Ok (["a"; "b"], ["x"; "y"]) /\
  _truncate_seq_pair ["a"; "b"] ["x"; "y"] 4 = Ok (["a"; "b"], ["x"; "y"]).
Proof.
  split; [reflexivity|].
  exact (_truncate_seq_pair_idempotent ["a"; "b"; "c"; "d"; "e"] ["x"; "y"] 4
           ["a"; "b"] ["x"; "y"] eq_refl).
Defined.

(** ** The converters: layout of the records and outcome of a run *)

Lemma py_repeat_0 {A : Type} (x : A) : py_repeat x 0 = [].
Proof. reflexivity. Qed.

(** The loop over the examples stops at the first example that raises. *)
Lemma for_each_first_failure {A B : Type} (body : A -> result B)
  (l : list A) (e : exn) :
  for_each body l = Raise e <->
  exists l1 x l2, l = l1 ++ x :: l2 /\
    Forall (fun y => exists b, body y = Ok b) l1 /\ body x = Raise e.
Proof.
  induction l as [|a l IH]; simpl.
  - split; [done|]. intros (l1 & x & l2 & H & _). by destruct l1.
  - destruct (body a) as [y|e'] eqn:Ha; simpl.
    + rewrite bind_Raise, IH. split.
      * intros [(l1 & x & l2 & -> & Hl1 & Hx)|(? & _ & ?)]; [|done].
        exists (a :: l1), x, l2. split_and!; [done| |done].
        constructor; eauto.
      * intros (l1 & x & l2 & Hl & Hl1 & Hx). left.
        destruct l1 as [|a' l1]; simplify_eq/=; [congruence|].
        apply Forall_cons in Hl1 as [_ Hl1]. by exists l1, x, l2.
    + split.
      * intros [= <-]. exists [], a, l. by split_and!.
      * intros (l1 & x & l2 & Hl & Hl1 & Hx).
        destruct l1 as [|a' l1]; simplify_eq/=; [congruence|].
        apply Forall_cons in Hl1 as [[b Hb] _]. congruence.
Qed.

Lemma getitem_Raise (m : gmap string Z) (key : option string) (e : exn) :
  getitem m key = Raise e -> e = KeyError.
Proof.
  unfold getitem. destruct key as [k|]; [|by intros [= <-]].
  destruct (m !! k); [done|]. by intros [= <-].
Qed.

(** A label is found in the label map exactly when it is in the list. *)
Lemma getitem_label_map (ll : list string) (key : option string) :
  (exists i, getitem (label_map ll) key = Ok i) <->
  exists l, key = Some l /\ l ∈ ll.
Proof.
  split.
  - intros [i (l & -> & Hl)%getitem_Ok]. exists l. split; [done|].
    apply label_map_lookup_Some in Hl as [_ Hl].
    by eapply list_elem_of_lookup_2.
  - intros (l & -> & Hl). destruct (label_map_lookup_elem _ _ Hl) as [i Hi].
    exists i. apply getitem_Ok. eauto.
Qed.

Section ConverterFacts.

Variable tokenize : string -> list token.
Variable convert_tokens_to_ids : list token -> list Z.

Hypothesis convert_tokens_to_ids_length :
  forall tokens, length (convert_tokens_to_ids tokens) = length tokens.

(** The segment ids that [join_tokens] gives, spelled out. *)
Lemma join_tokens_segment_ids (ta : list token) (tb : option (list token)) :
  (join_tokens ta tb).2 =
  py_repeat 0 (len ta + 2)
    ++ py_repeat 1 (if truthy_list tb then len (default [] tb) + 1 else 0).
Proof.
  unfold join_tokens. simpl_len.
  replace (1 + (len ta + 1)) with (len ta + 2) by lia.
  destruct (truthy_list tb); cbn [snd]; [done|].
  by rewrite py_repeat_0, app_nil_r.
Qed.

(** Property X5. In every record that [convert_examples_to_features]
    returns, with [n] the number of tokens of the example after the cut,
    markers included: [input_mask] is [n] ones followed by zeros,
    [input_ids] are the ids of the [n] tokens followed by zeros, and
    [segment_ids] are zeros for [[CLS] tokens_a [SEP]], then ones for
    [tokens_b [SEP]], then zeros. The ones are there exactly when the cut
    leaves a token of [text_b]: a second sequence cut down to nothing is
    dropped together with its [SEP]. *)
Theorem input_features_layout (examples : list InputExample)
  (label_list : list string) (max_seq_length : Z)
  (features : list InputFeatures) :
  convert_examples_to_features tokenize convert_tokens_to_ids
    examples label_list max_seq_length = Ok features ->
  Forall2 (fun e f =>
    exists tokens_a tokens_b,
      kept_tokens tokenize e max_seq_length = Ok (tokens_a, tokens_b) /\
      let n_b := if truthy_list tokens_b
                 then len (default [] tokens_b) + 1 else 0 in
      let n := len tokens_a + 2 + n_b in
      let padding := py_repeat 0 (max_seq_length - n) in
      2 <= n <= max_seq_length /\
      (n_b = 0 <-> default [] tokens_b = []) /\
      input_ids f =
        convert_tokens_to_ids
          (["[CLS]"] ++ tokens_a ++ ["[SEP]"]
             ++ (if truthy_list tokens_b
                 then default [] tokens_b ++ ["[SEP]"] else []))
        ++ padding /\
      input_mask f = py_repeat 1 n ++ padding /\
      segment_ids f =
        py_repeat 0 (len tokens_a + 2) ++ py_repeat 1 n_b ++ padding)
    examples features.
Proof.
  unfold convert_examples_to_features. rewrite for_each_Ok.
  induction 1 as [|e f es fs He _ IH]; constructor; [|done].
  apply (convert_example_Ok _ _ convert_tokens_to_ids_length) in He
    as (ta & tb & Hk & Hfit & Hids & Hmask & Hseg & _).
  exists ta, tb. split; [done|].
  destruct (join_tokens_lengths ta tb) as [_ Hlen].
  rewrite Hlen in Hfit, Hids, Hmask, Hseg.
  rewrite join_tokens_segment_ids in Hseg.
  pose proof (len_nonneg ta). pose proof (len_nonneg (default [] tb)).
  cbv zeta. split_and!.
  - destruct (truthy_list tb); lia.
  - done.
  - destruct tb as [[|t tb]|]; simpl; split; try done; intros; lia.
  - rewrite Hids. f_equal. f_equal. unfold join_tokens.
    destruct (truthy_list tb); cbn [fst]; by rewrite <- ?app_assoc, ?app_nil_r.
  - done.
  - by rewrite Hseg, <- app_assoc.
Qed.

(** *** The sides of a relevance record are single-sentence records *)

Lemma convert_example_single (lm : gmap string Z) (msl : Z)
  (e : InputExample) :
  truthy_str (text_b e) = false ->
  convert_example tokenize convert_tokens_to_ids lm msl e =
  let ta := truncate_single (tokenize (text_a e)) msl in
  if len ta + 2 <=? msl then
    getitem lm (label e) ≫= fun i =>
      let '(ids, mask, seg) := encode_side convert_tokens_to_ids ta msl in
      Ok {| input_ids := ids; input_mask := mask; segment_ids := seg;
            label_id := i |}
  else Raise AssertionError.
Proof.
  intros Ht. rewrite (convert_example_eq _ _ convert_tokens_to_ids_length).
  rewrite kept_tokens_single by done. cbn [mbind result_bind].
  rewrite (encode_side_eq _ convert_tokens_to_ids_length).
  destruct (join_tokens_lengths
              (truncate_single (tokenize (text_a e)) msl) None) as [_ Hlen].
  cbn [truthy_list] in Hlen. rewrite Z.add_0_r in Hlen.
  cbv zeta. rewrite Hlen. unfold join_tokens. cbn [truthy_list fst snd].
  simpl_len.
  by replace (1 + (len (truncate_single (tokenize (text_a e)) msl) + 1))
    with (len (truncate_single (tokenize (text_a e)) msl) + 2) by lia.
Qed.

(** Property X6. A list of relevance records is two lists of
    single-sentence records side by side: when
    [convert_examples_to_relevance_features] returns, then
    [convert_examples_to_features] on the queries alone returns the query
    fields of the records, and on the passages alone the passage fields,
    with the same label ids. *)
Theorem relevance_features_are_single_sentences
  (examples : list InputExample) (label_list : list string)
  (max_seq_length : Z) (features : list RelevanceFeatures) :
  convert_examples_to_relevance_features tokenize convert_tokens_to_ids
    examples label_list max_seq_length = Ok features ->
  convert_examples_to_features tokenize convert_tokens_to_ids
    (query_example <$> examples) label_list max_seq_length
    = Ok (query_features <$> features) /\
  convert_examples_to_features tokenize convert_tokens_to_ids
    (passage_example <$> examples) label_list max_seq_length
    = Ok (passage_features <$> features).
Proof.
  unfold convert_examples_to_relevance_features,
    convert_examples_to_features.
  rewrite !for_each_Ok. intros H.
  split; apply Forall2_fmap; eapply Forall2_impl; [exact H| |exact H|];
    intros e f Hf;
    apply (convert_relevance_example_Ok _ _ convert_tokens_to_ids_length)
      in Hf as (sb & Hsb & Ha & Hb & Hq & Hp & Hl);
    rewrite convert_example_single by done;
    cbn [query_example passage_example text_a label]; rewrite ?Hsb;
    cbn [from_option id]; cbv zeta.
  - destruct (Z.leb_spec
      (len (truncate_single (tokenize (text_a e)) max_seq_length) + 2)
      max_seq_length); [|lia].
    rewrite Hl, <- Hq. done.
  - destruct (Z.leb_spec
      (len (truncate_single (tokenize sb) max_seq_length) + 2)
      max_seq_length); [|lia].
    rewrite Hl, <- Hp. done.
Qed.

(** *** The outcome of a conversion *)

(** For [max_seq_length >= 3] the only step of [convert_example] that can
    fail is the lookup of the label. *)
Lemma convert_example_by_label (lm : gmap string Z) (msl : Z)
  (e : InputExample) :
  3 <= msl ->
  exists build,
    convert_example tokenize convert_tokens_to_ids lm msl e =
    getitem lm (label e) ≫= fun i => Ok (build i).
Proof.
  intros Hmsl. rewrite (convert_example_eq _ _ convert_tokens_to_ids_length).
  destruct (kept_tokens_fit tokenize e msl) as (ta & tb & -> & Hfit);
    [lia|done|].
  cbn [mbind result_bind]. cbv zeta.
  destruct (Z.leb_spec (len (join_tokens ta tb).1) msl); [|lia].
  by eexists (fun i => Build_InputFeatures _ _ _ i).
Qed.

(** For [max_seq_length >= 2] the steps of [convert_relevance_example] that
    can fail are the tokenization of a missing [text_b] and then the lookup
    of the label. *)
Lemma convert_relevance_example_by_label (lm : gmap string Z) (msl : Z)
  (e : InputExample) :
  2 <= msl ->
  exists build,
    convert_relevance_example tokenize convert_tokens_to_ids lm msl e =
    match text_b e with
    | Some _ => getitem lm (label e) ≫= fun i => Ok (build i)
    | None => Raise TokenizerError
    end.
Proof.
  intros Hmsl.
  rewrite (convert_relevance_example_eq _ _ convert_tokens_to_ids_length).
  unfold kept_relevance_tokens. destruct (text_b e) as [sb|];
    cbn -[encode_side]; [|by exists (fun _ => Build_RelevanceFeatures
                                        [] [] [] [] [] [] 0)].
  rewrite !len_truncate_single by done.
  destruct (Z.leb_spec (Z.min (msl - 2) (len (tokenize (text_a e))) + 2) msl);
    [|lia].
  destruct (Z.leb_spec (Z.min (msl - 2) (len (tokenize sb)) + 2) msl);
    [|lia].
  cbn -[encode_side].
  by eexists (fun i => Build_RelevanceFeatures _ _ _ _ _ _ i).
Qed.

(** Which examples the converters accept. *)
Lemma convert_example_accepts (ll : list string) (msl : Z)
  (e : InputExample) :
  3 <= msl ->
  (exists f, convert_example tokenize convert_tokens_to_ids
               (label_map ll) msl e = Ok f) <->
  exists l, label e = Some l /\ l ∈ ll.
Proof.
  intros Hmsl. rewrite <- getitem_label_map.
  destruct (convert_example_by_label (label_map ll) msl e Hmsl)
    as [build ->].
  split.
  - intros [f (i & Hi & _)%bind_Ok]. eauto.
  - intros [i ->]. simpl. eauto.
Qed.

Lemma convert_relevance_example_accepts (ll : list string) (msl : Z)
  (e : InputExample) :
  2 <= msl ->
  (exists f, convert_relevance_example tokenize convert_tokens_to_ids
               (label_map ll) msl e = Ok f) <->
  text_b e <> None /\ exists l, label e = Some l /\ l ∈ ll.
Proof.
  intros Hmsl. rewrite <- getitem_label_map.
  destruct (convert_relevance_example_by_label (label_map ll) msl e Hmsl)
    as [build ->].
  destruct (text_b e) as [sb|]; split.
  - intros [f (i & Hi & _)%bind_Ok]. eauto.
  - intros [_ [i ->]]. simpl. eauto.
  - by intros [? ?].
  - by intros [? _].
Qed.

(** Property X7. For [max_seq_length >= 3], [convert_examples_to_features]
    fails only with KeyError, and it does so exactly when the label of some
    example is not in [label_list] (an example without label included);
    otherwise it returns one record per example. No length assertion
    fails and [_truncate_seq_pair] never pops from an empty list. *)
Theorem convert_examples_to_features_outcome
  (examples : list InputExample) (label_list : list string)
  (max_seq_length : Z) :
  3 <= max_seq_length ->
  let run := convert_examples_to_features tokenize convert_tokens_to_ids
               examples label_list max_seq_length in
  (forall err, run = Raise err -> err = KeyError) /\
  (run = Raise KeyError <->
   Exists (fun e => forall l, label e = Some l -> l ∉ label_list) examples) /\
  ((exists features,
      run = Ok features /\ length features = length examples) <->
   Forall (fun e => exists l, label e = Some l /\ l ∈ label_list) examples).
Proof.
  intros Hmsl run. subst run. unfold convert_examples_to_features.
  pose proof (fun e => convert_example_accepts label_list max_seq_length
                         e Hmsl) as Hok.
  assert (Hraise : forall e err,
    convert_example tokenize convert_tokens_to_ids
      (label_map label_list) max_seq_length e = Raise err -> err = KeyError).
  { intros e err.
    destruct (convert_example_by_label (label_map label_list)
                max_seq_length e Hmsl) as [build ->].
    rewrite bind_Raise. intros [H|(? & _ & ?)]; [|done].
    by eapply getitem_Raise. }
  assert (Hall : (exists features,
      for_each (convert_example tokenize convert_tokens_to_ids
                  (label_map label_list) max_seq_length) examples
        = Ok features /\ length features = length examples) <->
    Forall (fun e => exists l, label e = Some l /\ l ∈ label_list) examples).
  { split.
    - intros (fs & Hfs%for_each_Ok & _).
      induction Hfs as [|e f es fs' He _ IH]; constructor; [|done].
      apply Hok. eauto.
    - intros Hall.
      destruct (for_each_total
        (convert_example tokenize convert_tokens_to_ids
           (label_map label_list) max_seq_length) examples) as [fs Hfs].
      { intros e He. apply Hok. by eapply Forall_forall in Hall. }
      exists fs. split; [done|]. apply for_each_Ok in Hfs.
      symmetry. by eapply Forall2_length. }
  split_and!; [|split|done].
  - intros err (e & _ & He)%for_each_Raise. by eapply Hraise.
  - intros (e & He & Hr)%for_each_Raise. apply Exists_exists.
    exists e. split; [done|]. intros l Hl Hin.
    destruct (proj2 (Hok e)) as [f Hf]; [eauto|]. congruence.
  - intros Hex.
    destruct (for_each _ examples) as [fs|err] eqn:E.
    + exfalso.
      assert (Hall' : Forall (fun e => exists l, label e = Some l /\
                                l ∈ label_list) examples).
      { apply Hall. exists fs. split; [done|]. apply for_each_Ok in E.
        symmetry. by eapply Forall2_length. }
      apply Exists_exists in Hex as (e & He & Hbad).
      eapply Forall_forall in Hall' as (l & Hl & Hin); [|exact He].
      by eapply Hbad.
    + f_equal. apply for_each_Raise in E as (e & _ & He).
      by eapply Hraise.
Qed.

(** Property X8. For [max_seq_length >= 2],
    [convert_examples_to_relevance_features] fails exactly at the first
    example that has no [text_b] or whose label is not in [label_list]:
    with the exception of the tokenizer when [text_b] is missing, whatever
    the label, and with KeyError otherwise. It fails in no other way. *)
Theorem convert_examples_to_relevance_features_outcome
  (examples : list InputExample) (label_list : list string)
  (max_seq_length : Z) (err : exn) :
  2 <= max_seq_length ->
  convert_examples_to_relevance_features tokenize convert_tokens_to_ids
    examples label_list max_seq_length = Raise err <->
  exists good e rest,
    examples = good ++ e :: rest /\
    Forall (fun e => text_b e <> None /\
              exists l, label e = Some l /\ l ∈ label_list) good /\
    ((text_b e = None /\ err = TokenizerError) \/
     (text_b e <> None /\
      (forall l, label e = Some l -> l ∉ label_list) /\ err = KeyError)).
Proof.
  intros Hmsl. unfold convert_examples_to_relevance_features.
  rewrite for_each_first_failure.
  pose proof (fun e => convert_relevance_example_accepts label_list
                         max_seq_length e Hmsl) as Hok.
  assert (Hraise : forall e,
    convert_relevance_example tokenize convert_tokens_to_ids
      (label_map label_list) max_seq_length e = Raise err <->
    (text_b e = None /\ err = TokenizerError) \/
    (text_b e <> None /\
     (forall l, label e = Some l -> l ∉ label_list) /\ err = KeyError)).
  { intros e.
    pose proof (getitem_label_map label_list (label e)) as Hlabel.
    destruct (convert_relevance_example_by_label (label_map label_list)
                max_seq_length e Hmsl) as [build ->].
    destruct (text_b e) as [sb|].
    - rewrite bind_Raise. split.
      + intros [H|(? & _ & ?)]; [|done]. right. split_and!; [done| |].
        * intros l Hl Hin. destruct (proj2 Hlabel) as [i Hi]; [eauto|].
          congruence.
        * by eapply getitem_Raise.
      + intros [[? _]|(_ & Hbad & ->)]; [done|]. left.
        destruct (getitem (label_map label_list) (label e)) as [i|e'] eqn:E.
        * destruct (proj1 Hlabel) as (l & Hl & Hin); [eauto|].
          by apply Hbad in Hin.
        * f_equal. by eapply getitem_Raise.
    - split.
      + intros [= <-]. by left.
      + intros [[_ ->]|[? _]]; done. }
  split; intros (good & e & rest & -> & Hgood & He);
    exists good, e, rest; (split_and!; [done| |by apply Hraise]);
    (eapply Forall_impl; [exact Hgood|]); intros x Hx; by apply Hok.
Qed.

(** *** Lengths that leave no room for the markers *)

Lemma len_truncate_single_small (tokens : list token) (msl : Z) :
  msl < 2 -> msl < len (truncate_single tokens msl) + 2.
Proof.
  intros Hmsl. pose proof (len_nonneg tokens).
  unfold truncate_single, slice_to.
  destruct (Z.gtb_spec (len tokens) (msl - 2)); [|lia].
  destruct (Z.leb_spec 0 (msl - 2)); [lia|].
  unfold len in *. rewrite length_take. lia.
Qed.

(** Property X9. A [max_seq_length] that leaves no room for the markers
    makes both converters fail at the first example, before any label is
    looked up: below 2, a single-sentence example fails the length
    assertion in [convert_examples_to_features] and so does an example
    with [text_b] in [convert_examples_to_relevance_features]; below 3, an
    example with a non-empty [text_b] makes [convert_examples_to_features]
    raise IndexError from [_truncate_seq_pair]. *)
Theorem max_seq_length_too_small (e : InputExample)
  (rest : list InputExample) (label_list : list string)
  (max_seq_length : Z) :
  (max_seq_length < 2 -> truthy_str (text_b e) = false ->
   convert_examples_to_features tokenize convert_tokens_to_ids
     (e :: rest) label_list max_seq_length = Raise AssertionError) /\
  (max_seq_length < 3 -> truthy_str (text_b e) = true ->
   convert_examples_to_features tokenize convert_tokens_to_ids
     (e :: rest) label_list max_seq_length = Raise IndexError) /\
  (max_seq_length < 2 -> text_b e <> None ->
   convert_examples_to_relevance_features tokenize convert_tokens_to_ids
     (e :: rest) label_list max_seq_length = Raise AssertionError).
Proof.
  unfold convert_examples_to_features,
    convert_examples_to_relevance_features. cbn [for_each]. split_and!.
  - intros Hmsl Ht. rewrite convert_example_single by done. cbv zeta.
    pose proof (len_truncate_single_small (tokenize (text_a e))
                  max_seq_length Hmsl).
    by destruct (Z.leb_spec
      (len (truncate_single (tokenize (text_a e)) max_seq_length) + 2)
      max_seq_length); [lia|].
  - intros Hmsl Ht. unfold convert_example.
    destruct (kept_tokens_pair tokenize e max_seq_length Ht)
      as (sb & _ & ->).
    destruct (_truncate_seq_pair_raises
                (length (tokenize (text_a e)) + length (tokenize sb))
                (tokenize (text_a e)) (tokenize sb) (max_seq_length - 3))
      as [-> _]; [lia|done|done].
  - intros Hmsl Hb.
    rewrite (convert_relevance_example_eq _ _ convert_tokens_to_ids_length).
    unfold kept_relevance_tokens.
    destruct (text_b e) as [sb|]; [|done]. cbn -[encode_side].
    pose proof (len_truncate_single_small (tokenize (text_a e))
                  max_seq_length Hmsl).
    by destruct (Z.leb_spec
      (len (truncate_single (tokenize (text_a e)) max_seq_length) + 2)
      max_seq_length); [lia|].
Qed.

End ConverterFacts.

(** The sample pair and the sample single sentence at length eight. *)
Lemma input_features_layout_witness :
  (forall tokens, length (char_ids tokens) = length tokens) /\
  exists features,
    convert_examples_to_features char_tokenize char_ids
      [sample_pair; sample_single] ["0"; "1"] 8 = Ok features /\
    Forall2 (fun e f =>
      exists tokens_a tokens_b,
        kept_tokens char_tokenize e 8 = Ok (tokens_a, tokens_b) /\
        let n_b := if truthy_list tokens_b
                   then len (default [] tokens_b) + 1 else 0 in
        let n := len tokens_a + 2 + n_b in
        input_mask f = py_repeat 1 n ++ py_repeat 0 (8 - n) /\
        segment_ids f =
          py_repeat 0 (len tokens_a + 2) ++ py_repeat 1 n_b
            ++ py_repeat 0 (8 - n))
      [sample_pair; sample_single] features.
Proof.
  split; [exact char_ids_length|]. eexists. split; [reflexivity|].
  eapply Forall2_impl.
  - exact (input_features_layout char_tokenize char_ids char_ids_length
             [sample_pair; sample_single] ["0"; "1"] 8 _ eq_refl).
  - intros e f (ta & tb & Hk & _ & _ & _ & Hmask & Hseg). by exists ta, tb.
Defined.

(** The sample pair as a query and a passage of length six. *)
Lemma relevance_features_are_single_sentences_witness :
  (forall tokens, length (char_ids tokens) = length tokens) /\
  exists features,
    convert_examples_to_relevance_features char_tokenize char_ids
      [sample_pair] ["0"; "1"] 6 = Ok features /\
    convert_examples_to_features char_tokenize char_ids
      (query_example <$> [sample_pair]) ["0"; "1"] 6
      = Ok (query_features <$> features) /\
    convert_examples_to_features char_tokenize char_ids
      (passage_example <$> [sample_pair]) ["0"; "1"] 6
      = Ok (passage_features <$> features).
Proof.
  split; [exact char_ids_length|]. eexists. split; [reflexivity|].
  exact (relevance_features_are_single_sentences char_tokenize char_ids
           char_ids_length [sample_pair] ["0"; "1"] 6 _ eq_refl).
Defined.

(** The two samples with the label list of MNLI: the known labels are
    missing, and the run fails with KeyError. *)
Lemma convert_examples_to_features_outcome_witness :
  (forall tokens, length (char_ids tokens) = length tokens) /\ 3 <= 8 /\
  (convert_examples_to_features char_tokenize char_ids
     [sample_pair; sample_single] MnliProcessor.get_labels 8
     = Raise KeyError <->
   Exists (fun e => forall l, label e = Some l ->
             l ∉ MnliProcessor.get_labels) [sample_pair; sample_single]).
Proof.
  split; [exact char_ids_length|]. split; [lia|].
  destruct (convert_examples_to_features_outcome char_tokenize char_ids
              char_ids_length [sample_pair; sample_single]
              MnliProcessor.get_labels 8 ltac:(lia)) as (_ & H & _).
  exact H.
Defined.

(** A single sentence after the sample pair: the run fails at the second
    example with the exception of the tokenizer. *)
Lemma convert_examples_to_relevance_features_outcome_witness :
  (forall tokens, length (char_ids tokens) = length tokens) /\ 2 <= 8 /\
  (convert_examples_to_relevance_features char_tokenize char_ids
     [sample_pair; sample_single] ["0"; "1"] 8 = Raise TokenizerError <->
   exists good e rest,
     [sample_pair; sample_single] = good ++ e :: rest /\
     Forall (fun e => text_b e <> None /\
               exists l, label e = Some l /\ l ∈ ["0"; "1"]) good /\
     ((text_b e = None /\ TokenizerError = TokenizerError) \/
      (text_b e <> None /\
       (forall l, label e = Some l -> l ∉ ["0"; "1"]) /\
       TokenizerError = KeyError))).
Proof.
  split; [exact char_ids_length|]. split; [lia|].
  exact (convert_examples_to_relevance_features_outcome char_tokenize
           char_ids char_ids_length [sample_pair; sample_single]
           ["0"; "1"] 8 TokenizerError ltac:(lia)).
Defined.

(** The sample single sentence at length one. *)
Lemma max_seq_length_too_small_witness :
  (forall tokens, length (char_ids tokens) = length tokens) /\
  1 < 2 /\ truthy_str (text_b sample_single) = false /\
  convert_examples_to_features char_tokenize char_ids
    [sample_single] ["0"; "1"] 1 = Raise AssertionError.
Proof.
  split; [exact char_ids_length|]. split; [lia|]. split; [reflexivity|].
  destruct (max_seq_length_too_small char_tokenize char_ids char_ids_length
              sample_single [] ["0"; "1"] 1) as (H & _ & _).
  apply H; [lia|reflexivity].
Defined.

(** ** The label map on any list of labels *)

(** Property X10. Whatever the list of labels, duplicates included, the
    label map sends a label to the index of its last occurrence in the
    list, and it has no entry for a label that is not in the list. *)
Theorem label_map_last_occurrence (label_list : list string) (l : string) :
  (forall i,
     label_map label_list !! l = Some i <->
     0 <= i /\ label_list !! Z.to_nat i = Some l /\
     forall j, (Z.to_nat i < j)%nat -> label_list !! j <> Some l) /\
  (label_map label_list !! l = None <-> l ∉ label_list).
Proof.
  induction label_list as [|x ll [IH IHnone]] using rev_ind.
  - unfold label_map. simpl. split.
    + intros i. rewrite lookup_empty. split; [done|]. by intros (_ & ? & _).
    + rewrite lookup_empty. split; [|done]. intros _. apply not_elem_of_nil.
  - rewrite label_map_snoc, lookup_insert. case_decide as Hx.
    + subst x. split.
      * intros i. unfold len. split.
        -- intros [= <-]. rewrite Nat2Z.id. split_and!; [lia| |].
           ++ by rewrite lookup_app_r, Nat.sub_diag by lia.
           ++ intros j Hj. rewrite lookup_ge_None_2; [done|].
              rewrite length_app. simpl. lia.
        -- intros (Hi & Hl & Hlast). f_equal.
           pose proof (lookup_lt_Some _ _ _ Hl) as Hlt.
           rewrite length_app in Hlt. simpl in Hlt.
           destruct (decide (Z.to_nat i = length ll)) as [|Hne]; [lia|].
           exfalso. apply (Hlast (length ll)); [lia|].
           by rewrite lookup_app_r, Nat.sub_diag by lia.
      * split; [done|]. intros Hnot. exfalso. apply Hnot.
        apply elem_of_app. right. by apply list_elem_of_singleton.
    + split.
      * intros i. rewrite IH. split.
        -- intros (Hi & Hl & Hlast). split_and!; [done| |].
           ++ by apply lookup_app_l_Some.
           ++ intros j Hj. destruct (decide (j < length ll)%nat).
              ** rewrite lookup_app_l by done. by apply Hlast.
              ** rewrite lookup_app_r by lia.
                 by intros [_ ?]%list_lookup_singleton_Some.
        -- intros (Hi & Hl & Hlast).
           assert (Hlt : (Z.to_nat i < length ll)%nat).
           { pose proof (lookup_lt_Some _ _ _ Hl) as Hlt.
             rewrite length_app in Hlt. simpl in Hlt.
             destruct (decide (Z.to_nat i = length ll)) as [Heq|]; [|lia].
             rewrite Heq, lookup_app_r, Nat.sub_diag in Hl by lia.
             simpl in Hl. congruence. }
           rewrite lookup_app_l in Hl by done. split_and!; [done..|].
           intros j Hj Hlj. apply (Hlast j Hj). by apply lookup_app_l_Some.
      * rewrite IHnone, elem_of_app, list_elem_of_singleton. split.
        -- intros Hnot [?|?]; [done|congruence].
        -- intros Hnot ?. apply Hnot. by left.
Qed.

(** ** The data processors: guids, and what the converters get *)

Lemma index_lookup {A : Type} (l : list A) (i : nat) (x : A) :
  index l i = Ok x <-> l !! i = Some x.
Proof.
  unfold index. destruct (l !! i); split; by (intros [= ->] || done).
Qed.

Lemma format_guid_inj (set_type : string) :
  Inj (=) (=) (fun i => format_guid set_type (str_nat i)).
Proof.
  intros i j H. unfold format_guid, str_nat in H.
  by do 2 apply (inj (String.app _)) in H; apply (inj pretty) in H.
Qed.

Lemma format_guid_inj_id (set_type : string) :
  Inj (=) (=) (format_guid set_type).
Proof.
  intros x y H. unfold format_guid in H.
  by do 2 apply (inj (String.app _)) in H.
Qed.

Lemma mrpc_create_from_guids (i : nat) (lines : list row)
  (set_type : string) (examples : list InputExample) :
  MrpcProcessor.create_from (S i) lines set_type = Ok examples ->
  guid <$> examples =
  (fun j => format_guid set_type (str_nat j)) <$> seq (S i) (length lines).
Proof.
  revert i examples. induction lines as [|line lines IH]; intros i exs.
  - by intros [= <-].
  - cbn [MrpcProcessor.create_from Nat.eqb]. intros H.
    do 3 (apply bind_Ok in H as (? & _ & H)).
    apply bind_Ok in H as (exs' & Hexs & [= <-]).
    cbn. f_equal. by apply IH.
Qed.

Lemma cola_create_from_guids (i : nat) (lines : list row)
  (set_type : string) (examples : list InputExample) :
  ColaProcessor.create_from i lines set_type = Ok examples ->
  guid <$> examples =
  (fun j => format_guid set_type (str_nat j)) <$> seq i (length lines) /\
  Forall (fun ex => text_b ex = None) examples.
Proof.
  revert i examples. induction lines as [|line lines IH]; intros i exs.
  - by intros [= <-].
  - cbn [ColaProcessor.create_from]. intros H.
    do 2 (apply bind_Ok in H as (? & _ & H)).
    apply bind_Ok in H as (exs' & Hexs & [= <-]).
    destruct (IH _ _ Hexs) as [Hg Hb]. split.
    + cbn. by f_equal.
    + by constructor.
Qed.

Lemma textqna_create_from_guids (i : nat) (lines : list row)
  (set_type : string) (examples : list InputExample) :
  TextQnA.create_from i lines set_type = Ok examples ->
  guid <$> examples =
  (fun j => format_guid set_type (str_nat j)) <$> seq i (length lines).
Proof.
  revert i examples. induction lines as [|line lines IH]; intros i exs.
  - by intros [= <-].
  - cbn [TextQnA.create_from]. intros H.
    do 3 (apply bind_Ok in H as (? & _ & H)).
    apply bind_Ok in H as (exs' & Hexs & [= <-]).
    cbn. f_equal. by apply IH.
Qed.

Lemma mnli_create_from_guids (i : nat) (lines : list row)
  (set_type : string) (examples : list InputExample) :
  MnliProcessor.create_from (S i) lines set_type = Ok examples ->
  Forall2 (fun line ex =>
    exists id, line !! 0%nat = Some id /\
      guid ex = format_guid set_type id) lines examples.
Proof.
  revert i examples. induction lines as [|line lines IH]; intros i exs.
  - intros [= <-]. constructor.
  - cbn [MnliProcessor.create_from Nat.eqb]. intros H.
    apply bind_Ok in H as (id & Hid%index_lookup & H).
    do 3 (apply bind_Ok in H as (? & _ & H)).
    apply bind_Ok in H as (exs' & Hexs & [= <-]).
    constructor; [by exists id|]. by eapply IH.
Qed.

(** Property X11. The guids number the rows. [MrpcProcessor] gives the
    example of row [i] the guid [set_type-i], for [i] from 1 (row 0 is
    the header); [ColaProcessor] and [TextQnA] do so for [i] from 0;
    [MnliProcessor] takes the guid from column 0 of the row. *)
Theorem guids_number_the_rows (lines : list row) (set_type : string)
  (examples : list InputExample) :
  (MrpcProcessor._create_examples lines set_type = Ok examples ->
   guid <$> examples =
   (fun i => format_guid set_type (str_nat i))
     <$> seq 1 (length lines - 1)) /\
  (ColaProcessor._create_examples lines set_type = Ok examples ->
   guid <$> examples =
   (fun i => format_guid set_type (str_nat i)) <$> seq 0 (length lines)) /\
  (TextQnA._create_examples lines set_type = Ok examples ->
   guid <$> examples =
   (fun i => format_guid set_type (str_nat i)) <$> seq 0 (length lines)) /\
  (MnliProcessor._create_examples lines set_type = Ok examples ->
   Forall2 (fun line ex =>
     exists id, line !! 0%nat = Some id /\
       guid ex = format_guid set_type id) (drop 1 lines) examples).
Proof.
  split_and!.
  - unfold MrpcProcessor._create_examples.
    destruct lines as [|header lines]; [by intros [= <-]|].
    cbn [MrpcProcessor.create_from Nat.eqb length].
    rewrite Nat.sub_succ, Nat.sub_0_r. apply mrpc_create_from_guids.
  - intros H. by apply cola_create_from_guids in H as [? _].
  - apply textqna_create_from_guids.
  - unfold MnliProcessor._create_examples.
    destruct lines as [|header lines]; [intros [= <-]; constructor|].
    cbn [MnliProcessor.create_from Nat.eqb drop]. rewrite drop_0.
    apply mnli_create_from_guids.
Qed.

(** Property X12. Within one call of [_create_examples], [MrpcProcessor],
    [ColaProcessor] and [TextQnA] never give two examples the same guid;
    the guids of [MnliProcessor] are unique exactly when column 0 of the
    data rows is. *)
Theorem guids_are_unique (lines : list row) (set_type : string)
  (examples : list InputExample) :
  (MrpcProcessor._create_examples lines set_type = Ok examples \/
   ColaProcessor._create_examples lines set_type = Ok examples \/
   TextQnA._create_examples lines set_type = Ok examples ->
   NoDup (guid <$> examples)) /\
  (MnliProcessor._create_examples lines set_type = Ok examples ->
   NoDup (guid <$> examples) <->
   NoDup ((fun line => line !! 0%nat) <$> drop 1 lines)).
Proof.
  split.
  - intros H.
    assert (exists i n, guid <$> examples =
              (fun j => format_guid set_type (str_nat j)) <$> seq i n)
      as (i & n & ->).
    { destruct H as [H|[H|H]].
      - unfold MrpcProcessor._create_examples in H.
        destruct lines as [|header lines]; [injection H as <-; by exists 0%nat, 0%nat|].
        cbn [MrpcProcessor.create_from Nat.eqb] in H.
        apply mrpc_create_from_guids in H. eauto.
      - apply cola_create_from_guids in H as [H _]. eauto.
      - apply textqna_create_from_guids in H. eauto. }
    apply (NoDup_fmap_2 _ (Inj0 := format_guid_inj set_type)), NoDup_seq.
  - unfold MnliProcessor._create_examples.
    destruct lines as [|header lines].
    { intros [= <-]. simpl. split; intros _; constructor. }
    cbn [MnliProcessor.create_from Nat.eqb drop]. rewrite drop_0.
    intros H%mnli_create_from_guids.
    assert (Heq : Some <$> (guid <$> examples) =
                  (fun o => format_guid set_type <$> o)
                    <$> ((fun line => line !! 0%nat) <$> lines)).
    { induction H as [|line ex ls exs (id & Hid & Hg) _ IH]; [done|].
      cbn. rewrite Hid, Hg. cbn. by f_equal. }
    rewrite <- (NoDup_fmap (Some : string -> option string)), Heq.
    pose proof (format_guid_inj_id set_type) as Hinj.
    apply (NoDup_fmap (fmap (format_guid set_type))).
Qed.

(** The sample rows of the MRPC format: two examples, numbered 1 and 2. *)
Lemma guids_number_the_rows_witness :
  exists examples,
    MrpcProcessor._create_examples sample_rows "train" = Ok examples /\
    guid <$> examples = ["train-1"; "train-2"].
Proof.
  eexists. split; [reflexivity|].
  match goal with
  | |- guid <$> ?examples = _ =>
    destruct (guids_number_the_rows sample_rows "train" examples) as (H & _)
  end.
  exact (H eq_refl).
Defined.

Lemma guids_are_unique_witness :
  exists examples,
    MrpcProcessor._create_examples sample_rows "train" = Ok examples /\
    NoDup (guid <$> examples).
Proof.
  eexists. split; [reflexivity|].
  match goal with
  | |- NoDup (guid <$> ?examples) =>
    destruct (guids_are_unique sample_rows "train" examples) as (H & _)
  end.
  exact (H (or_introl eq_refl)).
Defined.

(** ** From the rows of a file to the records *)

Section RowsToRecords.

Variable tokenize : string -> list token.
Variable convert_tokens_to_ids : list token -> list Z.

Hypothesis convert_tokens_to_ids_length :
  forall tokens, length (convert_tokens_to_ids tokens) = length tokens.

(** Property X13. Rows of the TextQnA format (a query, a passage and a
    label ["0"] or ["1"] in columns 0 to 2) always go through: for
    [max_seq_length >= 2], [TextQnA._create_examples] followed by
    [convert_examples_to_relevance_features] with the labels of [TextQnA]
    returns one record per row, whose label id is the number written in
    column 2. *)
Theorem textqna_rows_convert (lines : list row) (set_type : string)
  (max_seq_length : Z) :
  2 <= max_seq_length ->
  Forall (fun line =>
    (3 <= length line)%nat /\
    (line !! 2%nat = Some "0" \/ line !! 2%nat = Some "1")) lines ->
  exists examples features,
    TextQnA._create_examples lines set_type = Ok examples /\
    convert_examples_to_relevance_features tokenize convert_tokens_to_ids
      examples TextQnA.get_labels max_seq_length = Ok features /\
    Forall2 (fun line f =>
      (line !! 2%nat = Some "0" /\ rel_label_id f = 0) \/
      (line !! 2%nat = Some "1" /\ rel_label_id f = 1)) lines features.
Proof.
  intros Hmsl Hrows. unfold TextQnA._create_examples.
  destruct (TextQnAFacts.textqna_create_from_Ok 0 lines set_type)
    as (examples & Hexs & Hall).
  { eapply Forall_impl; [exact Hrows|]. by intros line [? _]. }
  exists examples.
  assert (Hcols : Forall2 (fun line ex =>
    text_b ex <> None /\
    ((line !! 2%nat = Some "0" /\ label ex = Some "0") \/
     (line !! 2%nat = Some "1" /\ label ex = Some "1"))) lines examples).
  { clear Hexs. induction Hall as [|line ex ls exs (_ & Hb & Hl) _ IH];
      [constructor|].
    apply Forall_cons in Hrows as [[Hw Hlab] Hrows].
    constructor; [|by apply IH]. split.
    - rewrite <- Hb. destruct (lookup_lt_is_Some_2 line 1) as [? ->]; [lia|].
      done.
    - rewrite <- Hl. destruct Hlab as [H|H]; rewrite H; auto. }
  unfold convert_examples_to_relevance_features.
  destruct (for_each_total
    (convert_relevance_example tokenize convert_tokens_to_ids
       (label_map TextQnA.get_labels) max_seq_length) examples)
    as [features Hfs].
  { intros ex Hex.
    apply (convert_relevance_example_accepts _ _
             convert_tokens_to_ids_length); [done|].
    revert ex Hex. apply Forall_forall.
    eapply Forall2_Forall_r; [exact Hcols|].
    apply Forall_forall. intros line _ ex' [Hb Hl]. split; [done|].
    destruct Hl as [[_ ->]|[_ ->]]; eexists; (split; [done|]);
      unfold TextQnA.get_labels; set_solver. }
  exists features. split_and!; [done..|].
  apply for_each_Ok in Hfs. clear Hexs Hall Hrows.
  revert features Hfs.
  induction Hcols as [|line ex ls exs [_ Hl] _ IH]; intros fs Hfs.
  - inversion Hfs. constructor.
  - inversion Hfs as [|? f ? fs' Hf Hrest]; subst.
    constructor; [|by apply IH].
    apply convert_relevance_example_label, getitem_Ok in Hf
      as (l & Hlab & Hid).
    assert (H0 : label_map TextQnA.get_labels !! "0" = Some 0)
      by (by vm_compute).
    assert (H1 : label_map TextQnA.get_labels !! "1" = Some 1)
      by (by vm_compute).
    destruct Hl as [[? Hex]|[? Hex]]; rewrite Hex in Hlab;
      injection Hlab as <-; [left|right]; (split; [done|]); congruence.
Qed.

(** Property X14. The examples of [ColaProcessor] have no [text_b], so
    [convert_examples_to_relevance_features], the converter that [main]
    calls for every task, fails on any non-empty list of them with the
    exception the tokenizer raises on [None], whatever the labels and
    [max_seq_length]. *)
Theorem cola_examples_have_no_passage (lines : list row)
  (set_type : string) (examples : list InputExample)
  (label_list : list string) (max_seq_length : Z) :
  ColaProcessor._create_examples lines set_type = Ok examples ->
  Forall (fun ex => text_b ex = None) examples /\
  (lines <> [] ->
   convert_examples_to_relevance_features tokenize convert_tokens_to_ids
     examples label_list max_seq_length = Raise TokenizerError).
Proof.
  intros H. apply cola_create_from_guids in H as [Hg Hb].
  split; [done|]. intros Hne.
  destruct examples as [|ex exs].
  { destruct lines; [done|]. discriminate Hg. }
  apply Forall_cons in Hb as [Hb _].
  unfold convert_examples_to_relevance_features. cbn [for_each].
  unfold convert_relevance_example, kept_relevance_tokens.
  by rewrite Hb.
Qed.

End RowsToRecords.

(** Two rows of the TextQnA format at length eight. *)
Lemma textqna_rows_convert_witness :
  (forall tokens, length (char_ids tokens) = length tokens) /\
  2 <= 8 /\
  exists examples features,
    TextQnA._create_examples
      [["who"; "he is"; "1"]; ["why"; "so"; "0"]] "train" = Ok examples /\
    convert_examples_to_relevance_features char_tokenize char_ids
      examples TextQnA.get_labels 8 = Ok features /\
    Forall2 (fun line f =>
      (line !! 2%nat = Some "0" /\ rel_label_id f = 0) \/
      (line !! 2%nat = Some "1" /\ rel_label_id f = 1))
      [["who"; "he is"; "1"]; ["why"; "so"; "0"]] features.
Proof.
  split; [exact char_ids_length|]. split; [lia|].
  apply (textqna_rows_convert char_tokenize char_ids char_ids_length
           [["who"; "he is"; "1"]; ["why"; "so"; "0"]] "train" 8);
    [lia|].
  apply Forall_cons; split; [split; [simpl; lia|by right]|].
  apply Forall_cons; split; [split; [simpl; lia|by left]|].
  constructor.
Defined.

(** Two rows of the CoLA format. *)
Lemma cola_examples_have_no_passage_witness :
  exists examples,
    ColaProcessor._create_examples
      [["gj04"; "1"; ""; "it rains"]; ["gj04"; "0"; "*"; "rains it"]] "dev"
      = Ok examples /\
    Forall (fun ex => text_b ex = None) examples /\
    convert_examples_to_relevance_features char_tokenize char_ids
      examples ["0"; "1"] 8 = Raise TokenizerError.
Proof.
  eexists. split; [reflexivity|].
  destruct (cola_examples_have_no_passage char_tokenize char_ids
              [["gj04"; "1"; ""; "it rains"]; ["gj04"; "0"; "*"; "rains it"]]
              "dev" _ ["0"; "1"] 8 eq_refl) as [Hb Hr].
  split; [exact Hb|]. by apply Hr.
Defined.

(** ** The task tables *)

Lemma task_tables_lookup (task : string) (processor : DataProcessor) :
  processors !! task = Some processor ->
  num_labels_task !! task = Some (len (get_labels processor)) /\
  NoDup (get_labels processor).
Proof.
  unfold processors, num_labels_task.
  rewrite !lookup_insert. repeat case_decide; subst.
  all: try (intros [= <-]; split; [done|]; compute_done).
  rewrite !lookup_singleton. case_decide; subst; [|done].
  intros [= <-]. split; [done|]. compute_done.
Qed.

Lemma task_tables_None (task : string) :
  processors !! task = None -> num_labels_task !! task = None.
Proof.
  unfold processors, num_labels_task.
  rewrite !lookup_insert. repeat case_decide; subst; try done.
  rewrite !lookup_singleton. by case_decide.
Qed.

(** Property X15. The two task tables of [main] agree: a task has a
    processor exactly when it has a number of labels, that number is the
    length of the label list of its processor, and no label list has a
    duplicate. So once the task name has passed the check of line 556,
    neither [processors[task_name]] nor [num_labels_task[task_name]]
    raises KeyError. *)
Theorem task_tables_agree (task : string) :
  (is_Some (processors !! task) <-> is_Some (num_labels_task !! task)) /\
  (forall processor,
     processors !! task = Some processor ->
     num_labels_task !! task = Some (len (get_labels processor)) /\
     NoDup (get_labels processor)).
Proof.
  split; [|apply task_tables_lookup].
  destruct (processors !! task) as [p|] eqn:Hp.
  - apply task_tables_lookup in Hp as [-> _]. split; eauto.
  - apply task_tables_None in Hp as ->. done.
Qed.

(** ** [main]: what happens when the checks pass, and to the file system *)

Section MainFacts.

Variable Framework : Type.
Variable os_error : filesystem -> os_call -> option exn.
Variable setup_device : Args -> Framework -> Framework * result unit.
Variable seed_everything : Args -> Framework -> Framework * result unit.
Variable lower : string -> string.
Variable finetune : Args -> DataProcessor -> Z -> list string ->
  M Framework unit.

(** Property X16. When the statements between the checks return (the
    framework calls, the division of line 539 with result [batch_size],
    [os.listdir] and [os.makedirs]) and all four checks pass, [main] goes
    on to load the model, train and evaluate, with: [batch_size], that is
    [int(train_batch_size / gradient_accumulation_steps)], as the batch
    size; the processor of the lowercased task name, its label list and
    the length of that list as the number of labels; and the output
    directory in place, created empty when it was missing and left as it
    was otherwise. *)
Theorem main_enters_finetune (args : Args) (w : world Framework)
  (processor : DataProcessor) (batch_size : Z) :
  let args' := set_train_batch_size args batch_size in
  let s1 := (setup_device args w.2).1 in
  let s2 := (seed_everything args' s1).1 in
  let fs' := match stat w.1 (output_dir args) with
             | Some _ => w.1
             | None => <[output_dir args := Dir []]> w.1
             end in
  (setup_device args w.2).2 = Ok () ->
  1 <= gradient_accumulation_steps args ->
  int_truediv (train_batch_size args) (gradient_accumulation_steps args)
    ≫= int_of_float = Ok batch_size ->
  (seed_everything args' s1).2 = Ok () ->
  do_train args = true \/ do_eval args = true ->
  os_error w.1 (Listdir (output_dir args)) = None ->
  (do_train args = true -> nonempty_dir w.1 (output_dir args) = false) ->
  stat w.1 (output_dir args) <> Some File ->
  (stat w.1 (output_dir args) = None ->
   output_dir args <> "" /\
   os_error w.1 (Makedirs (output_dir args)) = None) ->
  processors !! lower (task_name args) = Some processor ->
  main Framework os_error setup_device seed_everything lower
    finetune args w
  = finetune args' processor (len (get_labels processor))
      (get_labels processor) (fs', s2) /\
  is_Some (stat fs' (output_dir args)).
Proof.
  intros args' s1 s2 fs'. subst args' s1 s2 fs'. destruct w as [fs s].
  cbn [fst snd]. intros H1 Hg Hq H2 Hmode Hlist Hdir Hfile Hmk Hp.
  destruct (task_tables_lookup _ _ Hp) as [Hnum _].
  split.
  - unfold main, bindM, framework_call, ret, raise, lift, os_path_exists,
      os_listdir, os_makedirs, lookup_task, nonempty_dir in *.
    cbn [fst snd] in *.
    destruct (setup_device args s) as [s1 r1]. cbn [fst snd] in *. subst r1.
    destruct (Z.ltb_spec (gradient_accumulation_steps args) 1); [lia|].
    cbn [fst snd]. rewrite Hq. cbn [fst snd].
    destruct (seed_everything _ s1) as [s2 r2]. cbn [fst snd] in *.
    subst r2.
    cbn [fst snd task_name output_dir do_train do_eval
         set_train_batch_size].
    replace (negb (do_train args) && negb (do_eval args))%bool with false
      by (destruct Hmode as [-> | ->]; by rewrite ?andb_false_r).
    cbn [fst snd].
    destruct (stat fs (output_dir args)) as [[|entries]|] eqn:Hst; [done| |].
    + rewrite bool_decide_true by eauto. cbn [fst snd].
      rewrite Hst, Hlist.
      assert (Hne : (bool_decide (entries <> []) && do_train args)%bool
                    = false).
      { destruct (do_train args); [|by rewrite andb_false_r].
        specialize (Hdir eq_refl). destruct entries; [|done].
        by rewrite bool_decide_false by (by intros ?). }
      rewrite Hne. cbn [fst snd]. rewrite Hst. cbn [fst snd].
      rewrite Hp, Hnum, bool_decide_true by eauto. done.
    + destruct Hmk as [Hne Hos]; [done|].
      rewrite bool_decide_false by (by intros [? ?]). cbn [fst snd].
      rewrite Hst, Hos.
      destruct (String.eqb_spec (output_dir args) ""); [done|].
      cbn [fst snd].
      rewrite Hp, Hnum, bool_decide_true by eauto. done.
  - destruct (stat fs (output_dir args)) eqn:Hst; [by rewrite Hst|].
    destruct Hmk as [Hne _]; [done|].
    unfold stat. destruct (String.eqb_spec (output_dir args) ""); [done|].
    unfold filesystem. rewrite lookup_insert. by case_decide.
Qed.

(** Property X17. [main] fails the first three checks without touching
    the file system, whatever the framework calls, the division of line
    539 and the operating system do. The check of the task name comes
    after [os.makedirs]. So when the statements before it return and the
    operating system creates the missing output directory, an unknown task
    name leaves that directory behind, empty; and with an empty output
    path [os.makedirs] raises FileNotFoundError before the task name is
    looked at, whether it is known or not. *)
Theorem main_failure_and_output_dir (args : Args) (w : world Framework) :
  (gradient_accumulation_steps args < 1 \/
   (do_train args = false /\ do_eval args = false) \/
   (do_train args = true /\ nonempty_dir w.1 (output_dir args) = true) ->
   (main Framework os_error setup_device seed_everything lower
      finetune args w).1.1 = w.1) /\
  ((forall a s, (setup_device a s).2 = Ok ()) ->
   (forall a s, (seed_everything a s).2 = Ok ()) ->
   1 <= gradient_accumulation_steps args ->
   (exists batch_size,
      int_truediv (train_batch_size args)
        (gradient_accumulation_steps args) ≫= int_of_float
      = Ok batch_size) ->
   do_train args = true \/ do_eval args = true ->
   stat w.1 (output_dir args) = None ->
   (output_dir args <> "" ->
    os_error w.1 (Makedirs (output_dir args)) = None ->
    processors !! lower (task_name args) = None ->
    exists s',
      main Framework os_error setup_device seed_everything lower
        finetune args w
      = ((<[output_dir args := Dir []]> w.1, s'),
         Raise (ValueError
                  ("Task not found: " +:+ lower (task_name args))))) /\
   (output_dir args = "" ->
    exists s',
      main Framework os_error setup_device seed_everything lower
        finetune args w
      = ((w.1, s'), Raise FileNotFoundError))).
Proof.
  destruct w as [fs s].
  unfold main, bindM, framework_call, ret, raise, lift, os_path_exists,
    os_listdir, os_makedirs, lookup_task, nonempty_dir.
  cbn [fst snd]. split.
  - intros Hbad.
    destruct (setup_device args s) as [s1 [[]|e1]]; [|done].
    destruct (Z.ltb_spec (gradient_accumulation_steps args) 1) as [Hg|Hg];
      [done|].
    cbn [fst snd].
    destruct (int_truediv _ _ ≫= int_of_float) as [batch_size|e0]; [|done].
    cbn [fst snd].
    destruct (seed_everything _ s1) as [s2 [[]|e2]]; [|done].
    cbn [fst snd task_name output_dir do_train do_eval
         set_train_batch_size].
    destruct Hbad as [?|[[-> ->]|[-> Hdir]]]; [lia|done|].
    cbn [negb andb fst snd].
    destruct (stat fs (output_dir args)) as [[|[|entry entries]]|] eqn:Hst;
      try done.
    rewrite bool_decide_true by eauto. cbn [fst snd]. rewrite Hst.
    destruct (os_error fs (Listdir (output_dir args))); [done|].
    cbn [fst snd]. by rewrite bool_decide_true.
  - intros H1 H2 Hg [batch_size Hq] Hmode Hst.
    specialize (H1 args s).
    destruct (setup_device args s) as [s1 r1]. cbn [snd] in H1. subst r1.
    destruct (Z.ltb_spec (gradient_accumulation_steps args) 1); [lia|].
    cbn [fst snd]. rewrite Hq. cbn [fst snd].
    match goal with
    | |- context [seed_everything ?a ?s] =>
      specialize (H2 a s); destruct (seed_everything a s) as [s2 r2]
    end.
    cbn [snd] in H2. subst r2.
    cbn [fst snd task_name output_dir do_train do_eval
         set_train_batch_size].
    replace (negb (do_train args) && negb (do_eval args))%bool with false
      by (destruct Hmode as [-> | ->]; by rewrite ?andb_false_r).
    cbn [fst snd]. rewrite Hst.
    rewrite bool_decide_false by (by intros [? ?]). cbn [fst snd].
    rewrite Hst. split.
    + intros Hne Hos Hp. rewrite Hos.
      destruct (String.eqb_spec (output_dir args) ""); [done|].
      cbn [fst snd]. rewrite Hp.
      rewrite bool_decide_false by (by intros [? ?]). cbn [fst snd].
      by exists s2.
    + intros Hempty.
      destruct (String.eqb_spec (output_dir args) ""); [|done].
      by exists s2.
Qed.

End MainFacts.

(** The task TextQnA with a missing output directory. *)
Lemma main_enters_finetune_witness :
  1 <= gradient_accumulation_steps sample_textqna_args /\
  int_truediv (train_batch_size sample_textqna_args)
    (gradient_accumulation_steps sample_textqna_args) ≫= int_of_float
    = Ok 16 /\
  processors !! ascii_lower (task_name sample_textqna_args)
    = Some TextQnA.new /\
  forall finetune,
    main unit no_os_error no_op no_op ascii_lower finetune
      sample_textqna_args (∅, ())
    = finetune (set_train_batch_size sample_textqna_args 16) TextQnA.new 2
        ["0"; "1"] ({["out" := Dir []]}, ()).
Proof.
  split; [simpl; lia|]. split; [by vm_compute|]. split; [reflexivity|].
  intros finetune.
  destruct (main_enters_finetune unit no_os_error no_op no_op ascii_lower
              finetune sample_textqna_args (∅, ()) TextQnA.new 16)
    as [H _];
    [ done | by simpl | by vm_compute | done | by left | done | done
    | done | done | done | exact H ].
Defined.

(** An unknown task name with a missing output directory. *)
Lemma main_failure_and_output_dir_witness :
  1 <= gradient_accumulation_steps sample_args /\
  processors !! ascii_lower (task_name sample_args) = None /\
  forall finetune, exists s',
    main unit no_os_error no_op no_op ascii_lower finetune sample_args
      (∅, ())
    = (({["out" := Dir []]}, s'),
       Raise (ValueError "Task not found: sst-2")).
Proof.
  split; [simpl; lia|]. split; [reflexivity|]. intros finetune.
  destruct (main_failure_and_output_dir unit no_os_error no_op no_op
              ascii_lower finetune sample_args (∅, ())) as [_ H].
  destruct H as [H _];
    [ done | done | by simpl | by exists 32; vm_compute | by left | done |].
  apply H; done.
Defined.

(** ** The training loop *)

Lemma py_range_succ (n : Z) :
  0 <= n -> py_range (n + 1) = py_range n ++ [n].
Proof.
  intros Hn. unfold py_range.
  replace (Z.to_nat (n + 1)) with (S (Z.to_nat n)) by lia.
  rewrite seq_S, fmap_app. simpl. by rewrite Z2Nat.id.
Qed.

Lemma for_in_app {A S : Type} (body : A -> S -> result S) (l1 l2 : list A)
  (st : S) :
  for_in body (l1 ++ l2) st = for_in body l1 st ≫= for_in body l2.
Proof.
  revert st. induction l1 as [|x l1 IH]; intros st; simpl; [done|].
  destruct (body x st) as [st'|e]; simpl; [apply IH|done].
Qed.

Lemma py_mod_Ok (a b : Z) : b <> 0 -> py_mod a b = Ok (a mod b).
Proof. intros Hb. unfold py_mod. by destruct (Z.eqb_spec b 0). Qed.

(** With [gas >= 1], one more batch adds an optimizer step exactly when
    the number of batches becomes a multiple of [gas]. *)
Lemma div_succ (n gas : Z) :
  0 <= n -> 1 <= gas ->
  (n + 1) / gas = n / gas + (if (n + 1) mod gas =? 0 then 1 else 0).
Proof.
  intros Hn Hg. destruct (Z.eqb_spec ((n + 1) mod gas) 0) as [H0|H0];
    Z.div_mod_to_equations; nia.
Qed.

Section TrainingFacts.
Import PrimFloat.

Variable true_div : Z -> Z -> float.
Variable learning_rate : float.
Variable warmup_proportion : float.
Variable gradient_accumulation_steps : Z.
Variable t_total : Z.

Local Abbreviation train_batch :=
  (train_batch true_div learning_rate warmup_proportion
     gradient_accumulation_steps t_total).
Local Abbreviation train_one_epoch :=
  (train_one_epoch true_div learning_rate warmup_proportion
     gradient_accumulation_steps t_total).
Local Abbreviation train :=
  (train true_div learning_rate warmup_proportion
     gradient_accumulation_steps t_total).
Local Abbreviation trace_consistent :=
  (trace_consistent true_div learning_rate warmup_proportion t_total).

(** What one batch does to the state, when it returns. *)
Lemma train_batch_Ok (step : nat) (st st' : train_state) :
  train_batch step st = Ok st' ->
  gradient_accumulation_steps <> 0 /\
  train_epoch st' = train_epoch st /\
  ((Z.of_nat step + 1) mod gradient_accumulation_steps <> 0 /\
   global_step st' = global_step st /\
   trace st' = trace st ++ [Backward step]
   \/
   (Z.of_nat step + 1) mod gradient_accumulation_steps = 0 /\
   t_total <> 0 /\
   global_step st' = global_step st + 1 /\
   exists factor,
     warmup_linear (true_div (global_step st) t_total) warmup_proportion
       = Ok factor /\
     trace st' = trace st ++ [Backward step]
                   ++ [OptimizerStep (learning_rate * factor)]).
Proof.
  unfold train_batch, py_mod, progress, record. cbn [global_step].
  destruct (Z.eqb_spec gradient_accumulation_steps 0) as [|Hg]; [done|].
  cbn [mbind result_bind].
  destruct (Z.eqb_spec ((Z.of_nat step + 1) mod gradient_accumulation_steps)
              0) as [H0|H0].
  - destruct (Z.eqb_spec t_total 0) as [|Ht]; [done|].
    cbn [mbind result_bind].
    destruct (warmup_linear _ warmup_proportion) as [factor|] eqn:Hw;
      [|done].
    cbn [mbind result_bind]. intros [= <-]. cbn.
    split_and!; [done..|]. right. split_and!; [done..|].
    exists factor. by rewrite <- app_assoc.
  - intros [= <-]. cbn. split_and!; [done..|]. left. by split_and!.
Qed.

Lemma trace_consistent_train_batch (step : nat) (st st' : train_state) :
  trace_consistent st -> train_batch step st = Ok st' ->
  trace_consistent st' /\ train_epoch st' = train_epoch st.
Proof.
  intros (Hg & He & Hsaved & Hlr) H.
  apply train_batch_Ok in H
    as (_ & Hep & [(_ & Hgs & Htr)|(_ & _ & Hgs & factor & Hw & Htr)]);
    (split; [|done]); red; rewrite Hep, Hgs, Htr;
    unfold saved_model_files, learning_rates in *;
    rewrite !omap_app; cbn; rewrite !app_nil_r.
  - by split_and!.
  - split_and!; [lia|done..|].
    rewrite py_range_succ by done. apply Forall2_app; [done|].
    constructor; [|constructor]. eauto.
Qed.

Lemma trace_consistent_batches (steps : list nat) (st st' : train_state) :
  trace_consistent st -> for_in train_batch steps st = Ok st' ->
  trace_consistent st' /\ train_epoch st' = train_epoch st.
Proof.
  revert st. induction steps as [|step steps IH]; intros st Hst; simpl.
  - by intros [= <-].
  - intros (st1 & H1 & H)%bind_Ok.
    destruct (trace_consistent_train_batch _ _ _ Hst H1) as [Hst1 He1].
    destruct (IH _ Hst1 H) as [? ?]. split; [done|congruence].
Qed.

Lemma trace_consistent_epoch (batches : nat) (st st' : train_state) :
  trace_consistent st -> train_one_epoch batches st = Ok st' ->
  trace_consistent st' /\ train_epoch st' = train_epoch st + 1.
Proof.
  intros Hst. unfold train_one_epoch, record.
  intros (st1 & H1 & [= <-])%bind_Ok. cbn.
  destruct (trace_consistent_batches _ _ _ Hst H1)
    as [(Hg & He & Hsaved & Hlr) Hep].
  split; [|lia]. red. cbn.
  unfold saved_model_files, learning_rates, evaluated_model_files in *.
  rewrite !omap_app. cbn. rewrite app_nil_r.
  split_and!; [done|lia| |done].
  by rewrite py_range_succ, fmap_app, Hsaved by done.
Qed.

Lemma trace_consistent_epochs (batches : nat) (l : list Z)
  (st st' : train_state) :
  trace_consistent st ->
  for_in (fun _ => train_one_epoch batches) l st = Ok st' ->
  trace_consistent st' /\ train_epoch st' = train_epoch st + len l.
Proof.
  revert st. induction l as [|x l IH]; intros st Hst; simpl.
  - intros [= <-]. split; [done|]. unfold len. simpl. lia.
  - intros (st1 & H1 & H)%bind_Ok.
    destruct (trace_consistent_epoch _ _ _ Hst H1) as [Hst1 He1].
    destruct (IH _ Hst1 H) as [? ?]. split; [done|].
    rewrite len_cons. lia.
Qed.

Lemma len_py_range (n : Z) : len (py_range n) = Z.max 0 n.
Proof. unfold len, py_range. rewrite length_fmap, length_seq. lia. Qed.

Lemma evaluated_model_files_max (n : Z) :
  evaluated_model_files (Z.max 0 n) = evaluated_model_files n.
Proof.
  unfold evaluated_model_files, py_range. do 3 f_equal. lia.
Qed.

(** Property X18. Whenever the training loop returns: it has saved one
    checkpoint per epoch, under exactly the file names that the
    evaluation loop loads, in the same order; and it has made
    [global_step] optimizer steps, the one numbered [k] (from 0) with the
    learning rate [learning_rate * warmup_linear(k / t_total,
    warmup_proportion)]. *)
Theorem train_saves_what_evaluation_loads (batches : nat)
  (num_train_epochs : Z) (st : train_state) :
  train batches num_train_epochs = Ok st ->
  train_epoch st = Z.max 0 num_train_epochs /\
  saved_model_files (trace st) = evaluated_model_files num_train_epochs /\
  len (learning_rates (trace st)) = global_step st /\
  Forall2 (fun k lr =>
    exists factor,
      warmup_linear (true_div k t_total) warmup_proportion = Ok factor /\
      lr = (learning_rate * factor)%float)
    (py_range (global_step st)) (learning_rates (trace st)).
Proof.
  unfold train. intros H.
  apply trace_consistent_epochs in H as [(Hg & He & Hsaved & Hlr) Hep].
  2:{ red. cbn. split_and!; [done..|constructor]. }
  cbn [train_epoch] in Hep. rewrite len_py_range, Z.add_0_l in Hep.
  split_and!; [done| |  |done].
  - by rewrite Hsaved, Hep, evaluated_model_files_max.
  - apply Forall2_length in Hlr. unfold len. rewrite <- Hlr.
    fold (len (py_range (global_step st))). rewrite len_py_range. lia.
Qed.

(** *** Runs that complete *)

Hypothesis accumulation_positive : 1 <= gradient_accumulation_steps.
Hypothesis total_not_zero : t_total <> 0.
Hypothesis warmup_not_zero : (warmup_proportion =? 0)%float = false.

Lemma warmup_linear_Ok (x : float) :
  exists factor, warmup_linear x warmup_proportion = Ok factor.
Proof.
  unfold warmup_linear. rewrite warmup_not_zero.
  destruct (x <? warmup_proportion)%float; eauto.
Qed.

Lemma train_batch_total (step : nat) (st : train_state) :
  exists st',
    train_batch step st = Ok st' /\
    global_step st' = global_step st +
      (if (Z.of_nat step + 1) mod gradient_accumulation_steps =? 0
       then 1 else 0) /\
    backward_steps (trace st') = backward_steps (trace st) ++ [step].
Proof.
  unfold train_batch, progress, record. cbn [global_step trace].
  rewrite py_mod_Ok by lia. cbn [mbind result_bind].
  unfold backward_steps.
  destruct (Z.eqb_spec ((Z.of_nat step + 1) mod gradient_accumulation_steps)
              0) as [H0|H0].
  - destruct (Z.eqb_spec t_total 0) as [|_]; [done|].
    cbn [mbind result_bind].
    destruct (warmup_linear_Ok (true_div (global_step st) t_total))
      as [factor ->].
    cbn [mbind result_bind]. eexists. split; [done|]. cbn.
    split; [done|]. rewrite !omap_app. cbn. by rewrite app_nil_r.
  - eexists. split; [done|]. cbn. split; [lia|]. by rewrite omap_app.
Qed.

Lemma train_batches_total (n : nat) (st : train_state) :
  exists st',
    for_in train_batch (seq 0 n) st = Ok st' /\
    global_step st' =
      global_step st + Z.of_nat n / gradient_accumulation_steps /\
    backward_steps (trace st') = backward_steps (trace st) ++ seq 0 n.
Proof.
  induction n as [|n (st1 & H1 & Hg1 & Hb1)].
  - exists st. cbn. rewrite Z.div_0_l by lia. split_and!; [done|lia|].
    by rewrite app_nil_r.
  - destruct (train_batch_total n st1) as (st2 & H2 & Hg2 & Hb2).
    exists st2. rewrite seq_S, for_in_app, H1. cbn.
    rewrite H2. split_and!; [done| |].
    + rewrite Hg2, Hg1, Nat2Z.inj_succ, <- Z.add_1_r.
      rewrite (div_succ (Z.of_nat n)) by lia. lia.
    + by rewrite Hb2, Hb1, <- app_assoc.
Qed.

Lemma train_one_epoch_total (batches : nat) (st : train_state) :
  exists st',
    train_one_epoch batches st = Ok st' /\
    global_step st' =
      global_step st + Z.of_nat batches / gradient_accumulation_steps /\
    backward_steps (trace st') = backward_steps (trace st) ++ seq 0 batches.
Proof.
  destruct (train_batches_total batches st) as (st1 & H1 & Hg1 & Hb1).
  unfold train_one_epoch. rewrite H1. cbn [mbind result_bind].
  eexists. split; [done|]. cbn. split; [done|].
  unfold backward_steps in *. rewrite omap_app. cbn.
  by rewrite app_nil_r.
Qed.

Lemma train_epochs_total (batches : nat) (l : list Z) (st : train_state) :
  exists st',
    for_in (fun _ => train_one_epoch batches) l st = Ok st' /\
    global_step st' =
      global_step st
      + len l * (Z.of_nat batches / gradient_accumulation_steps) /\
    backward_steps (trace st') =
      backward_steps (trace st)
        ++ mjoin (replicate (length l) (seq 0 batches)).
Proof.
  revert st. induction l as [|x l IH]; intros st.
  - exists st. cbn [for_in replicate length mjoin list_join].
    replace (len (@nil Z)) with 0 by done.
    split_and!; [done|lia|by rewrite app_nil_r].
  - destruct (train_one_epoch_total batches st) as (st1 & H1 & Hg1 & Hb1).
    destruct (IH st1) as (st2 & H2 & Hg2 & Hb2).
    exists st2. cbn [for_in]. rewrite H1. cbn [mbind result_bind].
    split_and!; [done| |].
    + rewrite Hg2, Hg1, len_cons. lia.
    + rewrite Hb2, Hb1, <- app_assoc. done.
Qed.

(** Property X19. With [gradient_accumulation_steps >= 1], a non-zero
    [t_total] and a non-zero [warmup_proportion], the training loop
    returns, after [epochs * floor(batches / gradient_accumulation_steps)]
    optimizer steps, [epochs] being [num_train_epochs] or 0 when that is
    negative. It has called [backward] on every batch of every epoch: the
    batches left over at the end of an epoch get a backward pass but no
    optimizer step of their own, since [step] starts again from 0. *)
Theorem train_completes (batches : nat) (num_train_epochs : Z) :
  exists st,
    train batches num_train_epochs = Ok st /\
    global_step st =
      Z.max 0 num_train_epochs
      * (Z.of_nat batches / gradient_accumulation_steps) /\
    backward_steps (trace st) =
      mjoin (replicate (Z.to_nat num_train_epochs) (seq 0 batches)).
Proof.
  unfold train.
  destruct (train_epochs_total batches (py_range num_train_epochs)
              {| global_step := 0; train_epoch := 0; trace := [] |})
    as (st & H & Hg & Hb).
  exists st. split; [done|]. rewrite Hg, Hb, len_py_range. cbn.
  split; [done|]. unfold py_range. by rewrite length_fmap, length_seq.
Qed.

End TrainingFacts.

(** Three epochs of five batches, two batches to an optimizer step. *)
Lemma train_saves_what_evaluation_loads_witness :
  exists st,
    train sample_true_div sample_learning_rate sample_warmup_proportion
      2 6 5 3 = Ok st /\
    global_step st = 6 /\
    saved_model_files (trace st) =
      ["pytorch_model_0.bin"; "pytorch_model_1.bin"; "pytorch_model_2.bin"]
    /\
    evaluated_model_files 3 =
      ["pytorch_model_0.bin"; "pytorch_model_1.bin"; "pytorch_model_2.bin"]
    /\
    saved_model_files (trace st) = evaluated_model_files 3.
Proof.
  eexists. split; [vm_compute; reflexivity|].
  split; [reflexivity|]. split; [reflexivity|]. split; [reflexivity|].
  destruct (train_saves_what_evaluation_loads sample_true_div
              sample_learning_rate sample_warmup_proportion 2 6 5 3 _
              ltac:(vm_compute; reflexivity)) as (_ & H & _).
  exact H.
Defined.

Section TrainingSamples.
Import PrimFloat.

(** The same run: it completes after six optimizer steps. *)
Lemma train_completes_witness :
  1 <= 2 /\ 6 <> 0 /\
  (sample_warmup_proportion =? 0)%float = false /\
  exists st,
    train sample_true_div sample_learning_rate sample_warmup_proportion
      2 6 5 3 = Ok st /\
    global_step st = 6.
Proof.
  split; [lia|]. split; [lia|]. split; [reflexivity|].
  destruct (train_completes sample_true_div sample_learning_rate
              sample_warmup_proportion 2 6 ltac:(lia) ltac:(lia) eq_refl 5 3)
    as (st & H & Hg & _).
  exists st. split; [exact H|]. exact Hg.
Defined.

End TrainingSamples.

(** *** A schedule of zero steps *)

Section ZeroTotal.

Variable true_div : Z -> Z -> PrimFloat.float.
Variable learning_rate : PrimFloat.float.
Variable warmup_proportion : PrimFloat.float.
Variable gradient_accumulation_steps : Z.

Local Abbreviation train_batch_0 :=
  (train_batch true_div learning_rate warmup_proportion
     gradient_accumulation_steps 0).

(** Before the first optimizer step nothing can fail. *)
Lemma train_batches_accumulate (k : nat) (st : train_state) :
  Z.of_nat k < gradient_accumulation_steps ->
  exists st',
    for_in train_batch_0 (seq 0 k) st = Ok st' /\
    global_step st' = global_step st /\
    saved_model_files (trace st') = saved_model_files (trace st).
Proof.
  induction k as [|k IH]; intros Hk.
  - by exists st.
  - destruct IH as (st1 & H1 & Hg1 & Hs1); [lia|].
    rewrite seq_S, for_in_app, H1. cbn.
    unfold train_batch. rewrite py_mod_Ok by lia. cbn.
    rewrite Z.mod_small by lia.
    destruct (Z.eqb_spec (Z.of_nat k + 1) 0); [lia|].
    eexists. split; [done|]. cbn. split; [done|].
    unfold saved_model_files in *. rewrite omap_app. cbn.
    by rewrite app_nil_r.
Qed.

(** Property X20. With [t_total = 0] (a training set so small that
    [num_train_steps] rounds down to zero), as soon as an epoch has
    [gradient_accumulation_steps] batches the training loop raises
    ZeroDivisionError at its first optimizer step, from
    [global_step/t_total]: the loop over the batches of the first epoch
    does not finish, so no checkpoint is saved. *)
Theorem train_zero_total (batches : nat) (num_train_epochs : Z) :
  1 <= gradient_accumulation_steps <= Z.of_nat batches ->
  1 <= num_train_epochs ->
  for_in train_batch_0 (seq 0 batches)
    {| global_step := 0; train_epoch := 0; trace := [] |}
    = Raise ZeroDivisionError /\
  train true_div learning_rate warmup_proportion
    gradient_accumulation_steps 0 batches num_train_epochs
    = Raise ZeroDivisionError.
Proof.
  intros Hg He.
  assert (Hloop : for_in train_batch_0 (seq 0 batches)
            {| global_step := 0; train_epoch := 0; trace := [] |}
          = Raise ZeroDivisionError).
  { set (k := Z.to_nat (gradient_accumulation_steps - 1)).
    replace batches with (k + S (batches - S k))%nat by lia.
    rewrite seq_app, for_in_app.
    destruct (train_batches_accumulate k
                {| global_step := 0; train_epoch := 0; trace := [] |})
      as (st1 & -> & _); [lia|].
    cbn [mbind result_bind seq for_in Nat.add].
    unfold train_batch. rewrite py_mod_Ok by lia. cbn [mbind result_bind].
    replace (Z.of_nat k + 1) with gradient_accumulation_steps by lia.
    rewrite Z.mod_same by lia. cbn. done. }
  split; [done|].
  assert (exists x l, py_range num_train_epochs = x :: l) as (x & l & Hl).
  { destruct (py_range num_train_epochs) eqn:E; [|eauto].
    pose proof (len_py_range num_train_epochs) as Hlen.
    rewrite E in Hlen. unfold len in Hlen. simpl in Hlen. lia. }
  unfold train. rewrite Hl. cbn [for_in].
  unfold train_one_epoch. by rewrite Hloop.
Qed.

End ZeroTotal.

(** Three batches, two to an optimizer step, and no step planned. *)
Lemma train_zero_total_witness :
  1 <= 2 <= Z.of_nat 3 /\ 1 <= 1 /\
  train sample_true_div sample_learning_rate sample_warmup_proportion
    2 0 3 1 = Raise ZeroDivisionError.
Proof.
  split; [lia|]. split; [lia|].
  destruct (train_zero_total sample_true_div sample_learning_rate
              sample_warmup_proportion 2 3 1 ltac:(lia) ltac:(lia))
    as [_ H].
  exact H.
Defined.
